(** * Research Hub: the synchronisation core of [src/App.jsx]

    A shallow embedding of the Firestore-backed handlers of the [App]
    component: the like/unlike transaction, the paper and comment CRUD
    handlers, the two snapshot listeners and the cascading delete.

    Conventions of the embedding
    - a Firestore collection is a finite map from document ids to document
      data ([gmap string _]); a query snapshot is the list [snapshot.docs];
    - a field that a document may lack is an [option];
    - JavaScript numbers that the code uses as counters or seconds are [Z];
      the handlers compute the counter in [Z], which is what the code
      computes while the counter is a safe integer (below [2^53] in
      magnitude), and [toNumber] gives what a JavaScript number holds beyond;
    - text is a byte string; the string functions of the embedding ([trim],
      [toLowerCase]) are those of JavaScript on ASCII text ([isAscii]), and
      the theorems that depend on them are stated for such text; every paper
      of the embedding has a title and a content;
    - React state is the record [App.t]; every [setX] of the component is
      the setter of the same name;
    - what the outside world decides during one handler call (the server
      clock, the id given by [addDoc], which store calls reject) is the
      record [Env.t]. *)

From stdpp Require Import base option list strings gmap fin_maps sorting.
From Stdlib Require Import ZArith Lia.

Local Open Scope string_scope.
Local Open Scope list_scope.

(** ** Documents *)

(** Data of a document of the [papers] collection, as [doc.data()] yields it. *)
Module PaperData.
Record t := mk {
  title : string;
  content : string;
  authorId : string;
  likes : option Z;
  likedBy : option (list string);
  createdAt : option Z;
  updatedAt : option Z;
}.
End PaperData.

(** The client-side object [{ id: doc.id, ...doc.data() }]. *)
Module Paper.
Record t := mk {
  id : string;
  data : PaperData.t;
}.
Definition title (p : t) := PaperData.title (data p).
Definition content (p : t) := PaperData.content (data p).
Definition authorId (p : t) := PaperData.authorId (data p).
Definition likes (p : t) := PaperData.likes (data p).
Definition likedBy (p : t) := PaperData.likedBy (data p).
End Paper.

(** A Firestore [Timestamp]: the whole seconds since the epoch and the
    nanoseconds within the second. The code reads [seconds] only. *)
Module Timestamp.
Record t := mk { seconds : Z; nanoseconds : Z }.

(** The timestamp of a reading [clock] of the server clock, in nanoseconds
    since the epoch. *)
Definition ofClock (clock : Z) : t :=
  mk (clock / 1000000000)%Z (clock mod 1000000000)%Z.

(** [a] is an earlier instant than [b]. *)
Definition earlier (a b : t) : Prop :=
  (seconds a < seconds b)%Z
  ∨ (seconds a = seconds b ∧ (nanoseconds a < nanoseconds b)%Z).
End Timestamp.

Module CommentData.
Record t := mk {
  paperId : string;
  userId : string;
  text : string;
  timestamp : option Timestamp.t;
}.
End CommentData.

Module Comment.
Record t := mk {
  id : string;
  data : CommentData.t;
}.
Definition paperId (c : t) := CommentData.paperId (data c).
Definition userId (c : t) := CommentData.userId (data c).
Definition timestamp (c : t) := CommentData.timestamp (data c).
End Comment.

#[global] Instance PaperData_eq_dec : EqDecision PaperData.t.
Proof. solve_decision. Defined.
#[global] Instance Paper_eq_dec : EqDecision Paper.t.
Proof. solve_decision. Defined.
#[global] Instance Timestamp_eq_dec : EqDecision Timestamp.t.
Proof. solve_decision. Defined.
#[global] Instance CommentData_eq_dec : EqDecision CommentData.t.
Proof. solve_decision. Defined.
#[global] Instance Comment_eq_dec : EqDecision Comment.t.
Proof. solve_decision. Defined.

(** The two collections of the store. *)
Module Store.
Record t := mk {
  papers : gmap string PaperData.t;
  comments : gmap string CommentData.t;
}.
Definition setPapers (ps : gmap string PaperData.t) (st : t) : t :=
  mk ps (comments st).
Definition setComments (cs : gmap string CommentData.t) (st : t) : t :=
  mk (papers st) cs.
End Store.

(** ** JavaScript idioms used by the handlers *)

(** [x || 0] on a number that may be missing: [undefined], [null] and [0]
    are falsy. *)
Definition orZero (x : option Z) : Z :=
  match x with
  | Some n => if (n =? 0)%Z then 0%Z else n
  | None => 0%Z
  end.

(** [xs || []] on an array that may be missing (an array is always truthy). *)
Definition orEmpty {A} (xs : option (list A)) : list A :=
  match xs with
  | Some l => l
  | None => []
  end.

(** [arr.includes(x)] *)
Definition includes (x : string) (arr : list string) : bool :=
  bool_decide (x ∈ arr).

(** Truthiness of a string that may be [null]: [null] and the empty string
    are falsy. *)
Definition truthy (s : option string) : bool :=
  match s with
  | Some EmptyString => false
  | Some _ => true
  | None => false
  end.

(** ** The like transaction (App.jsx, lines 309-344) *)

(** [transaction.update(paperDocRef, { likes, likedBy })]: the two fields are
    written by one update, the others are kept. *)
Definition updateLikes (newLikesCount : Z) (newLikedBy : list string)
    (d : PaperData.t) : PaperData.t :=
  PaperData.mk (PaperData.title d) (PaperData.content d) (PaperData.authorId d)
    (Some newLikesCount) (Some newLikedBy)
    (PaperData.createdAt d) (PaperData.updatedAt d).

(** The body of the transaction callback after the existence check: from the
    data read, the data written, with the counter computed in [Z]. This is
    the callback on every paper whose counter is a safe integer
    ([toggleLikeNumber_safe] below); the handlers and the contention model
    are built on it. *)
Definition toggleLikeData (userId : string) (data : PaperData.t) : PaperData.t :=
  let likedBy := orEmpty (PaperData.likedBy data) in
  let isCurrentlyLiked := includes userId likedBy in
  let newLikesCount := orZero (PaperData.likes data) in
  if isCurrentlyLiked then
    updateLikes (Z.max 0 (newLikesCount - 1))
                (filter (λ uid, uid ≠ userId) likedBy) data
  else if negb (includes userId likedBy) then
    updateLikes (newLikesCount + 1) (likedBy ++ [userId]) data
  else
    updateLikes newLikesCount likedBy data.

(** Result of a transaction: the callback threw, or the writes committed. *)
Inductive TxResult :=
| TxError (message : string)
| TxCommitted (papers : gmap string PaperData.t).

(** The message of the [Error] thrown when the paper no longer exists; this
    is the [NotFound] failure of the operation. *)
Definition NotFound : string := "Document does not exist!".

(** [toggleLike paperId callerId]: the callback given to [runTransaction],
    run atomically on the [papers] collection. *)
Definition toggleLike (paperId callerId : string)
    (papers : gmap string PaperData.t) : TxResult :=
  match papers !! paperId with
  | None => TxError NotFound
  | Some data => TxCommitted (<[paperId := toggleLikeData callerId data]> papers)
  end.

(** The collection after the call, whether it committed or failed. *)
Definition papersAfter (r : TxResult) (before : gmap string PaperData.t) :
    gmap string PaperData.t :=
  match r with
  | TxError _ => before
  | TxCommitted ps => ps
  end.

(** The effective values of the like fields of a document. *)
Definition likesOf (d : PaperData.t) : Z := orZero (PaperData.likes d).
Definition likedByOf (d : PaperData.t) : list string := orEmpty (PaperData.likedBy d).

(** *** The counter as a JavaScript number *)

(** [2^53]: up to it, in magnitude, every integer is a JavaScript number. *)
Definition maxExact : Z := 9007199254740992.

(** The JavaScript number that an integer result becomes: itself up to
    [2^53]; beyond, the nearest number with a significand of 53 bits, a tie
    going to the even significand (the rounding of binary64 arithmetic,
    within the finite range of the format). *)
Definition toNumber (z : Z) : Z :=
  let a := Z.abs z in
  if (a <=? maxExact)%Z then z
  else
    let e := (Z.log2 a - 52)%Z in
    let q := (a / 2 ^ e)%Z in
    let r := (a mod 2 ^ e)%Z in
    let half := (2 ^ (e - 1))%Z in
    let up := (half <? r)%Z || ((r =? half)%Z && Z.odd q) in
    (Z.sgn z * ((if up then q + 1 else q) * 2 ^ e))%Z.

(** [Number.isSafeInteger(n)], for an integer [n]. *)
Definition safeInteger (n : Z) : Prop := (- maxExact < n < maxExact)%Z.

(** The body of the transaction callback with the arithmetic of lines 325
    and 331 as JavaScript performs it on numbers. *)
Definition toggleLikeNumber (userId : string) (data : PaperData.t) : PaperData.t :=
  let likedBy := orEmpty (PaperData.likedBy data) in
  let isCurrentlyLiked := includes userId likedBy in
  let newLikesCount := orZero (PaperData.likes data) in
  if isCurrentlyLiked then
    updateLikes (Z.max 0 (toNumber (newLikesCount - 1)))
                (filter (λ uid, uid ≠ userId) likedBy) data
  else if negb (includes userId likedBy) then
    updateLikes (toNumber (newLikesCount + 1)) (likedBy ++ [userId]) data
  else
    updateLikes newLikesCount likedBy data.

(** The callback given to [runTransaction] (lines 309-344), run atomically
    on the [papers] collection, on every number the counter can hold. *)
Definition likeTransaction (paperId callerId : string)
    (papers : gmap string PaperData.t) : TxResult :=
  match papers !! paperId with
  | None => TxError NotFound
  | Some data => TxCommitted (<[paperId := toggleLikeNumber callerId data]> papers)
  end.

(** [n] successive calls of [toggleLike] by the same caller. *)
Fixpoint toggleTimes (n : nat) (paperId callerId : string)
    (papers : gmap string PaperData.t) : gmap string PaperData.t :=
  match n with
  | O => papers
  | S k => toggleTimes k paperId callerId
             (papersAfter (toggleLike paperId callerId papers) papers)
  end.

(** ** Strings *)

(** Text of the 7-bit ASCII range. On such text a byte string is the
    JavaScript string character by character, and [trim] and [toLowerCase]
    below are [String.prototype.trim] and [String.prototype.toLowerCase]. *)
Definition isAsciiChar (c : Ascii.ascii) : bool :=
  (Ascii.nat_of_ascii c <? 128)%nat.

Fixpoint isAscii (s : string) : bool :=
  match s with
  | EmptyString => true
  | String c rest => isAsciiChar c && isAscii rest
  end.

(** The white space that [String.prototype.trim] strips from ASCII text:
    TAB, LF, VT, FF, CR and SPACE. (Outside ASCII the language strips more:
    U+00A0, U+FEFF, the Unicode space separators, U+2028 and U+2029.) *)
Definition isWhiteSpace (c : Ascii.ascii) : bool :=
  let n := Ascii.nat_of_ascii c in
  (n =? 9)%nat || (n =? 10)%nat || (n =? 11)%nat || (n =? 12)%nat
  || (n =? 13)%nat || (n =? 32)%nat.

Fixpoint trimStart (s : string) : string :=
  match s with
  | EmptyString => EmptyString
  | String c rest => if isWhiteSpace c then trimStart rest else s
  end.

Definition trimEnd (s : string) : string :=
  String.rev (trimStart (String.rev s)).

(** [s.trim()] *)
Definition trim (s : string) : string := trimEnd (trimStart s).

(** [s === ''] *)
Definition isEmpty (s : string) : bool := bool_decide (s = EmptyString).

(** ** React state of the [App] component *)

Module App.
Record t := mk {
  db : bool;                          (* the Firestore handle is set *)
  userId : option string;             (* [null] until authenticated *)
  dbError : option string;
  papers : list Paper.t;
  selectedPaper : option Paper.t;     (* the focus *)
  comments : list Comment.t;
  newPaperTitle : string;
  newPaperContent : string;
  newCommentText : string;
  isEditing : bool;                   (* edit mode *)
  editTitle : string;
  editContent : string;
  showDeleteConfirmation : bool;
}.

Definition setDbError (v : option string) (a : t) : t :=
  mk (db a) (userId a) v (papers a) (selectedPaper a) (comments a)
     (newPaperTitle a) (newPaperContent a) (newCommentText a)
     (isEditing a) (editTitle a) (editContent a) (showDeleteConfirmation a).
Definition setPapers (v : list Paper.t) (a : t) : t :=
  mk (db a) (userId a) (dbError a) v (selectedPaper a) (comments a)
     (newPaperTitle a) (newPaperContent a) (newCommentText a)
     (isEditing a) (editTitle a) (editContent a) (showDeleteConfirmation a).
Definition setSelectedPaper (v : option Paper.t) (a : t) : t :=
  mk (db a) (userId a) (dbError a) (papers a) v (comments a)
     (newPaperTitle a) (newPaperContent a) (newCommentText a)
     (isEditing a) (editTitle a) (editContent a) (showDeleteConfirmation a).
Definition setComments (v : list Comment.t) (a : t) : t :=
  mk (db a) (userId a) (dbError a) (papers a) (selectedPaper a) v
     (newPaperTitle a) (newPaperContent a) (newCommentText a)
     (isEditing a) (editTitle a) (editContent a) (showDeleteConfirmation a).
Definition setNewPaperTitle (v : string) (a : t) : t :=
  mk (db a) (userId a) (dbError a) (papers a) (selectedPaper a) (comments a)
     v (newPaperContent a) (newCommentText a)
     (isEditing a) (editTitle a) (editContent a) (showDeleteConfirmation a).
Definition setNewPaperContent (v : string) (a : t) : t :=
  mk (db a) (userId a) (dbError a) (papers a) (selectedPaper a) (comments a)
     (newPaperTitle a) v (newCommentText a)
     (isEditing a) (editTitle a) (editContent a) (showDeleteConfirmation a).
Definition setNewCommentText (v : string) (a : t) : t :=
  mk (db a) (userId a) (dbError a) (papers a) (selectedPaper a) (comments a)
     (newPaperTitle a) (newPaperContent a) v
     (isEditing a) (editTitle a) (editContent a) (showDeleteConfirmation a).
Definition setIsEditing (v : bool) (a : t) : t :=
  mk (db a) (userId a) (dbError a) (papers a) (selectedPaper a) (comments a)
     (newPaperTitle a) (newPaperContent a) (newCommentText a)
     v (editTitle a) (editContent a) (showDeleteConfirmation a).
Definition setEditTitle (v : string) (a : t) : t :=
  mk (db a) (userId a) (dbError a) (papers a) (selectedPaper a) (comments a)
     (newPaperTitle a) (newPaperContent a) (newCommentText a)
     (isEditing a) v (editContent a) (showDeleteConfirmation a).
Definition setEditContent (v : string) (a : t) : t :=
  mk (db a) (userId a) (dbError a) (papers a) (selectedPaper a) (comments a)
     (newPaperTitle a) (newPaperContent a) (newCommentText a)
     (isEditing a) (editTitle a) v (showDeleteConfirmation a).
Definition setShowDeleteConfirmation (v : bool) (a : t) : t :=
  mk (db a) (userId a) (dbError a) (papers a) (selectedPaper a) (comments a)
     (newPaperTitle a) (newPaperContent a) (newCommentText a)
     (isEditing a) (editTitle a) (editContent a) v.

(** The state of a session signed in as [uid], as [useState] initialises
    the rest. *)
Definition initial (uid : string) : t :=
  mk true (Some uid) None [] None [] EmptyString EmptyString EmptyString
     false EmptyString EmptyString false.
End App.

(** The store, the component state and what the handlers wrote with
    [console.error]. *)
Module World.
Record t := mk {
  store : Store.t;
  app : App.t;
  console : list string;
}.
Definition setStore (st : Store.t) (w : t) : t := mk st (app w) (console w).
Definition setApp (a : App.t) (w : t) : t := mk (store w) a (console w).
Definition log (line : string) (w : t) : t :=
  mk (store w) (app w) (console w ++ [line]).
Definition papers (w : t) := Store.papers (store w).
Definition comments (w : t) := Store.comments (store w).
End World.

(** ** The environment of one handler call *)

(** The store calls that the handlers issue. *)
Inductive StoreCall :=
| AddPaper
| UpdatePaper (paperId : string)
| LikeTransaction (paperId : string)
| DeletePaper (paperId : string)
| QueryComments (paperId : string)
| DeleteComment (commentId : string)
| AddComment.

Module Env.
Record t := mk {
  now : Z;                               (* the clock of [serverTimestamp()] *)
  newId : string;                        (* the id that [addDoc] assigns *)
  rejects : StoreCall → option string;   (* the message of the rejection *)
}.
(** Every call succeeds. *)
Definition calm (now : Z) (newId : string) : t := mk now newId (λ _, None).
End Env.

(** ** Handlers that write to the store *)

(** The guard [if (!db || !userId) return;] that opens every handler: the
    caller's identity when the guard lets the call through. *)
Definition signedIn (a : App.t) : option string :=
  if App.db a && truthy (App.userId a) then App.userId a else None.

(** What every [catch] block does: [console.error(label, e)], then
    [setDbError] with the prefixed message. *)
Definition report (label prefix message : string) (w : World.t) : World.t :=
  World.setApp (App.setDbError (Some (prefix +:+ message)) (World.app w))
    (World.log (label +:+ message) w).

(** [const isPaperAuthor = selectedPaper && userId === selectedPaper.authorId] *)
Definition isPaperAuthor (a : App.t) : bool :=
  match App.selectedPaper a with
  | Some p => bool_decide (App.userId a = Some (Paper.authorId p))
  | None => false
  end.

(** [handleAddPaper] (lines 259-281) *)
Definition handleAddPaper (env : Env.t) (w : World.t) : World.t :=
  let a := World.app w in
  match signedIn a with
  | None => w
  | Some userId =>
    if isEmpty (trim (App.newPaperTitle a)) || isEmpty (trim (App.newPaperContent a))
    then w
    else
      let paperPayload :=
        PaperData.mk (trim (App.newPaperTitle a)) (trim (App.newPaperContent a))
          userId (Some 0%Z) (Some []) (Some (Env.now env)) None in
      let w1 :=
        World.setApp (App.setNewPaperContent EmptyString
                        (App.setNewPaperTitle EmptyString a)) w in
      match Env.rejects env AddPaper with
      | None =>
        World.setStore
          (Store.setPapers (<[Env.newId env := paperPayload]> (World.papers w1))
             (World.store w1)) w1
      | Some message => report "Error adding paper: " "Failed to save paper: " message w1
      end
  end.

(** The rejection of [updateDoc] on a document that does not exist. The
    text stands for the message of the library, which goes on to name the
    path of the document. *)
Definition noDocumentToUpdate : string := "No document to update".

(** The fields that [handleUpdatePaper] passes to [updateDoc]. *)
Definition editFields (newTitle newContent : string) (stamp : Z)
    (d : PaperData.t) : PaperData.t :=
  PaperData.mk newTitle newContent (PaperData.authorId d)
    (PaperData.likes d) (PaperData.likedBy d) (PaperData.createdAt d) (Some stamp).

(** [handleUpdatePaper] (lines 284-299) *)
Definition handleUpdatePaper (env : Env.t) (w : World.t) : World.t :=
  let a := World.app w in
  match signedIn a, App.selectedPaper a with
  | Some _, Some selectedPaper =>
    if isEmpty (trim (App.editTitle a)) || isEmpty (trim (App.editContent a))
    then w
    else
      let paperId := Paper.id selectedPaper in
      let failed := report "Error updating paper: " "Failed to update paper: " in
      match Env.rejects env (UpdatePaper paperId) with
      | Some message => failed message w
      | None =>
        match World.papers w !! paperId with
        | None => failed noDocumentToUpdate w
        | Some d =>
          let d' := editFields (trim (App.editTitle a)) (trim (App.editContent a))
                      (Env.now env) d in
          World.setApp (App.setIsEditing false a)
            (World.setStore (Store.setPapers (<[paperId := d']> (World.papers w))
                               (World.store w)) w)
        end
      end
  | _, _ => w
  end.

(** [handleLikePaper] (lines 302-350): the guard, the transaction, the
    [catch]. *)
Definition handleLikePaper (env : Env.t) (paperId : string) (w : World.t) : World.t :=
  match signedIn (World.app w) with
  | None => w
  | Some userId =>
    let failed := report "Error toggling like: " "Failed to toggle like: " in
    match Env.rejects env (LikeTransaction paperId) with
    | Some message => failed message w
    | None =>
      match toggleLike paperId userId (World.papers w) with
      | TxError message => failed message w
      | TxCommitted ps => World.setStore (Store.setPapers ps (World.store w)) w
      end
    end
  end.

(** [handleDeletePaperClick] (lines 353-357) *)
Definition handleDeletePaperClick (a : App.t) : App.t :=
  if bool_decide (is_Some (App.selectedPaper a)) && isPaperAuthor a
  then App.setShowDeleteConfirmation true a
  else a.

(** The documents of [getDocs(query(commentsRef, where(paperId == X)))]. *)
Definition commentsOfPaper (paperId : string)
    (cs : gmap string CommentData.t) : list string :=
  (map_to_list (filter (λ kv, CommentData.paperId kv.2 = paperId) cs)).*1.

(** [docs.forEach(async d => await deleteDoc(...))]: one [deleteDoc] is
    issued per document; nothing awaits or catches the promises, so a
    rejected one leaves its comment in place and has no other effect. *)
Definition deleteEach (env : Env.t) (ids : list string)
    (cs : gmap string CommentData.t) : gmap string CommentData.t :=
  foldl (λ acc commentId,
           match Env.rejects env (DeleteComment commentId) with
           | None => delete commentId acc
           | Some _ => acc
           end) cs ids.

(** [executeDeletePaper] (lines 360-388), the store and the state once every
    call it issued has settled. *)
Definition executeDeletePaper (env : Env.t) (w : World.t) : World.t :=
  let a := World.app w in
  let closeModal (w' : World.t) :=
    World.setApp (App.setShowDeleteConfirmation false (World.app w')) w' in
  match signedIn a, App.selectedPaper a with
  | Some _, Some selectedPaper =>
    if negb (isPaperAuthor a) then closeModal w
    else
      let paperIdToDelete := Paper.id selectedPaper in
      let failed := report "Error deleting paper: " "Failed to delete paper: " in
      match Env.rejects env (DeletePaper paperIdToDelete) with
      | Some message => closeModal (failed message w)
      | None =>
        let w1 :=
          World.setStore (Store.setPapers (delete paperIdToDelete (World.papers w))
                            (World.store w)) w in
        match Env.rejects env (QueryComments paperIdToDelete) with
        | Some message => closeModal (failed message w1)
        | None =>
          let docs := commentsOfPaper paperIdToDelete (World.comments w1) in
          let w2 :=
            World.setStore (Store.setComments (deleteEach env docs (World.comments w1))
                              (World.store w1)) w1 in
          closeModal (World.setApp (App.setSelectedPaper None (World.app w2)) w2)
        end
      end
  | _, _ => closeModal w
  end.

(** [handleAddComment] (lines 393-412) *)
Definition handleAddComment (env : Env.t) (w : World.t) : World.t :=
  let a := World.app w in
  match signedIn a, App.selectedPaper a with
  | Some userId, Some selectedPaper =>
    if isEmpty (trim (App.newCommentText a)) then w
    else
      let commentPayload :=
        CommentData.mk (Paper.id selectedPaper) userId (trim (App.newCommentText a))
          (Some (Timestamp.ofClock (Env.now env))) in
      let w1 := World.setApp (App.setNewCommentText EmptyString a) w in
      match Env.rejects env AddComment with
      | None =>
        World.setStore
          (Store.setComments (<[Env.newId env := commentPayload]> (World.comments w1))
             (World.store w1)) w1
      | Some message => report "Error adding comment: " "Failed to save comment: " message w1
      end
  | _, _ => w
  end.

(** [handleDeleteComment] (lines 415-425) *)
Definition handleDeleteComment (env : Env.t) (commentId : string)
    (w : World.t) : World.t :=
  match signedIn (World.app w) with
  | None => w
  | Some _ =>
    match Env.rejects env (DeleteComment commentId) with
    | None =>
      World.setStore (Store.setComments (delete commentId (World.comments w))
                        (World.store w)) w
    | Some message =>
      report "Error deleting comment: " "Failed to delete comment: " message w
    end
  end.

(** ** Snapshot listeners and the handlers that touch the state only *)

(** The papers listener (lines 200-217): the list is replaced wholesale, the
    error banner cleared, and the focus looked up in the new list. *)
Definition onPapersSnapshot (fetchedPapers : list Paper.t) (a : App.t) : App.t :=
  let a1 := App.setDbError None (App.setPapers fetchedPapers a) in
  match App.selectedPaper a with
  | Some selectedPaper =>
    match find (λ p, bool_decide (Paper.id p = Paper.id selectedPaper)) fetchedPapers with
    | Some updatedPaper => App.setSelectedPaper (Some updatedPaper) a1
    | None => App.setSelectedPaper None a1
    end
  | None => a1
  end.

(** The head of the comments effect (lines 227-231), which React runs again
    whenever [db], [userId] or [selectedPaper] changes: without a focus the
    comment list is emptied; with one, a listener is installed and the list
    waits for its first snapshot. *)
Definition commentsEffect (a : App.t) : App.t :=
  if negb (App.db a) || negb (truthy (App.userId a))
     || negb (bool_decide (is_Some (App.selectedPaper a)))
  then App.setComments [] a
  else a.

(** A papers snapshot followed by the effects that the state change
    triggers. *)
Definition papersSnapshot (fetchedPapers : list Paper.t) (a : App.t) : App.t :=
  commentsEffect (onPapersSnapshot fetchedPapers a).

(** [a.timestamp?.seconds || 0] *)
Definition secondsOrZero (c : Comment.t) : Z :=
  orZero (Timestamp.seconds <$> Comment.timestamp c).

(** The comparator of line 245. *)
Definition byTimestamp (a b : Comment.t) : Z :=
  (secondsOrZero a - secondsOrZero b)%Z.

(** [Array.prototype.sort(compare)]. The order it produces is fixed by the
    language: the sort is stable, so for a comparator that is a consistent
    order the result is the one sorted arrangement in which ties keep their
    original order. The insertion sort below computes that arrangement. *)
Fixpoint insertSorted {A} (compare : A → A → Z) (x : A) (l : list A) : list A :=
  match l with
  | [] => [x]
  | y :: rest =>
    if (compare x y <=? 0)%Z then x :: y :: rest
    else y :: insertSorted compare x rest
  end.

Definition sort {A} (compare : A → A → Z) (l : list A) : list A :=
  foldr (insertSorted compare) [] l.

(** The comments listener (lines 239-247). *)
Definition onCommentsSnapshot (fetchedComments : list Comment.t) (a : App.t) : App.t :=
  App.setComments (sort byTimestamp fetchedComments) a.

(** [handleEditClick] (lines 428-434) *)
Definition handleEditClick (a : App.t) : App.t :=
  match App.selectedPaper a with
  | Some selectedPaper =>
    App.setIsEditing true
      (App.setEditContent (Paper.content selectedPaper)
         (App.setEditTitle (Paper.title selectedPaper) a))
  | None => a
  end.

(** The Back button (line 524). *)
Definition backToDashboard (a : App.t) : App.t :=
  App.setIsEditing false (App.setSelectedPaper None a).

(** [const isAuthor = currentUserId === comment.userId] of [CommentItem]. *)
Definition isAuthor (currentUserId : option string) (comment : Comment.t) : bool :=
  bool_decide (currentUserId = Some (Comment.userId comment)).

(** ** The user interface as a transition system *)

(** What can happen to a session: a click on a control, typing into the edit
    form, the arrival of a snapshot, or a write to the store by some other
    session. The search box is left at its initial, empty value, so the list
    view shows every paper. *)
Inductive Action :=
| ClickPaperCard (paper : Paper.t)
| ClickLike (paper : Paper.t)
| ClickBack
| ClickEdit
| TypeEditTitle (value : string)
| TypeEditContent (value : string)
| ClickSaveChanges
| ClickCancelEdit
| ClickDelete
| ClickConfirmDelete
| ClickCancelDelete
| ClickDeleteComment (comment : Comment.t)
| PapersSnapshot (docs : list Paper.t)
| CommentsSnapshot (docs : list Comment.t)
| RemoteWrite (store : Store.t).

Definition listView (a : App.t) : bool :=
  negb (bool_decide (is_Some (App.selectedPaper a))).
Definition detailView (a : App.t) : bool :=
  bool_decide (is_Some (App.selectedPaper a)).

(** Whether the control of an action is on the page (the conditions of the
    JSX of lines 447-687), or the listener of a snapshot is installed. *)
Definition offered (act : Action) (a : App.t) : bool :=
  match act with
  | ClickPaperCard p => listView a && bool_decide (p ∈ App.papers a)
  | ClickLike p => listView a && bool_decide (p ∈ App.papers a) && truthy (App.userId a)
  | ClickBack => detailView a
  | ClickEdit | ClickDelete => detailView a && negb (App.isEditing a) && isPaperAuthor a
  | TypeEditTitle _ | TypeEditContent _ | ClickSaveChanges | ClickCancelEdit =>
    detailView a && App.isEditing a
  | ClickConfirmDelete | ClickCancelDelete =>
    App.showDeleteConfirmation a && detailView a
  | ClickDeleteComment c =>
    detailView a && bool_decide (c ∈ App.comments a) && isAuthor (App.userId a) c
  | PapersSnapshot _ => App.db a && truthy (App.userId a)
  | CommentsSnapshot _ => App.db a && truthy (App.userId a) && detailView a
  | RemoteWrite _ => true
  end.

Definition onApp (f : App.t → App.t) (w : World.t) : World.t :=
  World.setApp (f (World.app w)) w.

(** The handler bound to each action, followed by the comments effect where
    the handler sets the focus. *)
Definition perform (env : Env.t) (act : Action) (w : World.t) : World.t :=
  match act with
  | ClickPaperCard p => onApp (λ a, commentsEffect (App.setSelectedPaper (Some p) a)) w
  | ClickLike p => handleLikePaper env (Paper.id p) w
  | ClickBack => onApp (λ a, commentsEffect (backToDashboard a)) w
  | ClickEdit => onApp handleEditClick w
  | TypeEditTitle v => onApp (App.setEditTitle v) w
  | TypeEditContent v => onApp (App.setEditContent v) w
  | ClickSaveChanges => handleUpdatePaper env w
  | ClickCancelEdit => onApp (App.setIsEditing false) w
  | ClickDelete => onApp handleDeletePaperClick w
  | ClickConfirmDelete => onApp commentsEffect (executeDeletePaper env w)
  | ClickCancelDelete => onApp (App.setShowDeleteConfirmation false) w
  | ClickDeleteComment c => handleDeleteComment env (Comment.id c) w
  | PapersSnapshot docs => onApp (papersSnapshot docs) w
  | CommentsSnapshot docs => onApp (onCommentsSnapshot docs) w
  | RemoteWrite st => World.setStore st w
  end.

(** One step: [None] when the control is not on the page. *)
Definition step (env : Env.t) (act : Action) (w : World.t) : option World.t :=
  if offered act (World.app w) then Some (perform env act w) else None.

Fixpoint run (env : Env.t) (acts : list Action) (w : World.t) : option World.t :=
  match acts with
  | [] => Some w
  | act :: rest =>
    match step env act w with
    | Some w' => run env rest w'
    | None => None
    end
  end.

(** ** Concurrent like transactions on one paper *)

(** [runTransaction] as the store runs it under contention. Every caller's
    transaction reads the document together with its version
    ([transaction.get]), computes its update from what it read, and commits
    only if the document still has that version; otherwise the callback is
    run again from the read, up to a bound on the number of attempts. A
    schedule names, step by step, the caller that moves next. *)
Module Tx.
Inductive Phase :=
| Pending
| Reading (snapshot : option PaperData.t) (version : nat)
| Committed
| Failed (message : string).

Record Client := mkClient {
  callerId : string;
  phase : Phase;
  attempts : nat;
}.

Record State := mk {
  doc : option PaperData.t;
  version : nat;
  clients : list Client;
}.

(** The failure of a transaction whose attempts are used up. *)
Definition ConflictExhausted : string := "Transaction failed all retries".

Definition setClient (i : nat) (c : Client) (σ : State) : State :=
  mk (doc σ) (version σ) (<[i := c]> (clients σ)).

(** The next move of caller [i]. *)
Definition advance (maxAttempts : nat) (i : nat) (σ : State) : State :=
  match clients σ !! i with
  | None => σ
  | Some c =>
    let u := callerId c in
    match phase c with
    | Pending =>
      setClient i (mkClient u (Reading (doc σ) (version σ)) (S (attempts c))) σ
    | Reading None _ =>
      setClient i (mkClient u (Failed NotFound) (attempts c)) σ
    | Reading (Some data) v =>
      if decide (v = version σ) then
        mk (Some (toggleLikeData u data)) (S (version σ))
           (<[i := mkClient u Committed (attempts c)]> (clients σ))
      else if decide (attempts c < maxAttempts) then
        setClient i (mkClient u Pending (attempts c)) σ
      else
        setClient i (mkClient u (Failed ConflictExhausted) (attempts c)) σ
    | Committed | Failed _ => σ
    end
  end.

Definition runSchedule (maxAttempts : nat) (schedule : list nat) (σ : State) : State :=
  foldl (λ acc i, advance maxAttempts i acc) σ schedule.

(** All callers about to start on the same paper. *)
Definition start (data : PaperData.t) (callers : list string) : State :=
  mk (Some data) 0 ((λ u, mkClient u Pending 0) <$> callers).

(** Every call has completed with a commit. *)
Definition allCommitted (σ : State) : Prop :=
  Forall (λ c, phase c = Committed) (clients σ).

(** A call has completed when its transaction has committed or has failed
    ([handleLikePaper] then returns through its [catch], lines 346-349). *)
Definition settled (p : Phase) : bool :=
  match p with
  | Committed | Failed _ => true
  | Pending | Reading _ _ => false
  end.

Definition allCompleted (σ : State) : Prop :=
  Forall (λ c, settled (phase c) = true) (clients σ).

Definition committed (p : Phase) : bool :=
  match p with
  | Committed => true
  | _ => false
  end.

(** The callers whose transaction has committed. *)
Definition committedCallers (σ : State) : list string :=
  callerId <$> filter (λ c, committed (phase c) = true) (clients σ).

Definition hasCommitted (u : string) (σ : State) : Prop :=
  ∃ i n, clients σ !! i = Some (mkClient u Committed n).
End Tx.

(** ** Invariants of the data model *)

(** [likes == |likedBy|], on a paper whose [likedBy] has no duplicates. *)
Definition likesMatch (d : PaperData.t) : Prop :=
  likesOf d = Z.of_nat (length (likedByOf d)).

Definition wellFormed (d : PaperData.t) : Prop :=
  NoDup (likedByOf d) ∧ likesMatch d.

Definition storeInvariant (papers : gmap string PaperData.t) : Prop :=
  map_Forall (λ _ d, wellFormed d) papers.

(** What holds of the contention model at every point of every schedule:
    the callers are the ones that started; the paper exists, is well formed,
    and its [likedBy] holds exactly the callers that have committed; and a
    transaction that has read the current version holds the current
    document. *)
Record TxInvariant (callers : list string) (σ : Tx.State) : Prop := {
  inv_callers : Tx.callerId <$> Tx.clients σ = callers;
  inv_doc :
    ∃ d, Tx.doc σ = Some d ∧ wellFormed d
         ∧ ∀ u, u ∈ likedByOf d ↔ Tx.hasCommitted u σ;
  inv_reads :
    ∀ i c snap v,
      Tx.clients σ !! i = Some c → Tx.phase c = Tx.Reading snap v →
      (v ≤ Tx.version σ)%nat ∧ (v = Tx.version σ → snap = Tx.doc σ);
}.

(** ** Sample data *)

(** A paper as [handleAddPaper] creates it. *)
Definition freshPaper (author : string) : PaperData.t :=
  PaperData.mk "T" "C" author (Some 0%Z) (Some []) (Some 1%Z) None.

(** A paper that has neither [likes] nor [likedBy]. *)
Definition barePaper (author : string) : PaperData.t :=
  PaperData.mk "T" "C" author None None (Some 1%Z) None.

Definition onePaper (d : PaperData.t) : gmap string PaperData.t := {[ "P1" := d ]}.

Definition emptyStore : Store.t := Store.mk ∅ ∅.

(** Bob's session, with the submission form filled in, over a store that
    holds one paper of Alice's. *)
Definition sampleWorld : World.t :=
  World.mk (Store.mk (onePaper (freshPaper "alice")) ∅)
    (App.setNewPaperContent "C2" (App.setNewPaperTitle " T2 " (App.initial "bob")))
    [].

Definition sampleEnv : Env.t := Env.calm 7 "P2".

(** A comment on paper P1 created at second [t], and one whose timestamp the
    server has not assigned yet. *)
Definition commentAt (id : string) (author : string) (t : Z) : Comment.t :=
  Comment.mk id (CommentData.mk "P1" author "text" (Some (Timestamp.mk t 0))).

(** A comment on paper P1 created [n] nanoseconds into second [t]. *)
Definition commentAtNanos (id : string) (author : string) (t n : Z) : Comment.t :=
  Comment.mk id (CommentData.mk "P1" author "text" (Some (Timestamp.mk t n))).

Definition commentPending (id : string) (author : string) : Comment.t :=
  Comment.mk id (CommentData.mk "P1" author "text" None).

(** Ascending order of the sort key. *)
Definition notLater (a b : Comment.t) : Prop :=
  (secondsOrZero a ≤ secondsOrZero b)%Z.

(** [a] was stamped at an earlier instant than [b]. *)
Definition postedBefore (a b : Comment.t) : Prop :=
  match Comment.timestamp a, Comment.timestamp b with
  | Some ta, Some tb => Timestamp.earlier ta tb
  | _, _ => False
  end.

(** Ascending order of the timestamps: no comment is shown before one that
    was stamped earlier. *)
Definition inTimeOrder (l : list Comment.t) : Prop :=
  StronglySorted (λ a b, ¬ postedBefore b a) l.

(** Two comments stamped within the same second, delivered by the snapshot
    with the later one first. *)
Definition sameSecondLate : Comment.t := commentAtNanos "c1" "carol" 5 900000000.
Definition sameSecondEarly : Comment.t := commentAtNanos "c2" "dave" 5 100000000.

(** Two papers, one of Bob's and one of Alice's, and Bob's session over a
    store that holds both. *)
Definition bobPaper : Paper.t :=
  Paper.mk "P1" (PaperData.mk "Mine" "Draft" "bob" (Some 0%Z) (Some []) (Some 1%Z) None).

Definition alicePaper : Paper.t :=
  Paper.mk "P2" (PaperData.mk "Hers" "Text" "alice" (Some 0%Z) (Some []) (Some 2%Z) None).

Definition bothPapers : Store.t :=
  Store.mk {[ "P1" := Paper.data bobPaper; "P2" := Paper.data alicePaper ]} ∅.

Definition onlyAlicePaper : Store.t :=
  Store.mk {[ "P2" := Paper.data alicePaper ]} ∅.

Definition bobSession : World.t := World.mk bothPapers (App.initial "bob") [].

(** Bob opens his own paper and starts editing it; the paper is then deleted
    from another session of his, and the next snapshot arrives. *)
Definition editThenDeletedElsewhere : list Action :=
  [ PapersSnapshot [bobPaper; alicePaper];
    ClickPaperCard bobPaper;
    CommentsSnapshot [commentAt "c1" "carol" 5];
    ClickEdit;
    RemoteWrite onlyAlicePaper;
    PapersSnapshot [alicePaper] ].

(** Back on the list, Bob opens Alice's paper and presses Save. *)
Definition thenSaveOnAlicePaper : list Action :=
  editThenDeletedElsewhere ++ [ ClickPaperCard alicePaper; ClickSaveChanges ].

(** Bob has his paper P1 open, with the confirmation dialog showing; the
    store holds two comments on P1 and one on P2. *)
Definition threeComments : gmap string CommentData.t :=
  {[ "c1" := CommentData.mk "P1" "carol" "first" (Some (Timestamp.mk 5 0));
     "c2" := CommentData.mk "P1" "dave" "second" (Some (Timestamp.mk 6 0));
     "c3" := CommentData.mk "P2" "carol" "other" (Some (Timestamp.mk 7 0)) ]}.

Definition bobDeleting : World.t :=
  World.mk
    (Store.mk (Store.papers bothPapers) threeComments)
    (App.setShowDeleteConfirmation true
       (App.setSelectedPaper (Some bobPaper) (App.initial "bob")))
    [].

(** The comment query is rejected. *)
Definition queryFails : Env.t :=
  Env.mk 7 "P9"
    (λ call, match call with
             | QueryComments _ => Some "unavailable"
             | _ => None
             end).

(** The deletion of comment c1 is rejected. *)
Definition oneDeleteFails : Env.t :=
  Env.mk 7 "P9"
    (λ call, match call with
             | DeleteComment id => if bool_decide (id = "c1") then Some "unavailable" else None
             | _ => None
             end).

(** Bob's session over that store, before the first snapshot, and what he
    does: he opens his paper P1, asks to delete it and confirms. *)
Definition bobWithComments : World.t :=
  World.mk (Store.mk (Store.papers bothPapers) threeComments) (App.initial "bob") [].

Definition deletesOwnPaper : list Action :=
  [ PapersSnapshot [bobPaper; alicePaper];
    ClickPaperCard bobPaper;
    ClickDelete;
    ClickConfirmDelete ].

(** A paper from before the [likedBy] field existed: it has a counter and no
    list. *)
Definition legacyPaper (author : string) : PaperData.t :=
  PaperData.mk "T" "C" author (Some 3%Z) None (Some 1%Z) None.

(** A paper whose counter stands at [2^53]. *)
Definition saturatedPaper (author : string) : PaperData.t :=
  PaperData.mk "T" "C" author (Some maxExact) (Some []) (Some 1%Z) None.

(** Six callers, the bound of five attempts that Firestore gives a
    transaction, and a schedule in which the first caller reads before, and
    tries to commit after, the commit of each of the others in turn. *)
Definition sixCallers : list string := ["ann"; "ben"; "cat"; "dan"; "eve"; "fay"].

Definition fiveAttempts : nat := 5.

Definition starvingSchedule : list nat :=
  [0; 1; 1; 0;  0; 2; 2; 0;  0; 3; 3; 0;  0; 4; 4; 0;  0; 5; 5; 0].

(** Three callers, and a schedule in which the transactions of the first two
    read the same version, so that one of them has to run again. *)
Definition threeCallers : list string := ["ann"; "ben"; "cat"].

Definition contendedSchedule : list nat := [0; 1; 1; 0; 2; 0; 0; 2; 0; 2; 2].

(** ** The paper card (lines 24-28) *)

(** [const isLiked = likedBy.includes(userId)], for a [userId] that may be
    [null] (no identity is in the array then). *)
Definition isLiked (userId : option string) (paper : Paper.t) : bool :=
  match userId with
  | Some u => includes u (orEmpty (Paper.likedBy paper))
  | None => false
  end.

(** [const likeCount = paper.likes || 0] *)
Definition likeCount (paper : Paper.t) : Z := orZero (Paper.likes paper).

(** The caption of the button of the card. *)
Definition likeLabel (userId : option string) (paper : Paper.t) : string :=
  if isLiked userId paper then "Unlike" else "Like".

(** ** The search filter (lines 439-445) *)

(** [toLowerCase] on ASCII text: the letters A-Z are lowered, one by one.
    (Outside ASCII the language lowers every cased letter, and some by
    context.) *)
Definition lowerChar (c : Ascii.ascii) : Ascii.ascii :=
  let n := Ascii.nat_of_ascii c in
  if (65 <=? n)%nat && (n <=? 90)%nat then Ascii.ascii_of_nat (n + 32) else c.

Fixpoint toLowerCase (s : string) : string :=
  match s with
  | EmptyString => EmptyString
  | String c rest => String (lowerChar c) (toLowerCase rest)
  end.

(** [s.startsWith(q)] *)
Fixpoint startsWith (s q : string) : bool :=
  match q, s with
  | EmptyString, _ => true
  | String _ _, EmptyString => false
  | String b q', String a s' => bool_decide (a = b) && startsWith s' q'
  end.

(** [s.includes(q)]: [q] starts at some position of [s]. *)
Fixpoint includesText (s q : string) : bool :=
  startsWith s q ||
  match s with
  | EmptyString => false
  | String _ s' => includesText s' q
  end.

(** The predicate given to [papers.filter], on a paper that has a title and
    a content (the [?.] of lines 442-443 guards one that lacks them). *)
Definition matchesQuery (searchQuery : string) (paper : Paper.t) : bool :=
  let queryLower := toLowerCase searchQuery in
  includesText (toLowerCase (Paper.title paper)) queryLower
  || includesText (toLowerCase (Paper.content paper)) queryLower.

Definition filteredPapers (searchQuery : string) (papers : list Paper.t) : list Paper.t :=
  List.filter (matchesQuery searchQuery) papers.

(** A paper whose title and content are ASCII text. *)
Definition asciiPaper (p : Paper.t) : Prop :=
  isAscii (Paper.title p) = true ∧ isAscii (Paper.content p) = true.

(** ** The whole page: the forms and the search box *)

(** The component state together with [searchQuery]. *)
Module Page.
Record t := mk {
  world : World.t;
  searchQuery : string;
}.
Definition app (pg : t) : App.t := World.app (world pg).
Definition onWorld (f : World.t → World.t) (pg : t) : t :=
  mk (f (world pg)) (searchQuery pg).
End Page.

(** Every gesture on the page: the actions of the transition system above,
    typing into the search box and the two submission forms, and their
    buttons. *)
Inductive Gesture :=
| Basic (act : Action)
| TypeSearch (value : string)
| TypeNewPaperTitle (value : string)
| TypeNewPaperContent (value : string)
| ClickPublishPaper
| TypeNewCommentText (value : string)
| ClickSubmitComment.

Definition blank (s : string) : bool := isEmpty (trim s).

(** Whether the control of a gesture is on the page and enabled (the
    [disabled] attributes of lines 460-476 and 611-616). A card is on the
    page only for a paper that passes the search filter. *)
Definition available (g : Gesture) (pg : Page.t) : bool :=
  let a := Page.app pg in
  let shown := filteredPapers (Page.searchQuery pg) (App.papers a) in
  match g with
  | Basic (ClickPaperCard p) => offered (ClickPaperCard p) a && bool_decide (p ∈ shown)
  | Basic (ClickLike p) => offered (ClickLike p) a && bool_decide (p ∈ shown)
  | Basic act => offered act a
  | TypeSearch _ => listView a
  | TypeNewPaperTitle _ | TypeNewPaperContent _ => listView a && truthy (App.userId a)
  | ClickPublishPaper =>
    listView a && truthy (App.userId a)
    && negb (blank (App.newPaperTitle a)) && negb (blank (App.newPaperContent a))
  | TypeNewCommentText _ => detailView a && truthy (App.userId a)
  | ClickSubmitComment =>
    detailView a && truthy (App.userId a) && negb (blank (App.newCommentText a))
  end.

Definition act (env : Env.t) (g : Gesture) (pg : Page.t) : Page.t :=
  match g with
  | Basic a => Page.onWorld (perform env a) pg
  | TypeSearch v => Page.mk (Page.world pg) v
  | TypeNewPaperTitle v => Page.onWorld (onApp (App.setNewPaperTitle v)) pg
  | TypeNewPaperContent v => Page.onWorld (onApp (App.setNewPaperContent v)) pg
  | ClickPublishPaper => Page.onWorld (handleAddPaper env) pg
  | TypeNewCommentText v => Page.onWorld (onApp (App.setNewCommentText v)) pg
  | ClickSubmitComment => Page.onWorld (handleAddComment env) pg
  end.

(** A gesture together with the environment in which its handler runs. *)
Definition interact (eg : Env.t * Gesture) (pg : Page.t) : option Page.t :=
  if available eg.2 pg then Some (act eg.1 eg.2 pg) else None.

Fixpoint session (gestures : list (Env.t * Gesture)) (pg : Page.t) : option Page.t :=
  match gestures with
  | [] => Some pg
  | eg :: rest =>
    match interact eg pg with
    | Some pg' => session rest pg'
    | None => None
    end
  end.

(** The page of a user who has just signed in, over some store. *)
Definition freshPage (uid : string) (st : Store.t) : Page.t :=
  Page.mk (World.mk st (App.initial uid) []) EmptyString.

(** Bob is editing his paper P1, which another session has deleted from the
    store in the meantime. *)
Definition bobEditingDeleted : World.t :=
  World.mk onlyAlicePaper
    (handleEditClick (App.setSelectedPaper (Some bobPaper) (App.initial "bob")))
    [].

(** Carol has Alice's paper open and a comment typed in. *)
Definition carolCommenting : World.t :=
  World.mk (Store.mk (Store.papers bothPapers) threeComments)
    (App.setNewCommentText " nice " (App.setSelectedPaper (Some alicePaper) (App.initial "carol")))
    [].

(** The deletion of the paper document is rejected. *)
Definition paperDeleteFails : Env.t :=
  Env.mk 7 "P9"
    (λ call, match call with
             | DeletePaper _ => Some "denied"
             | _ => None
             end).

(** Where a paper document found after a gesture comes from. *)
Definition provenance (env : Env.t) (g : Gesture) (before : Page.t)
    (id : string) (d' : PaperData.t) : Prop :=
  (∃ d, World.papers (Page.world before) !! id = Some d
        ∧ PaperData.authorId d' = PaperData.authorId d
        ∧ PaperData.createdAt d' = PaperData.createdAt d
        ∧ ((PaperData.likes d' = PaperData.likes d
            ∧ PaperData.likedBy d' = PaperData.likedBy d)
           ∨ ∃ u, App.userId (Page.app before) = Some u
                  ∧ d' = toggleLikeData u d))
  ∨ (g = ClickPublishPaper ∧ id = Env.newId env
     ∧ App.userId (Page.app before) = Some (PaperData.authorId d')
     ∧ PaperData.likes d' = Some 0%Z ∧ PaperData.likedBy d' = Some []).

(** Bob's page once the first papers snapshot has arrived. *)
Definition bobListPage : Page.t :=
  Page.mk (World.mk bothPapers (App.setPapers [bobPaper; alicePaper] (App.initial "bob")) [])
    EmptyString.

(** The part of the component state that decides which view is rendered and
    for whom. *)
Definition view (a : App.t) : bool * option string * option Paper.t * list Comment.t :=
  (App.db a, App.userId a, App.selectedPaper a, App.comments a).

(** What holds of the state throughout a session of user [uid]. *)
Definition tidy (uid : string) (a : App.t) : Prop :=
  App.db a = true ∧ App.userId a = Some uid
  ∧ (App.selectedPaper a = None → App.comments a = []).

(** A short session of Bob's: he searches, opens Alice's paper, comments,
    goes back and likes the paper. *)
Definition bobBrowses : list (Env.t * Gesture) :=
  (λ g, (sampleEnv, g)) <$>
  [ Basic (PapersSnapshot [bobPaper; alicePaper]);
    TypeSearch "her";
    Basic (ClickPaperCard alicePaper);
    Basic (CommentsSnapshot [commentAt "c3" "carol" 7]);
    TypeNewCommentText "agreed";
    ClickSubmitComment;
    Basic ClickBack;
    Basic (ClickLike alicePaper) ].

(** The schedule in which the callers go one after the other: caller [i]
    reads and commits before caller [i + 1] starts. *)
Definition oneByOne (first count : nat) : list nat :=
  flat_map (λ i, [i; i]) (seq first count).

(** The state of a caller who has not started, and of one who committed at
    the first attempt. *)
Definition waiting (u : string) : Tx.Client := Tx.mkClient u Tx.Pending 0.
Definition committedAtOnce (u : string) : Tx.Client := Tx.mkClient u Tx.Committed 1.

(** A text that does not begin with white space, and one that has none at
    either end. *)
Definition startsClean (s : string) : Prop :=
  match s with
  | EmptyString => True
  | String c _ => isWhiteSpace c = false
  end.

Definition noSurroundingSpace (s : string) : Prop :=
  startsClean s ∧ startsClean (String.rev s).

(** * Properties *)

(** ** The like transaction *)

Lemma includes_true (x : string) (l : list string) : includes x l = true ↔ x ∈ l.
Proof. unfold includes. apply bool_decide_eq_true. Qed.

Lemma includes_false (x : string) (l : list string) : includes x l = false ↔ x ∉ l.
Proof. unfold includes. apply bool_decide_eq_false. Qed.

Lemma toggleLikeData_liked (u : string) (d : PaperData.t) :
  u ∈ likedByOf d →
  toggleLikeData u d =
    updateLikes (Z.max 0 (likesOf d - 1)) (filter (λ uid, uid ≠ u) (likedByOf d)) d.
Proof.
  intros Hin. unfold toggleLikeData, likedByOf, likesOf in *.
  apply includes_true in Hin. by rewrite Hin.
Qed.

Lemma toggleLikeData_not_liked (u : string) (d : PaperData.t) :
  u ∉ likedByOf d →
  toggleLikeData u d = updateLikes (likesOf d + 1) (likedByOf d ++ [u]) d.
Proof.
  intros Hin. unfold toggleLikeData, likedByOf, likesOf in *.
  apply includes_false in Hin. by rewrite Hin.
Qed.

Lemma likesOf_updateLikes (n : Z) (l : list string) (d : PaperData.t) :
  likesOf (updateLikes n l d) = n.
Proof. unfold likesOf. simpl. destruct (Z.eqb_spec n 0); congruence. Qed.

Lemma likedByOf_updateLikes (n : Z) (l : list string) (d : PaperData.t) :
  likedByOf (updateLikes n l d) = l.
Proof. reflexivity. Qed.

Lemma updateLikes_fields (n : Z) (l : list string) (d : PaperData.t) :
  PaperData.likes (updateLikes n l d) = Some n
  ∧ PaperData.likedBy (updateLikes n l d) = Some l.
Proof. done. Qed.

(** The transaction rewrites the like fields and nothing else. *)
Lemma toggleLikeData_shape (u : string) (d : PaperData.t) :
  toggleLikeData u d =
    updateLikes (likesOf (toggleLikeData u d)) (likedByOf (toggleLikeData u d)) d.
Proof.
  destruct (decide (u ∈ likedByOf d)) as [Hin|Hin].
  - rewrite (toggleLikeData_liked _ _ Hin).
    by rewrite likesOf_updateLikes, likedByOf_updateLikes.
  - rewrite (toggleLikeData_not_liked _ _ Hin).
    by rewrite likesOf_updateLikes, likedByOf_updateLikes.
Qed.

Lemma not_in_filter_ne (u : string) (l : list string) :
  u ∉ (filter (λ uid, uid ≠ u) l : list string).
Proof. rewrite list_elem_of_filter. tauto. Qed.

Lemma filter_ne_absent (u : string) (l : list string) :
  u ∉ l → filter (λ uid, uid ≠ u) l = l.
Proof.
  induction l as [|x l IH]; [done|].
  rewrite not_elem_of_cons. intros [Hne Hl].
  rewrite filter_cons_True by congruence. by rewrite IH.
Qed.

(** Without duplicates, removing a member shortens the list by one. *)
Lemma length_filter_ne (u : string) (l : list string) :
  NoDup l → u ∈ l → length l = S (length (filter (λ uid, uid ≠ u) l)).
Proof.
  induction 1 as [|x l Hx Hnd IH]; [by rewrite elem_of_nil|].
  rewrite elem_of_cons. intros [->|Hin].
  - rewrite filter_cons_False by tauto. by rewrite filter_ne_absent.
  - assert (x ≠ u) by (intros ->; done).
    rewrite filter_cons_True by done. simpl. by rewrite <- IH.
Qed.

Lemma count_after_append (u : string) (l : list string) :
  u ∉ l → length (filter (λ uid, uid = u) (l ++ [u])) = 1.
Proof.
  intros Hin. rewrite filter_app, length_app.
  assert (filter (λ uid, uid = u) l = []) as ->.
  { induction l as [|x l IH]; [done|].
    apply not_elem_of_cons in Hin as [Hne Hl].
    rewrite filter_cons_False by congruence. auto. }
  by rewrite filter_cons_True.
Qed.

Lemma toggleLikeData_wellFormed (u : string) (d : PaperData.t) :
  wellFormed d → wellFormed (toggleLikeData u d).
Proof.
  intros [Hnd Hlen]. unfold wellFormed, likesMatch in *.
  destruct (decide (u ∈ likedByOf d)) as [Hin|Hin].
  - rewrite (toggleLikeData_liked _ _ Hin).
    rewrite likesOf_updateLikes, likedByOf_updateLikes. split.
    + by apply NoDup_filter.
    + pose proof (length_filter_ne u _ Hnd Hin). lia.
  - rewrite (toggleLikeData_not_liked _ _ Hin).
    rewrite likesOf_updateLikes, likedByOf_updateLikes. split.
    + apply NoDup_app. split_and!; [done| |apply NoDup_singleton].
      intros x Hx. rewrite list_elem_of_singleton. by intros ->.
    + rewrite length_app. simpl. lia.
Qed.

Lemma toggleLike_found (paperId callerId : string)
    (papers : gmap string PaperData.t) (d : PaperData.t) :
  papers !! paperId = Some d →
  toggleLike paperId callerId papers =
    TxCommitted (<[paperId := toggleLikeData callerId d]> papers).
Proof. intros H. unfold toggleLike. by rewrite H. Qed.

Lemma toggleLike_missing (paperId callerId : string)
    (papers : gmap string PaperData.t) :
  papers !! paperId = None → toggleLike paperId callerId papers = TxError NotFound.
Proof. intros H. unfold toggleLike. by rewrite H. Qed.

Lemma handleLikePaper_missing (env : Env.t) (paperId : string) (w : World.t) :
  World.papers w !! paperId = None →
  World.store (handleLikePaper env paperId w) = World.store w.
Proof.
  intros H. unfold handleLikePaper.
  destruct (signedIn (World.app w)); [|done].
  destruct (Env.rejects env _); [done|].
  by rewrite (toggleLike_missing _ _ _ H).
Qed.

(** *** The counter as a JavaScript number *)

Lemma toNumber_exact (z : Z) :
  (- maxExact ≤ z ≤ maxExact)%Z → toNumber z = z.
Proof.
  intros Hz. unfold toNumber.
  destruct (Z.leb_spec (Z.abs z) maxExact); [done|lia].
Qed.

Lemma toggleLikeNumber_liked (u : string) (d : PaperData.t) :
  u ∈ likedByOf d →
  toggleLikeNumber u d =
    updateLikes (Z.max 0 (toNumber (likesOf d - 1)))
      (filter (λ uid, uid ≠ u) (likedByOf d)) d.
Proof.
  intros Hin. unfold toggleLikeNumber, likedByOf, likesOf in *.
  apply includes_true in Hin. by rewrite Hin.
Qed.

Lemma toggleLikeNumber_not_liked (u : string) (d : PaperData.t) :
  u ∉ likedByOf d →
  toggleLikeNumber u d =
    updateLikes (toNumber (likesOf d + 1)) (likedByOf d ++ [u]) d.
Proof.
  intros Hin. unfold toggleLikeNumber, likedByOf, likesOf in *.
  apply includes_false in Hin. by rewrite Hin.
Qed.

Lemma toggleLikeNumber_shape (u : string) (d : PaperData.t) :
  toggleLikeNumber u d =
    updateLikes (likesOf (toggleLikeNumber u d)) (likedByOf (toggleLikeNumber u d)) d.
Proof.
  destruct (decide (u ∈ likedByOf d)) as [Hin|Hin].
  - rewrite (toggleLikeNumber_liked _ _ Hin).
    by rewrite likesOf_updateLikes, likedByOf_updateLikes.
  - rewrite (toggleLikeNumber_not_liked _ _ Hin).
    by rewrite likesOf_updateLikes, likedByOf_updateLikes.
Qed.

(** While the counter is a safe integer the arithmetic is exact: the
    callback is the one that computes in [Z]. *)
Lemma toggleLikeNumber_safe (u : string) (d : PaperData.t) :
  safeInteger (likesOf d) → toggleLikeNumber u d = toggleLikeData u d.
Proof.
  unfold safeInteger. intros Hsafe.
  destruct (decide (u ∈ likedByOf d)) as [Hin|Hin].
  - rewrite (toggleLikeNumber_liked _ _ Hin), (toggleLikeData_liked _ _ Hin).
    by rewrite toNumber_exact by lia.
  - rewrite (toggleLikeNumber_not_liked _ _ Hin), (toggleLikeData_not_liked _ _ Hin).
    by rewrite toNumber_exact by lia.
Qed.

Lemma likeTransaction_safe (paperId callerId : string)
    (papers : gmap string PaperData.t) :
  (∀ d, papers !! paperId = Some d → safeInteger (likesOf d)) →
  likeTransaction paperId callerId papers = toggleLike paperId callerId papers.
Proof.
  intros Hsafe. unfold likeTransaction, toggleLike.
  destruct (papers !! paperId) as [d|]; [|done].
  by rewrite toggleLikeNumber_safe by by apply Hsafe.
Qed.

(** A well-formed paper whose [likedBy] could be held by a JavaScript array
    has a safe counter. *)
Lemma wellFormed_safe (d : PaperData.t) :
  wellFormed d → (Z.of_nat (length (likedByOf d)) < 2 ^ 32)%Z →
  safeInteger (likesOf d).
Proof.
  intros [_ Hlen] Hshort. unfold likesMatch in Hlen. unfold safeInteger, maxExact.
  rewrite Hlen. change (2 ^ 32)%Z with 4294967296%Z in Hshort. lia.
Qed.

Lemma likeTransaction_found (paperId callerId : string)
    (papers : gmap string PaperData.t) (d : PaperData.t) :
  papers !! paperId = Some d →
  likeTransaction paperId callerId papers =
    TxCommitted (<[paperId := toggleLikeNumber callerId d]> papers).
Proof. intros H. unfold likeTransaction. by rewrite H. Qed.

(** [C2] [toggleLike paperId callerId], run as one transaction. When the
    paper does not exist it fails with [NotFound], and the handler leaves the
    store as it was. Otherwise it commits one update of the paper that writes
    [likes] and [likedBy] together and keeps every other field. For a caller
    in [likedBy], the caller is removed and [likes] becomes the number
    [max 0 (likes - 1)], which is never negative. For a caller not in
    [likedBy], the caller is appended, occurs exactly once in the new
    [likedBy], and [likes] becomes the number [likes + 1]. The two results
    are those of JavaScript numbers: they are [likes - 1] and [likes + 1]
    exactly while the counter is a safe integer. *)
Theorem likeTransaction_spec (paperId callerId : string)
    (papers : gmap string PaperData.t) :
  match papers !! paperId with
  | None =>
    likeTransaction paperId callerId papers = TxError NotFound
    ∧ ∀ env w, World.papers w = papers →
        World.store (handleLikePaper env paperId w) = World.store w
  | Some d =>
    ∃ d',
      likeTransaction paperId callerId papers = TxCommitted (<[paperId := d']> papers)
      ∧ d' = updateLikes (likesOf d') (likedByOf d') d
      ∧ (callerId ∈ likedByOf d →
           likedByOf d' = filter (λ uid, uid ≠ callerId) (likedByOf d)
           ∧ (callerId ∉ likedByOf d')
           ∧ likesOf d' = Z.max 0 (toNumber (likesOf d - 1))
           ∧ (0 ≤ likesOf d')%Z
           ∧ (safeInteger (likesOf d) → likesOf d' = Z.max 0 (likesOf d - 1)))
      ∧ (callerId ∉ likedByOf d →
           likedByOf d' = likedByOf d ++ [callerId]
           ∧ length (filter (λ uid, uid = callerId) (likedByOf d')) = 1
           ∧ likesOf d' = toNumber (likesOf d + 1)
           ∧ (safeInteger (likesOf d) → likesOf d' = (likesOf d + 1)%Z))
  end.
Proof.
  destruct (papers !! paperId) as [d|] eqn:Hd.
  - exists (toggleLikeNumber callerId d). split_and!.
    + by apply likeTransaction_found.
    + apply toggleLikeNumber_shape.
    + intros Hin. rewrite (toggleLikeNumber_liked _ _ Hin).
      rewrite likesOf_updateLikes, likedByOf_updateLikes.
      split_and!; [done|apply not_in_filter_ne|done|lia|].
      unfold safeInteger. intros Hsafe. by rewrite toNumber_exact by lia.
    + intros Hin. rewrite (toggleLikeNumber_not_liked _ _ Hin).
      rewrite likesOf_updateLikes, likedByOf_updateLikes.
      split_and!; [done|by apply count_after_append|done|].
      unfold safeInteger. intros Hsafe. by rewrite toNumber_exact by lia.
  - split; [unfold likeTransaction; by rewrite Hd|].
    intros env w <-. by apply handleLikePaper_missing.
Qed.

(** A like of a paper whose counter stands at [2^53]: the caller is
    appended, and the counter is committed as it was. *)
Lemma like_at_maxExact_not_counted :
  likesOf (saturatedPaper "alice") = maxExact
  ∧ ("bob" ∉ likedByOf (saturatedPaper "alice"))
  ∧ likeTransaction "P1" "bob" (onePaper (saturatedPaper "alice"))
    = TxCommitted (<["P1" := updateLikes maxExact ["bob"] (saturatedPaper "alice")]>
                     (onePaper (saturatedPaper "alice")))
  ∧ likesOf (updateLikes maxExact ["bob"] (saturatedPaper "alice"))
    ≠ (likesOf (saturatedPaper "alice") + 1)%Z.
Proof.
  split_and!.
  - reflexivity.
  - apply not_elem_of_nil.
  - vm_compute. reflexivity.
  - vm_compute. discriminate.
Qed.

Example toNumber_examples :
  toNumber (maxExact - 1 + 1) = maxExact
  ∧ toNumber (maxExact + 1) = maxExact
  ∧ toNumber (maxExact + 2 + 1) = (maxExact + 4)%Z
  ∧ toNumber (maxExact - 1) = (maxExact - 1)%Z
  ∧ toNumber (- maxExact - 1) = (- maxExact)%Z
  ∧ toNumber (0 + 1) = 1%Z.
Proof. vm_compute. done. Qed.

(** [C10] [toggleLike] on a paper whose [likes] and/or [likedBy] field is
    absent: the transaction commits whatever fields the paper has, each
    absent field counting as its default and each present field being
    updated from its stored value. With [likes] absent, the first toggle of
    a caller commits [likes = 1] and appends the caller to the [likedBy]
    that is there; with [likedBy] absent, it commits [likedBy = [callerId]]
    and the number [likes + 1] for the counter that is there; with both
    absent it commits [likes = 1] and [likedBy = [callerId]]. *)
Theorem toggleLike_missing_fields (paperId callerId : string)
    (papers : gmap string PaperData.t) (d : PaperData.t) :
  papers !! paperId = Some d →
  ∃ d',
    likeTransaction paperId callerId papers = TxCommitted (<[paperId := d']> papers)
    ∧ (PaperData.likes d = None → callerId ∉ likedByOf d →
         PaperData.likes d' = Some 1%Z
         ∧ PaperData.likedBy d' = Some (likedByOf d ++ [callerId]))
    ∧ (PaperData.likedBy d = None →
         PaperData.likedBy d' = Some [callerId]
         ∧ PaperData.likes d' = Some (toNumber (likesOf d + 1)))
    ∧ (PaperData.likes d = None → PaperData.likedBy d = None →
         PaperData.likes d' = Some 1%Z ∧ PaperData.likedBy d' = Some [callerId]).
Proof.
  intros Hd. exists (toggleLikeNumber callerId d).
  split; [by apply likeTransaction_found|].
  assert (PaperData.likedBy d = None → callerId ∉ likedByOf d) as Habsent.
  { intros E. unfold likedByOf. rewrite E. apply not_elem_of_nil. }
  split_and!.
  - intros E Hin. rewrite (toggleLikeNumber_not_liked _ _ Hin).
    unfold likesOf. by rewrite E.
  - intros E. rewrite (toggleLikeNumber_not_liked _ _ (Habsent E)).
    simpl. unfold likedByOf. by rewrite E.
  - intros E1 E2. rewrite (toggleLikeNumber_not_liked _ _ (Habsent E2)).
    unfold likesOf, likedByOf. by rewrite E1, E2.
Qed.

Lemma toggleLike_missing_fields_witness :
  ∃ d',
    likeTransaction "P1" "bob" (onePaper (barePaper "alice"))
      = TxCommitted (<["P1" := d']> (onePaper (barePaper "alice")))
    ∧ PaperData.likes d' = Some 1%Z ∧ PaperData.likedBy d' = Some ["bob"].
Proof.
  destruct (toggleLike_missing_fields "P1" "bob" (onePaper (barePaper "alice"))
              (barePaper "alice")) as (d' & Hc & _ & _ & Hboth).
  - reflexivity.
  - exists d'. split; [exact Hc|]. apply Hboth; reflexivity.
Defined.

(** The first toggle on a paper that has a counter and no [likedBy], and on
    one that has a [likedBy] and no counter: neither commits [likes = 1]
    together with [likedBy = [callerId]]. *)
Lemma half_bare_paper_first_toggle :
  let legacy := legacyPaper "alice" in
  let listOnly := PaperData.mk "T" "C" "alice" None (Some ["carol"]) (Some 1%Z) None in
  (PaperData.likedBy legacy = None
   ∧ likeTransaction "P1" "bob" (onePaper legacy)
     = TxCommitted (<["P1" := updateLikes 4 ["bob"] legacy]> (onePaper legacy))
   ∧ PaperData.likes (updateLikes 4 ["bob"] legacy) ≠ Some 1%Z)
  ∧ (PaperData.likes listOnly = None
     ∧ likeTransaction "P1" "bob" (onePaper listOnly)
       = TxCommitted (<["P1" := updateLikes 1 ["carol"; "bob"] listOnly]> (onePaper listOnly))
     ∧ PaperData.likedBy (updateLikes 1 ["carol"; "bob"] listOnly) ≠ Some ["bob"]).
Proof.
  simpl. split_and!; first [reflexivity | discriminate | vm_compute; reflexivity].
Qed.

(** ** The invariant [likes == |likedBy|] *)

Lemma toggleLike_invariant (paperId callerId : string)
    (papers : gmap string PaperData.t) :
  storeInvariant papers →
  storeInvariant (papersAfter (toggleLike paperId callerId papers) papers).
Proof.
  intros Hinv. unfold toggleLike.
  destruct (papers !! paperId) as [d|] eqn:Hd; [|done]. simpl.
  apply map_Forall_insert_2; [|done].
  apply toggleLikeData_wellFormed. by apply (Hinv paperId).
Qed.

Lemma handleLikePaper_papers (env : Env.t) (paperId : string) (w : World.t) :
  World.papers (handleLikePaper env paperId w) = World.papers w
  ∨ ∃ uid, signedIn (World.app w) = Some uid
      ∧ World.papers (handleLikePaper env paperId w) =
          papersAfter (toggleLike paperId uid (World.papers w)) (World.papers w).
Proof.
  unfold handleLikePaper.
  destruct (signedIn (World.app w)) as [uid|]; [|by left].
  destruct (Env.rejects env _); [by left|].
  right. exists uid. split; [done|].
  by destruct (toggleLike paperId uid (World.papers w)).
Qed.

(** What [handleAddPaper] leaves in the collection: the papers that were
    there, and at most one new document, whose like fields are [0] and
    [[]]. *)
Lemma handleAddPaper_papers (env : Env.t) (w : World.t) :
  World.papers (handleAddPaper env w) = World.papers w
  ∨ ∃ d, World.papers (handleAddPaper env w) = <[Env.newId env := d]> (World.papers w)
      ∧ PaperData.likes d = Some 0%Z ∧ PaperData.likedBy d = Some [].
Proof.
  unfold handleAddPaper.
  destruct (signedIn (World.app w)) as [uid|]; [|by left].
  destruct (_ || _); [by left|].
  destruct (Env.rejects env AddPaper); [by left|].
  right. eexists. split; [reflexivity|]. done.
Qed.

(** [C3] The committed mutations keep [likes == |likedBy|] on every paper
    whose [likedBy] has no duplicates: [handleAddPaper] adds at most one
    document, with [likes = 0] and [likedBy = []], and [handleLikePaper]
    rewrites both fields together so that the count still matches (and
    [likedBy] still has no duplicates). *)
Theorem likes_invariant_preserved (env : Env.t) (paperId : string) (w : World.t) :
  storeInvariant (World.papers w) →
  storeInvariant (World.papers (handleAddPaper env w))
  ∧ (∀ id d, World.papers (handleAddPaper env w) !! id = Some d →
       World.papers w !! id = Some d
       ∨ (PaperData.likes d = Some 0%Z ∧ PaperData.likedBy d = Some []))
  ∧ storeInvariant (World.papers (handleLikePaper env paperId w)).
Proof.
  intros Hinv. split_and!.
  - destruct (handleAddPaper_papers env w) as [->|(d & -> & Hl & Hb)]; [done|].
    apply map_Forall_insert_2; [|done].
    unfold wellFormed, likesMatch, likesOf, likedByOf. rewrite Hl, Hb.
    split; [apply NoDup_nil_2|done].
  - intros id d. destruct (handleAddPaper_papers env w) as [->|(d0 & -> & Hl & Hb)].
    + by left.
    + rewrite lookup_insert. case_decide.
      * intros [= <-]. by right.
      * by left.
  - destruct (handleLikePaper_papers env paperId w) as [->|(uid & _ & ->)]; [done|].
    by apply toggleLike_invariant.
Qed.

Lemma storeInvariant_onePaper_fresh (author : string) :
  storeInvariant (onePaper (freshPaper author)).
Proof.
  apply map_Forall_singleton. split; [apply NoDup_nil_2|reflexivity].
Defined.

Lemma likes_invariant_preserved_witness :
  storeInvariant (World.papers (handleAddPaper sampleEnv sampleWorld))
  ∧ (∀ id d, World.papers (handleAddPaper sampleEnv sampleWorld) !! id = Some d →
       World.papers sampleWorld !! id = Some d
       ∨ (PaperData.likes d = Some 0%Z ∧ PaperData.likedBy d = Some []))
  ∧ storeInvariant (World.papers (handleLikePaper sampleEnv "P1" sampleWorld)).
Proof.
  apply (likes_invariant_preserved sampleEnv "P1" sampleWorld).
  apply storeInvariant_onePaper_fresh.
Defined.

(** Both operations do commit on the sample world. *)
Example handleAddPaper_sample :
  World.papers (handleAddPaper sampleEnv sampleWorld) !! "P2"
    = Some (PaperData.mk "T2" "C2" "bob" (Some 0%Z) (Some []) (Some 7%Z) None).
Proof. reflexivity. Qed.

Example handleLikePaper_sample :
  World.papers (handleLikePaper sampleEnv "P1" sampleWorld) !! "P1"
    = Some (PaperData.mk "T" "C" "alice" (Some 1%Z) (Some ["bob"]) (Some 1%Z) None).
Proof. reflexivity. Qed.

(** ** Repeated toggles by one caller *)

Lemma toggleLikeData_flips (u : string) (d : PaperData.t) :
  u ∈ likedByOf (toggleLikeData u d) ↔ u ∉ likedByOf d.
Proof.
  destruct (decide (u ∈ likedByOf d)) as [Hin|Hin].
  - rewrite (toggleLikeData_liked _ _ Hin), likedByOf_updateLikes.
    pose proof (not_in_filter_ne u (likedByOf d)). tauto.
  - rewrite (toggleLikeData_not_liked _ _ Hin), likedByOf_updateLikes.
    rewrite elem_of_app, list_elem_of_singleton. tauto.
Qed.

Lemma toggleLikeData_nonneg (u : string) (d : PaperData.t) :
  (0 ≤ likesOf d)%Z → (0 ≤ likesOf (toggleLikeData u d))%Z.
Proof.
  intros Hd. destruct (decide (u ∈ likedByOf d)) as [Hin|Hin].
  - rewrite (toggleLikeData_liked _ _ Hin), likesOf_updateLikes. lia.
  - rewrite (toggleLikeData_not_liked _ _ Hin), likesOf_updateLikes. lia.
Qed.

Lemma toggleLikeData_unlike_nonneg (u : string) (d : PaperData.t) :
  u ∈ likedByOf d → (0 ≤ likesOf (toggleLikeData u d))%Z.
Proof.
  intros Hin. rewrite (toggleLikeData_liked _ _ Hin), likesOf_updateLikes. lia.
Qed.

Lemma toggleTimes_succ (k : nat) (paperId callerId : string)
    (papers : gmap string PaperData.t) (d : PaperData.t) :
  papers !! paperId = Some d →
  toggleTimes (S k) paperId callerId papers
    = toggleTimes k paperId callerId (<[paperId := toggleLikeData callerId d]> papers).
Proof. intros Hd. simpl. by rewrite (toggleLike_found _ callerId _ _ Hd). Qed.

Lemma toggleTimes_state (n : nat) (paperId callerId : string) :
  ∀ (papers : gmap string PaperData.t) (d : PaperData.t),
    papers !! paperId = Some d →
    ∃ d', toggleTimes n paperId callerId papers !! paperId = Some d'
      ∧ ((0 ≤ likesOf d)%Z → (0 ≤ likesOf d')%Z)
      ∧ (callerId ∈ likedByOf d' ↔
           if Nat.even n then callerId ∈ likedByOf d else callerId ∉ likedByOf d).
Proof.
  induction n as [|k IH]; intros papers d Hd.
  - exists d. simpl. tauto.
  - rewrite (toggleTimes_succ _ _ _ _ _ Hd).
    destruct (IH (<[paperId := toggleLikeData callerId d]> papers)
                (toggleLikeData callerId d)) as (d' & Hd' & Hpos' & Hmem).
    { apply lookup_insert_eq. }
    exists d'. split_and!; [done| |].
    + intros Hpos. by apply Hpos', toggleLikeData_nonneg.
    + pose proof (toggleLikeData_flips callerId d) as Hflip.
      rewrite Nat.even_succ, <- Nat.negb_even.
      destruct (Nat.even k); simpl in *; [tauto|].
      destruct (decide (callerId ∈ likedByOf d)); tauto.
Qed.

(** From the second toggle on the counter is not negative, whatever it was
    at the start: the second toggle is an unlike, which floors at zero. *)
Lemma toggleTimes_nonneg_from_two (k : nat) (paperId callerId : string)
    (papers : gmap string PaperData.t) (d : PaperData.t) :
  papers !! paperId = Some d →
  callerId ∉ likedByOf d →
  ∃ d', toggleTimes (S (S k)) paperId callerId papers !! paperId = Some d'
    ∧ (0 ≤ likesOf d')%Z.
Proof.
  intros Hd Habsent.
  rewrite (toggleTimes_succ _ _ _ _ _ Hd).
  rewrite (toggleTimes_succ _ _ _ _ (toggleLikeData callerId d))
    by apply lookup_insert_eq.
  destruct (toggleTimes_state k paperId callerId
              (<[paperId := toggleLikeData callerId (toggleLikeData callerId d)]>
                 (<[paperId := toggleLikeData callerId d]> papers))
              (toggleLikeData callerId (toggleLikeData callerId d)))
    as (d' & Hd' & Hpos & _).
  { apply lookup_insert_eq. }
  exists d'. split; [done|]. apply Hpos.
  apply toggleLikeData_unlike_nonneg. by apply toggleLikeData_flips.
Qed.

(** [C4] One caller toggling the same paper [n] times in a row, starting
    absent from [likedBy]: after an odd [n] the caller is in [likedBy], after
    an even [n] the caller is not. [likes] is not negative after any number
    of toggles when it was not negative at the start, and from the second
    toggle on in any case. *)
Theorem toggle_parity (n : nat) (paperId callerId : string)
    (papers : gmap string PaperData.t) (d : PaperData.t) :
  papers !! paperId = Some d →
  callerId ∉ likedByOf d →
  ∃ d', toggleTimes n paperId callerId papers !! paperId = Some d'
    ∧ (Nat.Odd n → callerId ∈ likedByOf d')
    ∧ (Nat.Even n → callerId ∉ likedByOf d')
    ∧ ((0 ≤ likesOf d)%Z ∨ (2 ≤ n)%nat → (0 ≤ likesOf d')%Z).
Proof.
  intros Hd Habsent.
  destruct (toggleTimes_state n paperId callerId papers d Hd)
    as (d' & Hd' & Hpos' & Hmem).
  exists d'. split_and!; [done| | |].
  - intros Hodd. apply Nat.odd_spec in Hodd.
    rewrite <- Nat.negb_even in Hodd. apply negb_true_iff in Hodd.
    rewrite Hodd in Hmem. tauto.
  - intros Heven. apply Nat.even_spec in Heven.
    rewrite Heven in Hmem. tauto.
  - intros [Hpos|Hn]; [by apply Hpos'|].
    destruct n as [|[|k]]; [lia|lia|].
    destruct (toggleTimes_nonneg_from_two k paperId callerId papers d Hd Habsent)
      as (d'' & Hd'' & Hpos'').
    congruence.
Qed.

Lemma toggle_parity_witness :
  ∃ d', toggleTimes 3 "P1" "bob" (onePaper (freshPaper "alice")) !! "P1" = Some d'
    ∧ "bob" ∈ likedByOf d' ∧ (0 ≤ likesOf d')%Z.
Proof.
  destruct (toggle_parity 3 "P1" "bob" (onePaper (freshPaper "alice"))
              (freshPaper "alice")) as (d' & Hd' & Hodd & _ & Hpos).
  - reflexivity.
  - apply not_elem_of_nil.
  - exists d'. split_and!; [exact Hd'| |].
    + apply Hodd. exists 1. reflexivity.
    + apply Hpos. left. reflexivity.
Defined.

Example toggle_twice_restores :
  toggleTimes 2 "P1" "bob" (onePaper (freshPaper "alice")) !! "P1"
    = Some (freshPaper "alice").
Proof. reflexivity. Qed.

(** ** Comment ordering *)

Section Sorting.
Context {A : Type} (key : A → Z).

Local Abbreviation compare := (λ x y : A, (key x - key y)%Z).
Local Abbreviation le := (λ x y : A, (key x ≤ key y)%Z).

Lemma insertSorted_Permutation (x : A) (l : list A) :
  insertSorted compare x l ≡ₚ x :: l.
Proof.
  induction l as [|y l IH]; simpl; [done|].
  destruct (compare x y <=? 0)%Z; [done|].
  rewrite IH. apply Permutation_swap.
Qed.

Lemma sort_Permutation (l : list A) : sort compare l ≡ₚ l.
Proof.
  induction l as [|x l IH]; simpl; [done|].
  unfold sort in IH. by rewrite insertSorted_Permutation, IH.
Qed.

Lemma insertSorted_StronglySorted (x : A) (l : list A) :
  StronglySorted le l → StronglySorted le (insertSorted compare x l).
Proof.
  induction 1 as [|y l Hl IH Hy]; simpl.
  - repeat constructor.
  - destruct (Z.leb_spec (key x - key y) 0) as [Hxy|Hxy]; simpl in *.
    + constructor; [by constructor|].
      constructor; [lia|].
      eapply Forall_impl; [exact Hy|]. simpl. intros z Hz. lia.
    + constructor; [done|].
      rewrite insertSorted_Permutation.
      constructor; [lia|done].
Qed.

Lemma sort_StronglySorted (l : list A) : StronglySorted le (sort compare l).
Proof.
  induction l as [|x l IH]; simpl; [constructor|].
  by apply insertSorted_StronglySorted.
Qed.

Lemma StronglySorted_lookup_le (l : list A) (i j : nat) (x y : A) :
  StronglySorted le l → l !! i = Some x → l !! j = Some y → i < j → le x y.
Proof.
  intros Hl. revert i j. induction Hl as [|z l Hl IH Hz]; intros i j Hi Hj Hij.
  - by rewrite lookup_nil in Hi.
  - destruct j as [|j]; [lia|]. destruct i as [|i]; simpl in *.
    + injection Hi as ->. rewrite Forall_forall in Hz.
      apply Hz. by eapply list_elem_of_lookup_2.
    + apply (IH i j); [done|done|lia].
Qed.
End Sorting.

Section SortingMore.
Context {A : Type} (key : A → Z).

Local Abbreviation compare := (λ x y : A, (key x - key y)%Z).

Lemma insertSorted_filter_key (k : Z) (x : A) (l : list A) :
  filter (λ c, key c = k) (insertSorted compare x l)
    = filter (λ c, key c = k) (x :: l).
Proof.
  induction l as [|y l IH]; [done|]. simpl.
  destruct (Z.leb_spec (key x - key y) 0) as [Hxy|Hxy]; [done|].
  destruct (decide (key y = k)) as [Hy|Hy].
  - rewrite (filter_cons_True _ y) by done. rewrite IH.
    rewrite (filter_cons_False _ x) by lia.
    rewrite (filter_cons_False _ x) by lia.
    by rewrite (filter_cons_True _ y) by done.
  - rewrite (filter_cons_False _ y) by done. rewrite IH.
    destruct (decide (key x = k)) as [Hx|Hx].
    + rewrite !(filter_cons_True _ x) by done.
      by rewrite (filter_cons_False _ y) by done.
    + rewrite !(filter_cons_False _ x) by done.
      by rewrite (filter_cons_False _ y) by done.
Qed.

Lemma sort_filter_key (k : Z) (l : list A) :
  filter (λ c, key c = k) (sort compare l) = filter (λ c, key c = k) l.
Proof.
  induction l as [|x l IH]; [done|].
  change (sort compare (x :: l)) with (insertSorted compare x (sort compare l)).
  rewrite insertSorted_filter_key.
  destruct (decide (key x = k)).
  - rewrite !(filter_cons_True _ x) by done. by rewrite IH.
  - rewrite !(filter_cons_False _ x) by done. by rewrite IH.
Qed.

Lemma sort_sorted_id (l : list A) :
  StronglySorted (λ x y, (key x ≤ key y)%Z) l → sort compare l = l.
Proof.
  induction 1 as [|x l Hl IH Hx]; [done|].
  change (sort compare (x :: l)) with (insertSorted compare x (sort compare l)).
  rewrite IH. destruct l as [|y l]; [done|]. simpl.
  apply Forall_cons in Hx as [Hxy _].
  destruct (Z.leb_spec (key x - key y) 0); [done|lia].
Qed.
End SortingMore.

Lemma secondsOrZero_pending (c : Comment.t) :
  Comment.timestamp c = None → secondsOrZero c = 0%Z.
Proof. unfold secondsOrZero. by intros ->. Qed.

Lemma secondsOrZero_stamped (c : Comment.t) (t : Timestamp.t) :
  Comment.timestamp c = Some t → secondsOrZero c = Timestamp.seconds t.
Proof.
  unfold secondsOrZero. intros ->. simpl.
  destruct (Z.eqb_spec (Timestamp.seconds t) 0); congruence.
Qed.

(** [C9] After a comment snapshot the displayed list holds the comments of
    the snapshot in ascending order of the whole seconds of their timestamp,
    a missing timestamp counting as 0. Comments that fall in the same second
    (or that have no timestamp) keep the order in which the snapshot
    delivered them, whatever their nanoseconds. Seconds 3, 1, 2 are shown as
    1, 2, 3, and a comment without a timestamp comes before every comment
    whose timestamp has positive seconds. *)
Theorem comments_sorted_by_seconds (fetchedComments : list Comment.t) (a : App.t) :
  let shown := App.comments (onCommentsSnapshot fetchedComments a) in
  shown ≡ₚ fetchedComments
  ∧ StronglySorted notLater shown
  ∧ (∀ k, filter (λ c, secondsOrZero c = k) shown
          = filter (λ c, secondsOrZero c = k) fetchedComments)
  ∧ (∀ c, Comment.timestamp c = None → secondsOrZero c = 0%Z)
  ∧ (∀ i j c c' t,
       shown !! i = Some c → shown !! j = Some c' →
       Comment.timestamp c = None →
       Comment.timestamp c' = Some t → (0 < Timestamp.seconds t)%Z →
       i < j)
  ∧ secondsOrZero <$>
      App.comments (onCommentsSnapshot
        [commentAt "c3" "u" 3; commentAt "c1" "u" 1; commentAt "c2" "u" 2] a)
    = [1; 2; 3]%Z.
Proof.
  simpl. split_and!.
  - apply (sort_Permutation secondsOrZero).
  - apply (sort_StronglySorted secondsOrZero).
  - intros k. apply (sort_filter_key secondsOrZero).
  - apply secondsOrZero_pending.
  - intros i j c c' t Hi Hj Hc Hc' Ht.
    apply secondsOrZero_pending in Hc.
    apply secondsOrZero_stamped in Hc'.
    destruct (decide (i < j)) as [|Hge]; [done|]. exfalso.
    destruct (decide (i = j)) as [->|Hne].
    + rewrite Hi in Hj. injection Hj as ->. lia.
    + pose proof (StronglySorted_lookup_le secondsOrZero _ j i c' c
                    (sort_StronglySorted secondsOrZero fetchedComments) Hj Hi) as Hle.
      simpl in Hle. lia.
  - reflexivity.
Qed.

(** Two comments of the same second, delivered with the later one first,
    are displayed with the later one first: the displayed list is not in
    the order of the timestamps. *)
Lemma same_second_not_in_time_order :
  App.comments (onCommentsSnapshot [sameSecondLate; sameSecondEarly] (App.initial "bob"))
    = [sameSecondLate; sameSecondEarly]
  ∧ postedBefore sameSecondEarly sameSecondLate
  ∧ ¬ inTimeOrder
        (App.comments (onCommentsSnapshot [sameSecondLate; sameSecondEarly]
                         (App.initial "bob"))).
Proof.
  assert (postedBefore sameSecondEarly sameSecondLate) as Hearly.
  { right. simpl. split; [reflexivity|lia]. }
  split_and!; [reflexivity|exact Hearly|].
  change (App.comments (onCommentsSnapshot [sameSecondLate; sameSecondEarly]
                          (App.initial "bob")))
    with [sameSecondLate; sameSecondEarly].
  intros Hsorted. apply StronglySorted_inv in Hsorted as [_ Hall].
  apply Forall_cons in Hall as [Hnot _]. by apply Hnot.
Qed.

Example pending_comment_first (a : App.t) :
  Comment.id <$>
    App.comments (onCommentsSnapshot
      [commentAt "c3" "u" 3; commentPending "c0" "u"; commentAt "c1" "u" 1] a)
  = ["c0"; "c1"; "c3"].
Proof. reflexivity. Qed.

(** ** Focus reconciliation *)

(** When the focused id is in the snapshot, the focus becomes the snapshot's
    copy of that paper. *)
Lemma papersSnapshot_found (docs : list Paper.t) (a : App.t) (sel p : Paper.t) :
  App.selectedPaper a = Some sel →
  find (λ p, bool_decide (Paper.id p = Paper.id sel)) docs = Some p →
  App.selectedPaper (papersSnapshot docs a) = Some p
  ∧ Paper.id p = Paper.id sel ∧ p ∈ docs
  ∧ App.papers (papersSnapshot docs a) = docs.
Proof.
  intros Hsel Hfind. unfold papersSnapshot, onPapersSnapshot, commentsEffect.
  rewrite Hsel, Hfind.
  apply find_some in Hfind as [Hin Hid].
  apply bool_decide_eq_true in Hid. apply list_elem_of_In in Hin.
  by destruct (_ || _).
Qed.

Lemma find_absent (docs : list Paper.t) (id : string) :
  (∀ p, p ∈ docs → Paper.id p ≠ id) →
  find (λ p, bool_decide (Paper.id p = id)) docs = None.
Proof.
  intros Habs.
  destruct (find _ docs) as [p|] eqn:Hfind; [|done].
  apply find_some in Hfind as [Hin Hid].
  apply bool_decide_eq_true in Hid. apply list_elem_of_In in Hin.
  by destruct (Habs p Hin).
Qed.

(** When it is not, the focus is cleared and the comment list emptied. *)
Lemma papersSnapshot_absent (docs : list Paper.t) (a : App.t) (sel : Paper.t) :
  App.selectedPaper a = Some sel →
  (∀ p, p ∈ docs → Paper.id p ≠ Paper.id sel) →
  App.selectedPaper (papersSnapshot docs a) = None
  ∧ App.comments (papersSnapshot docs a) = [].
Proof.
  intros Hsel Habs. unfold papersSnapshot, onPapersSnapshot, commentsEffect.
  rewrite Hsel, (find_absent _ _ Habs). simpl.
  by rewrite !orb_true_r.
Qed.

(** No snapshot touches the edit-mode flag. *)
Lemma papersSnapshot_isEditing (docs : list Paper.t) (a : App.t) :
  App.isEditing (papersSnapshot docs a) = App.isEditing a.
Proof.
  unfold papersSnapshot, onPapersSnapshot, commentsEffect.
  destruct (App.selectedPaper a) as [sel|]; [destruct (find _ docs)|];
    simpl; destruct (_ || _); reflexivity.
Qed.

(** [C8] The papers listener at the input where the claim fails. Bob is
    editing his focused paper P1 when a snapshot without P1 arrives: the
    focus is cleared and the comment list emptied, but the session is still
    in edit mode afterwards. The flag is the one that the Back button resets
    together with the focus. *)
Theorem snapshot_leaves_edit_mode :
  ∃ w, run sampleEnv editThenDeletedElsewhere bobSession = Some w
    ∧ App.selectedPaper (World.app w) = None
    ∧ App.comments (World.app w) = []
    ∧ App.isEditing (World.app w) = true
    ∧ App.isEditing (backToDashboard (World.app w)) = false.
Proof. eexists. split; [vm_compute; reflexivity|]. vm_compute. done. Qed.

(** ** Authorization of edit and delete *)

(** [executeDeletePaper] refuses a caller who is not the author of the
    focused paper: the store is left as it was and only the dialog closes. *)
Lemma executeDeletePaper_not_author (env : Env.t) (w : World.t) :
  isPaperAuthor (World.app w) = false →
  World.store (executeDeletePaper env w) = World.store w
  ∧ World.console (executeDeletePaper env w) = World.console w
  ∧ App.dbError (World.app (executeDeletePaper env w)) = App.dbError (World.app w).
Proof.
  intros Hna. unfold executeDeletePaper.
  destruct (signedIn (World.app w)); [|done].
  destruct (App.selectedPaper (World.app w)); [|done].
  by rewrite Hna.
Qed.

(** [handleUpdatePaper] never looks at [authorId]: whoever is signed in
    overwrites the focused paper. *)
Lemma handleUpdatePaper_any_caller (env : Env.t) (w : World.t)
    (uid : string) (sel : Paper.t) (d : PaperData.t) :
  signedIn (World.app w) = Some uid →
  App.selectedPaper (World.app w) = Some sel →
  isEmpty (trim (App.editTitle (World.app w))) = false →
  isEmpty (trim (App.editContent (World.app w))) = false →
  Env.rejects env (UpdatePaper (Paper.id sel)) = None →
  World.papers w !! Paper.id sel = Some d →
  World.papers (handleUpdatePaper env w) !! Paper.id sel =
    Some (editFields (trim (App.editTitle (World.app w)))
            (trim (App.editContent (World.app w))) (Env.now env) d).
Proof.
  intros Hs Hsel Ht Hc Hr Hd. unfold handleUpdatePaper.
  rewrite Hs, Hsel, Ht, Hc, Hr, Hd. simpl. apply lookup_insert_eq.
Qed.

(** [C5] The edit path at the input where the claim fails. After the run of
    [C8], Bob opens Alice's paper P2; the edit form is shown, still holding
    the text of his deleted paper, and Save Changes overwrites P2, whose
    [authorId] is not Bob. No error is reported. *)
Theorem edit_by_other_caller_goes_through :
  ∃ w, run sampleEnv thenSaveOnAlicePaper bobSession = Some w
    ∧ App.userId (World.app w) = Some "bob"
    ∧ World.papers bobSession !! "P2" = Some (Paper.data alicePaper)
    ∧ Paper.authorId alicePaper = "alice"
    ∧ World.papers w !! "P2"
        = Some (PaperData.mk "Mine" "Draft" "alice" (Some 0%Z) (Some [])
                  (Some 2%Z) (Some 7%Z))
    ∧ App.dbError (World.app w) = None
    ∧ World.console w = [].
Proof. eexists. split; [vm_compute; reflexivity|]. vm_compute. done. Qed.

(** ** Who can delete a comment *)

Lemma handleLikePaper_comments (env : Env.t) (paperId : string) (w : World.t) :
  World.comments (handleLikePaper env paperId w) = World.comments w.
Proof.
  unfold handleLikePaper.
  destruct (signedIn (World.app w)); [|done].
  destruct (Env.rejects env _); [done|].
  by destruct (toggleLike _ _ _).
Qed.

Lemma handleUpdatePaper_comments (env : Env.t) (w : World.t) :
  World.comments (handleUpdatePaper env w) = World.comments w.
Proof.
  unfold handleUpdatePaper.
  destruct (signedIn (World.app w)); [|done].
  destruct (App.selectedPaper (World.app w)); [|done].
  destruct (_ || _); [done|].
  destruct (Env.rejects env _); [done|].
  by destruct (World.papers w !! _).
Qed.

Lemma handleDeleteComment_comments (env : Env.t) (commentId : string) (w : World.t) :
  signedIn (World.app w) ≠ None →
  Env.rejects env (DeleteComment commentId) = None →
  World.comments (handleDeleteComment env commentId w)
    = delete commentId (World.comments w).
Proof.
  intros Hs Hr. unfold handleDeleteComment.
  destruct (signedIn (World.app w)); [|done]. by rewrite Hr.
Qed.

Lemma handleDeleteComment_others (env : Env.t) (commentId cid : string) (w : World.t) :
  cid ≠ commentId →
  World.comments (handleDeleteComment env commentId w) !! cid = World.comments w !! cid.
Proof.
  intros Hne. unfold handleDeleteComment.
  destruct (signedIn (World.app w)); [|done].
  destruct (Env.rejects env _); [done|].
  simpl. by apply lookup_delete_ne.
Qed.

(** [C6] Deleting a comment is gated in the interface, not in the handler.
    For a session whose [userId] is not the comment's [userId] the delete
    control is not on the page, so nothing can be removed through it; a step
    of a session that makes a comment disappear from the store is a click on
    the delete control of a displayed comment written by the session's own
    user, the confirmation of a paper deletion, or a write from elsewhere.
    [handleDeleteComment] itself checks only that the caller is signed in,
    and deletes the comment whose id it is given. *)
Theorem comment_deletion_gated (env : Env.t) (w : World.t) :
  (∀ c, App.userId (World.app w) ≠ Some (Comment.userId c) →
        step env (ClickDeleteComment c) w = None)
  ∧ (∀ act w' cid,
       step env act w = Some w' →
       is_Some (World.comments w !! cid) →
       World.comments w' !! cid = None →
       (∃ c, act = ClickDeleteComment c ∧ Comment.id c = cid
             ∧ c ∈ App.comments (World.app w)
             ∧ App.userId (World.app w) = Some (Comment.userId c))
       ∨ act = ClickConfirmDelete
       ∨ ∃ st, act = RemoteWrite st)
  ∧ (∀ commentId,
       signedIn (World.app w) ≠ None →
       Env.rejects env (DeleteComment commentId) = None →
       World.comments (handleDeleteComment env commentId w)
         = delete commentId (World.comments w)).
Proof.
  split_and!.
  - intros c Hne. unfold step, offered, isAuthor.
    rewrite (bool_decide_eq_false_2 _ Hne). by rewrite andb_false_r.
  - intros act w' cid Hstep [cd Hcd] Hgone. unfold step in Hstep.
    destruct (offered act (World.app w)) eqn:Hoff; [|done].
    injection Hstep as <-.
    destruct act; simpl in Hgone;
      rewrite ?handleLikePaper_comments, ?handleUpdatePaper_comments in Hgone;
      try (unfold onApp, World.comments in *; simpl in *; congruence).
    + by right; left.
    + left. exists comment. simpl in Hoff.
      apply andb_true_iff in Hoff as [Hoff Hauth].
      apply andb_true_iff in Hoff as [_ Hshown].
      apply bool_decide_eq_true in Hauth, Hshown.
      split_and!; [done| |done|done].
      destruct (decide (cid = Comment.id comment)) as [|Hne]; [done|].
      rewrite (handleDeleteComment_others _ _ _ _ Hne) in Hgone. congruence.
    + right; right. by eexists.
  - intros commentId. apply handleDeleteComment_comments.
Qed.

(** The handler called by a session of Bob's on a comment of Alice's. *)
Lemma deleteComment_handler_unchecked :
  ¬ (∀ (env : Env.t) (w : World.t) (commentId uid : string) (cd : CommentData.t),
       signedIn (World.app w) = Some uid →
       World.comments w !! commentId = Some cd →
       CommentData.userId cd ≠ uid →
       World.comments (handleDeleteComment env commentId w) = World.comments w).
Proof.
  intros Hclaim.
  pose (cd := CommentData.mk "P1" "alice" "text" (Some (Timestamp.mk 5 0))).
  pose (w := World.mk (Store.mk ∅ {[ "c1" := cd ]}) (App.initial "bob") []).
  specialize (Hclaim sampleEnv w "c1" "bob" cd eq_refl eq_refl).
  assert (World.comments (handleDeleteComment sampleEnv "c1" w) !! "c1" = None)
    as Hgone by reflexivity.
  rewrite Hclaim in Hgone; [|by intros [=]]. discriminate Hgone.
Qed.

(** ** The cascading delete *)

Lemma elem_of_commentsOfPaper (paperId cid : string) (cs : gmap string CommentData.t) :
  cid ∈ commentsOfPaper paperId cs
  ↔ ∃ cd, cs !! cid = Some cd ∧ CommentData.paperId cd = paperId.
Proof.
  unfold commentsOfPaper. rewrite list_elem_of_fmap. split.
  - intros ([k cd] & -> & Hin). apply elem_of_map_to_list in Hin.
    apply map_lookup_filter_Some in Hin as [Hk Hp]. by exists cd.
  - intros (cd & Hk & Hp). exists (cid, cd). split; [done|].
    apply elem_of_map_to_list. by apply map_lookup_filter_Some.
Qed.

(** Every comment in the list whose deletion is not rejected is removed; all
    the others stay. *)
Lemma deleteEach_lookup (env : Env.t) (ids : list string) (cid : string) :
  ∀ cs : gmap string CommentData.t,
    deleteEach env ids cs !! cid =
      if decide (cid ∈ ids ∧ Env.rejects env (DeleteComment cid) = None)
      then None else cs !! cid.
Proof.
  induction ids as [|x ids IH]; intros cs.
  - change (deleteEach env [] cs) with cs.
    destruct (decide _) as [[H _]|]; [by apply elem_of_nil in H|done].
  - change (deleteEach env (x :: ids) cs)
      with (deleteEach env ids
              (match Env.rejects env (DeleteComment x) with
               | None => delete x cs
               | Some _ => cs
               end)).
    rewrite IH. clear IH.
    destruct (decide (cid ∈ ids ∧ Env.rejects env (DeleteComment cid) = None))
      as [[Hin Hok]|Hnot].
    + rewrite decide_True; [done|]. split; [by apply list_elem_of_further|done].
    + destruct (decide (cid = x)) as [->|Hne].
      * destruct (Env.rejects env (DeleteComment x)) eqn:Hr.
        -- rewrite decide_False; [done|]. by intros [_ ?].
        -- rewrite decide_True; [|split; [by apply list_elem_of_here|done]].
           apply lookup_delete_eq.
      * rewrite decide_False.
        -- destruct (Env.rejects env (DeleteComment x)); [done|].
           by apply lookup_delete_ne.
        -- intros [Hin Hok]. apply elem_of_cons in Hin as [?|Hin]; [done|].
           by apply Hnot.
Qed.

(** The cascade of [executeDeletePaper] once the paper document has been
    deleted. The paper stays deleted and the dialog is closed however the
    rest resolves. If the comment query succeeds, the focus is cleared
    whatever the per-comment deletions do; every comment of the paper whose
    deletion is not rejected is removed, the rejected ones and the comments
    of other papers stay, and nothing is written to the console or to
    [dbError]. If the comment query is rejected, the focus is kept, no
    comment is removed, and the failure is reported on the console and in
    [dbError]. *)
Lemma cascade_after_paper_deleted (env : Env.t) (w : World.t)
    (uid : string) (sel : Paper.t) :
  signedIn (World.app w) = Some uid →
  App.selectedPaper (World.app w) = Some sel →
  isPaperAuthor (World.app w) = true →
  Env.rejects env (DeletePaper (Paper.id sel)) = None →
  let w' := executeDeletePaper env w in
  World.papers w' = delete (Paper.id sel) (World.papers w)
  ∧ App.showDeleteConfirmation (World.app w') = false
  ∧ (Env.rejects env (QueryComments (Paper.id sel)) = None →
       App.selectedPaper (World.app w') = None
       ∧ World.console w' = World.console w
       ∧ App.dbError (World.app w') = App.dbError (World.app w)
       ∧ ∀ cid, World.comments w' !! cid =
           match World.comments w !! cid with
           | Some cd =>
             if decide (CommentData.paperId cd = Paper.id sel
                        ∧ Env.rejects env (DeleteComment cid) = None)
             then None else Some cd
           | None => None
           end)
  ∧ (∀ message, Env.rejects env (QueryComments (Paper.id sel)) = Some message →
       App.selectedPaper (World.app w') = Some sel
       ∧ World.comments w' = World.comments w
       ∧ World.console w' = World.console w ++ ["Error deleting paper: " +:+ message]
       ∧ App.dbError (World.app w') = Some ("Failed to delete paper: " +:+ message)).
Proof.
  intros Hs Hsel Hauth Hdel. simpl. unfold executeDeletePaper.
  rewrite Hs, Hsel, Hauth, Hdel. simpl.
  destruct (Env.rejects env (QueryComments (Paper.id sel))) as [m|] eqn:Hq.
  - split_and!; [done|done|done|]. intros message [= <-]. done.
  - split_and!; [done|done| |done]. intros _. split_and!; [done|done|done|].
    intros cid. simpl. unfold World.comments. simpl.
    rewrite deleteEach_lookup.
    destruct (Store.comments (World.store w) !! cid) as [cd|] eqn:Hcd.
    + destruct (decide (CommentData.paperId cd = Paper.id sel
                        ∧ Env.rejects env (DeleteComment cid) = None))
        as [[Hp Hok]|Hnot].
      * rewrite decide_True; [done|]. split; [|done].
        apply elem_of_commentsOfPaper. by exists cd.
      * rewrite decide_False; [done|]. intros [Hin Hok]. apply Hnot.
        apply elem_of_commentsOfPaper in Hin as (cd' & Hcd' & Hp).
        split; [congruence|done].
    + by case_decide.
Qed.

Lemma cascade_after_paper_deleted_witness :
  let w' := executeDeletePaper oneDeleteFails bobDeleting in
  World.papers w' !! "P1" = None
  ∧ App.selectedPaper (World.app w') = None
  ∧ World.console w' = []
  ∧ World.comments w' !! "c1" = World.comments bobDeleting !! "c1"
  ∧ World.comments w' !! "c2" = None
  ∧ World.comments w' !! "c3" = World.comments bobDeleting !! "c3".
Proof.
  destruct (cascade_after_paper_deleted oneDeleteFails bobDeleting "bob" bobPaper)
    as (Hp & _ & Hok & _); [reflexivity..|].
  destruct (Hok eq_refl) as (Hfocus & Hlog & _ & Hcs).
  simpl. split_and!.
  - rewrite Hp. apply lookup_delete_eq.
  - exact Hfocus.
  - exact Hlog.
  - rewrite (Hcs "c1"). reflexivity.
  - rewrite (Hcs "c2"). reflexivity.
  - rewrite (Hcs "c3"). reflexivity.
Defined.

(** [C7] The cascading delete at the input where the claim fails. Bob, the
    author of P1, confirms its deletion; the paper document is deleted, and
    the comment query that follows is rejected. The focus stays on the
    deleted paper: [setSelectedPaper(null)] is inside the [try], after the
    awaited query, so the [catch] skips it, while the [finally] closes the
    dialog. The failure is reported as a failure to delete the paper,
    although the paper is gone, and its comments stay in the store. The
    focus is cleared only by the papers listener, when the next snapshot
    arrives. When it is the deletion of one comment that is rejected, the
    cascade goes on and the focus is cleared, and nothing is written to the
    console or to [dbError]. *)
Theorem cascade_query_rejected :
  ∃ w, run queryFails deletesOwnPaper bobWithComments = Some w
    ∧ World.papers w !! "P1" = None
    ∧ World.comments w = threeComments
    ∧ App.selectedPaper (World.app w) = Some bobPaper
    ∧ App.showDeleteConfirmation (World.app w) = false
    ∧ App.dbError (World.app w) = Some "Failed to delete paper: unavailable"
    ∧ World.console w = ["Error deleting paper: unavailable"]
    ∧ App.selectedPaper (papersSnapshot [alicePaper] (World.app w)) = None
    ∧ (let w2 := executeDeletePaper oneDeleteFails bobDeleting in
       App.selectedPaper (World.app w2) = None
       ∧ World.comments w2 !! "c1" = threeComments !! "c1"
       ∧ World.comments w2 !! "c2" = None
       ∧ World.console w2 = []
       ∧ App.dbError (World.app w2) = None).
Proof. eexists. split; [vm_compute; reflexivity|]. vm_compute. done. Qed.

(** ** Convergence of concurrent likes *)

Lemma lookup_setClient (i j : nat) (c c0 : Tx.Client) (σ : Tx.State) :
  Tx.clients σ !! i = Some c0 →
  Tx.clients (Tx.setClient i c σ) !! j
    = if decide (i = j) then Some c else Tx.clients σ !! j.
Proof.
  intros Hi. simpl. case_decide as Hij.
  - subst j. apply list_lookup_insert_eq. by eapply lookup_lt_Some.
  - by apply list_lookup_insert_ne.
Qed.

Lemma callers_insert (i : nat) (c c' : Tx.Client) (cs : list Tx.Client) :
  cs !! i = Some c → Tx.callerId c' = Tx.callerId c →
  Tx.callerId <$> <[i := c']> cs = Tx.callerId <$> cs.
Proof.
  intros Hi Hu. rewrite list_fmap_insert. apply list_insert_id.
  by rewrite list_lookup_fmap, Hi, Hu.
Qed.

(** A move that neither starts from nor ends in [Committed] does not change
    who has committed. *)
Lemma hasCommitted_setClient (u : string) (i : nat) (c c' : Tx.Client) (σ : Tx.State) :
  Tx.clients σ !! i = Some c →
  Tx.phase c ≠ Tx.Committed → Tx.phase c' ≠ Tx.Committed →
  Tx.hasCommitted u (Tx.setClient i c' σ) ↔ Tx.hasCommitted u σ.
Proof.
  intros Hi Hc Hc'. unfold Tx.hasCommitted. split; intros (j & n & Hj).
  - rewrite (lookup_setClient _ _ _ _ _ Hi) in Hj. case_decide.
    + injection Hj as ->. by destruct Hc'.
    + by exists j, n.
  - exists j, n. rewrite (lookup_setClient _ _ _ _ _ Hi). case_decide; [|done].
    subst j. rewrite Hi in Hj. injection Hj as ->. by destruct Hc.
Qed.

Lemma invariant_setClient (callers : list string) (σ : Tx.State)
    (i : nat) (c c' : Tx.Client) :
  TxInvariant callers σ →
  Tx.clients σ !! i = Some c →
  Tx.callerId c' = Tx.callerId c →
  Tx.phase c ≠ Tx.Committed → Tx.phase c' ≠ Tx.Committed →
  (∀ snap v, Tx.phase c' = Tx.Reading snap v →
             (v ≤ Tx.version σ)%nat ∧ (v = Tx.version σ → snap = Tx.doc σ)) →
  TxInvariant callers (Tx.setClient i c' σ).
Proof.
  intros [Hcs (d & Hd & Hwf & Hmem) Hreads] Hi Hu Hc Hc' Hnew. split.
  - simpl. by rewrite (callers_insert _ _ _ _ Hi Hu).
  - exists d. split_and!; [done|done|]. intros u.
    by rewrite (hasCommitted_setClient _ _ _ _ _ Hi Hc Hc').
  - intros j cj snap v Hj Hph.
    rewrite (lookup_setClient _ _ _ _ _ Hi) in Hj. case_decide.
    + injection Hj as <-. by apply Hnew.
    + by apply (Hreads j cj).
Qed.

(** A caller that is still reading has not been counted yet. *)
Lemma reader_not_in_likedBy (callers : list string) (σ : Tx.State)
    (i : nat) (c : Tx.Client) (d : PaperData.t) :
  NoDup callers →
  TxInvariant callers σ →
  Tx.clients σ !! i = Some c → Tx.phase c ≠ Tx.Committed →
  Tx.doc σ = Some d →
  Tx.callerId c ∉ likedByOf d.
Proof.
  intros Hnd [Hcs (d0 & Hd0 & _ & Hmem) _] Hi Hc Hd Hin.
  assert (d0 = d) as -> by congruence.
  apply Hmem in Hin as (j & n & Hj).
  assert (i = j) as ->.
  { rewrite <- Hcs in Hnd. eapply NoDup_lookup; [exact Hnd| |].
    - by rewrite list_lookup_fmap, Hi.
    - by rewrite list_lookup_fmap, Hj. }
  rewrite Hi in Hj. injection Hj as Hj.
  apply (f_equal Tx.phase) in Hj. simpl in Hj. congruence.
Qed.

Lemma invariant_commit (callers : list string) (σ : Tx.State)
    (i : nat) (c : Tx.Client) (data : PaperData.t) :
  NoDup callers →
  TxInvariant callers σ →
  Tx.clients σ !! i = Some c →
  Tx.phase c = Tx.Reading (Some data) (Tx.version σ) →
  TxInvariant callers
    (Tx.mk (Some (toggleLikeData (Tx.callerId c) data)) (S (Tx.version σ))
       (<[i := Tx.mkClient (Tx.callerId c) Tx.Committed (Tx.attempts c)]> (Tx.clients σ))).
Proof.
  intros Hnd Hinv Hi Hph.
  assert (Tx.phase c ≠ Tx.Committed) as Hnc by (rewrite Hph; discriminate).
  assert (Tx.doc σ = Some data) as Hdoc.
  { symmetry. by apply (inv_reads _ _ Hinv i c (Some data) (Tx.version σ)). }
  pose proof (reader_not_in_likedBy _ _ _ _ _ Hnd Hinv Hi Hnc Hdoc) as Hfresh.
  destruct Hinv as [Hcs (d & Hd & Hwf & Hmem) Hreads].
  assert (d = data) as -> by congruence.
  split; simpl.
  - by rewrite (callers_insert i c _ _ Hi).
  - exists (toggleLikeData (Tx.callerId c) data).
    split_and!; [done|by apply toggleLikeData_wellFormed|].
    intros u. rewrite (toggleLikeData_not_liked _ _ Hfresh), likedByOf_updateLikes.
    rewrite elem_of_app, list_elem_of_singleton, Hmem.
    unfold Tx.hasCommitted. simpl. split.
    + intros [(j & n & Hj)| ->].
      * exists j, n. rewrite list_lookup_insert_ne; [done|].
        intros <-. rewrite Hi in Hj. injection Hj as ->. by destruct Hnc.
      * exists i, (Tx.attempts c). apply list_lookup_insert_eq.
        by eapply lookup_lt_Some.
    + intros (j & n & Hj). destruct (decide (i = j)) as [<-|Hne].
      * rewrite list_lookup_insert_eq in Hj by (by eapply lookup_lt_Some).
        right. by injection Hj as <-.
      * rewrite list_lookup_insert_ne in Hj by done. left. by exists j, n.
  - intros j cj snap v Hj Hphj. destruct (decide (i = j)) as [<-|Hne].
    + rewrite list_lookup_insert_eq in Hj by (by eapply lookup_lt_Some).
      injection Hj as <-. discriminate Hphj.
    + rewrite list_lookup_insert_ne in Hj by done.
      destruct (Hreads j cj snap v Hj Hphj) as [Hle _]. split; lia.
Qed.

Lemma invariant_advance (maxAttempts : nat) (callers : list string)
    (i : nat) (σ : Tx.State) :
  NoDup callers →
  TxInvariant callers σ → TxInvariant callers (Tx.advance maxAttempts i σ).
Proof.
  intros Hnd Hinv. unfold Tx.advance.
  destruct (Tx.clients σ !! i) as [c|] eqn:Hi; [|done].
  destruct (Tx.phase c) as [|[data|] v| |msg] eqn:Hph; try done.
  - apply (invariant_setClient _ _ _ c); try done; [by rewrite Hph|].
    simpl. intros snap v [= <- <-]. done.
  - destruct (decide (v = Tx.version σ)) as [->|Hstale].
    + by apply invariant_commit.
    + destruct (decide (Tx.attempts c < maxAttempts));
        apply (invariant_setClient _ _ _ c); try done; by rewrite Hph.
  - apply (invariant_setClient _ _ _ c); try done; by rewrite Hph.
Qed.

Lemma invariant_runSchedule (maxAttempts : nat) (callers : list string)
    (schedule : list nat) :
  NoDup callers →
  ∀ σ, TxInvariant callers σ →
       TxInvariant callers (Tx.runSchedule maxAttempts schedule σ).
Proof.
  intros Hnd. induction schedule as [|i schedule IH]; intros σ Hinv; [done|].
  apply IH. by apply invariant_advance.
Qed.

Lemma invariant_start (callers : list string) (d : PaperData.t) :
  likesOf d = 0%Z → likedByOf d = [] →
  TxInvariant callers (Tx.start d callers).
Proof.
  intros Hl Hb. split; simpl.
  - rewrite <- list_fmap_compose. apply list_fmap_id.
  - exists d. split_and!; [done| |].
    + unfold wellFormed, likesMatch. rewrite Hl, Hb. split; [apply NoDup_nil_2|done].
    + intros u. rewrite Hb. split; [by intros ?%elem_of_nil|].
      intros (j & n & Hj). simpl in Hj.
      rewrite list_lookup_fmap in Hj.
      destruct (callers !! j); simpl in Hj; [|done]. by injection Hj.
  - intros j c snap v Hj Hph. rewrite list_lookup_fmap in Hj.
    destruct (callers !! j); simpl in Hj; [|done].
    injection Hj as <-. discriminate Hph.
Qed.

Lemma elem_of_committedCallers (u : string) (σ : Tx.State) :
  u ∈ Tx.committedCallers σ ↔ Tx.hasCommitted u σ.
Proof.
  unfold Tx.committedCallers, Tx.hasCommitted. rewrite list_elem_of_fmap. split.
  - intros (c & -> & Hc). apply list_elem_of_filter in Hc as [Hph Hin].
    apply list_elem_of_lookup in Hin as [i Hi]. exists i, (Tx.attempts c).
    rewrite Hi. destruct c as [u p n]. simpl in *. by destruct p.
  - intros (i & n & Hi). exists (Tx.mkClient u Tx.Committed n). split; [done|].
    apply list_elem_of_filter. split; [done|]. by eapply list_elem_of_lookup_2.
Qed.

Lemma NoDup_committedCallers (σ : Tx.State) :
  NoDup (Tx.callerId <$> Tx.clients σ) → NoDup (Tx.committedCallers σ).
Proof.
  intros Hnd. eapply sublist_NoDup; [exact Hnd|].
  unfold Tx.committedCallers. apply fmap_sublist, sublist_filter.
Qed.

(** A filter that drops nothing holds of every element. *)
Lemma filter_length_all {A} (P : A → Prop) `{!∀ x, Decision (P x)} (l : list A) :
  length (filter P l) = length l → Forall P l.
Proof.
  induction l as [|x l IH]; [by constructor|].
  destruct (decide (P x)) as [Hx|Hx].
  - rewrite filter_cons_True by done. simpl. intros [= Hlen].
    constructor; [done|by apply IH].
  - rewrite filter_cons_False by done. simpl. intros Hlen.
    pose proof (length_filter P l). lia.
Qed.

Lemma filter_all {A} (P : A → Prop) `{!∀ x, Decision (P x)} (l : list A) :
  Forall P l → filter P l = l.
Proof.
  induction 1 as [|x l Hx Hl IH]; [done|].
  rewrite filter_cons_True by done. by rewrite IH.
Qed.

Lemma committed_phase (p : Tx.Phase) : Tx.committed p = true ↔ p = Tx.Committed.
Proof. by destruct p. Qed.

(** [C1] [N] distinct callers toggle the same fresh paper concurrently, each
    in its own transaction. Whatever the schedule (the order of the reads
    and commit attempts of the callers, with the conflicts and re-runs it
    causes), once every call has completed, by a commit or by a failure, the
    paper counts the calls that committed: [likedBy] holds exactly the
    callers that committed, each once, and [likes] is their number, which
    is at most [N]. It is [N], with [likedBy] holding exactly the [N]
    callers, when and only when every call committed. *)
Theorem like_convergence (maxAttempts : nat) (callers : list string)
    (schedule : list nat) (d : PaperData.t) :
  NoDup callers →
  likesOf d = 0%Z → likedByOf d = [] →
  Tx.allCompleted (Tx.runSchedule maxAttempts schedule (Tx.start d callers)) →
  ∃ d', Tx.doc (Tx.runSchedule maxAttempts schedule (Tx.start d callers)) = Some d'
    ∧ likedByOf d'
        ≡ₚ Tx.committedCallers (Tx.runSchedule maxAttempts schedule (Tx.start d callers))
    ∧ likesOf d'
        = Z.of_nat (length (Tx.committedCallers
                              (Tx.runSchedule maxAttempts schedule (Tx.start d callers))))
    ∧ (likesOf d' ≤ Z.of_nat (length callers))%Z
    ∧ (Tx.allCommitted (Tx.runSchedule maxAttempts schedule (Tx.start d callers))
       → likesOf d' = Z.of_nat (length callers) ∧ likedByOf d' ≡ₚ callers)
    ∧ (likesOf d' = Z.of_nat (length callers)
       → Tx.allCommitted (Tx.runSchedule maxAttempts schedule (Tx.start d callers))).
Proof.
  intros Hnd Hl Hb _.
  pose proof (invariant_runSchedule maxAttempts callers schedule Hnd _
                (invariant_start callers d Hl Hb)) as Hinv.
  remember (Tx.runSchedule maxAttempts schedule (Tx.start d callers)) as σ
    eqn:Hσ. clear Hσ.
  destruct Hinv as [Hcs (d' & Hd' & [Hnd' Hlen] & Hmem) _].
  assert (likedByOf d' ≡ₚ Tx.committedCallers σ) as Hperm.
  { apply NoDup_Permutation; [done| |].
    - apply NoDup_committedCallers. by rewrite Hcs.
    - intros u. by rewrite Hmem, elem_of_committedCallers. }
  assert (length (Tx.committedCallers σ)
          = length (filter (λ c, Tx.committed (Tx.phase c) = true) (Tx.clients σ)))
    as Hcount by apply length_fmap.
  assert (length callers = length (Tx.clients σ)) as Hn.
  { by rewrite <- Hcs, length_fmap. }
  pose proof (length_filter (λ c, Tx.committed (Tx.phase c) = true) (Tx.clients σ))
    as Hle.
  unfold likesMatch in Hlen.
  assert (likesOf d' = Z.of_nat (length (Tx.committedCallers σ))) as Hlikes.
  { by rewrite Hlen, Hperm. }
  exists d'. split_and!; [done|done|done|lia| |].
  - intros Hall.
    assert (Tx.committedCallers σ = callers) as Hsame.
    { unfold Tx.committedCallers. rewrite <- Hcs. f_equal.
      apply filter_all. eapply Forall_impl; [exact Hall|].
      simpl. intros c. apply committed_phase. }
    split; [by rewrite Hlikes, Hsame|by rewrite Hperm, Hsame].
  - intros Hfull. unfold Tx.allCommitted.
    eapply Forall_impl.
    + apply (filter_length_all (λ c, Tx.committed (Tx.phase c) = true)). lia.
    + simpl. intros c. apply committed_phase.
Qed.

Lemma like_convergence_witness :
  ∃ d', Tx.doc (Tx.runSchedule 5 contendedSchedule
                  (Tx.start (freshPaper "alice") threeCallers)) = Some d'
    ∧ likesOf d' = 3%Z
    ∧ likedByOf d' ≡ₚ threeCallers.
Proof.
  destruct (like_convergence 5 threeCallers contendedSchedule (freshPaper "alice"))
    as (d' & Hd' & _ & _ & _ & Hall & _).
  - compute_done.
  - reflexivity.
  - reflexivity.
  - vm_compute. repeat constructor.
  - exists d'. split; [exact Hd'|]. apply Hall. vm_compute. repeat constructor.
Defined.

(** Six callers under Firestore's bound of five attempts. The first caller
    loses the conflict five times and fails with [ConflictExhausted]; every
    call has completed, and the paper has [likes = 5], without the first
    caller in [likedBy]. *)
Lemma starved_caller_not_counted :
  let σ := Tx.runSchedule fiveAttempts starvingSchedule
             (Tx.start (freshPaper "alice") sixCallers) in
  NoDup sixCallers
  ∧ Tx.allCompleted σ
  ∧ Tx.phase <$> Tx.clients σ
    = [Tx.Failed Tx.ConflictExhausted; Tx.Committed; Tx.Committed; Tx.Committed;
       Tx.Committed; Tx.Committed]
  ∧ (likesOf <$> Tx.doc σ) = Some 5%Z
  ∧ (likedByOf <$> Tx.doc σ) = Some ["ben"; "cat"; "dan"; "eve"; "fay"]
  ∧ (likesOf <$> Tx.doc σ) ≠ Some (Z.of_nat (length sixCallers)).
Proof.
  intros σ. split_and!.
  - compute_done.
  - vm_compute. repeat constructor.
  - vm_compute. reflexivity.
  - vm_compute. reflexivity.
  - vm_compute. reflexivity.
  - vm_compute. discriminate.
Qed.

(** The order inside [likedBy] is the order of the commits, which the
    schedule decides. *)
Example contended_likedBy :
  likedByOf <$> Tx.doc (Tx.runSchedule 5 contendedSchedule
                          (Tx.start (freshPaper "alice") threeCallers))
  = Some ["ben"; "ann"; "cat"].
Proof. reflexivity. Qed.

(** With a single attempt allowed, the caller that loses the conflict
    fails, and is not counted. *)
Example exhausted_caller_not_counted :
  let σ := Tx.runSchedule 1 [0; 1; 1; 0]
             (Tx.start (freshPaper "alice") ["ann"; "ben"]) in
  Tx.phase <$> Tx.clients σ = [Tx.Failed Tx.ConflictExhausted; Tx.Committed]
  ∧ (likedByOf <$> Tx.doc σ) = Some ["ben"]
  ∧ (likesOf <$> Tx.doc σ) = Some 1%Z.
Proof. done. Qed.

(** ** Further runs of the interface *)

(** The author of a displayed comment can delete it. *)
Example author_deletes_own_comment :
  let w := World.mk (Store.mk (Store.papers bothPapers) threeComments)
             (App.setComments [commentAt "c1" "carol" 5]
                (App.setSelectedPaper (Some alicePaper) (App.initial "carol")))
             [] in
  (World.comments <$> step sampleEnv (ClickDeleteComment (commentAt "c1" "carol" 5)) w)
    = Some (delete "c1" threeComments)
  ∧ step sampleEnv (ClickDeleteComment (commentAt "c2" "dave" 6)) w = None.
Proof. vm_compute. done. Qed.

(** A snapshot that still holds the focused paper refreshes the focus. *)
Example focus_refreshed :
  let liked := Paper.mk "P1" (updateLikes 1 ["alice"] (Paper.data bobPaper)) in
  let a := App.setSelectedPaper (Some bobPaper) (App.initial "bob") in
  App.selectedPaper (papersSnapshot [alicePaper; liked] a) = Some liked.
Proof. reflexivity. Qed.

(** The delete path in the situation of [C5]: the dialog was open on Bob's
    paper when it was deleted elsewhere, and is then shown on Alice's paper.
    Confirming is refused by the guard of [executeDeletePaper]. *)
Example stale_delete_dialog_refused :
  ∃ w, run sampleEnv
         [ PapersSnapshot [bobPaper; alicePaper];
           ClickPaperCard bobPaper;
           ClickDelete;
           RemoteWrite onlyAlicePaper;
           PapersSnapshot [alicePaper];
           ClickPaperCard alicePaper;
           ClickConfirmDelete ] bobSession = Some w
    ∧ World.store w = onlyAlicePaper
    ∧ App.showDeleteConfirmation (World.app w) = false.
Proof. eexists. split; [vm_compute; reflexivity|]. vm_compute. done. Qed.

(** * Further properties of the code *)

(** ** Composition of toggles *)

Lemma filter_ne_snoc_self (u : string) (l : list string) :
  u ∉ l → filter (λ uid, uid ≠ u) (l ++ [u]) = l.
Proof.
  intros Hin. rewrite filter_app, (filter_ne_absent _ _ Hin).
  rewrite filter_cons_False by tauto. apply app_nil_r.
Qed.

Lemma filter_ne_snoc_other (u v : string) (l : list string) :
  u ≠ v → filter (λ uid, uid ≠ u) (l ++ [v]) = filter (λ uid, uid ≠ u) l ++ [v].
Proof.
  intros Hne. rewrite filter_app. by rewrite (filter_cons_True _ v) by congruence.
Qed.

Lemma likedByOf_toggleLikeData (u : string) (d : PaperData.t) :
  likedByOf (toggleLikeData u d) =
    if decide (u ∈ likedByOf d)
    then filter (λ uid, uid ≠ u) (likedByOf d)
    else likedByOf d ++ [u].
Proof.
  case_decide as Hin.
  - by rewrite (toggleLikeData_liked _ _ Hin).
  - by rewrite (toggleLikeData_not_liked _ _ Hin).
Qed.

Lemma toggleLikeData_twice (u : string) (d : PaperData.t) :
  u ∉ likedByOf d →
  toggleLikeData u (toggleLikeData u d)
    = updateLikes (Z.max 0 (likesOf d)) (likedByOf d) d.
Proof.
  intros Hin.
  assert (u ∈ likedByOf (toggleLikeData u d)) as Hin' by by apply toggleLikeData_flips.
  rewrite (toggleLikeData_liked _ _ Hin').
  rewrite (toggleLikeData_not_liked _ _ Hin).
  rewrite likesOf_updateLikes, likedByOf_updateLikes, (filter_ne_snoc_self _ _ Hin).
  unfold updateLikes. simpl.
  by replace (likesOf d + 1 - 1)%Z with (likesOf d) by lia.
Qed.

(** [X1] Like followed by unlike is a round trip. On a paper whose counter
    is a safe integer, for a caller who had not liked the paper, two toggles
    in a row give back the same [likedBy] (same members, same order) and the
    counter [max 0 likes]; when the paper has both fields and a counter that
    is not negative, the collection is exactly what it was before the two
    calls. *)
Theorem like_then_unlike_restores (paperId callerId : string)
    (papers : gmap string PaperData.t) (d : PaperData.t) :
  papers !! paperId = Some d →
  safeInteger (likesOf d) →
  callerId ∉ likedByOf d →
  ∃ d2, toggleTimes 2 paperId callerId papers !! paperId = Some d2
    ∧ likedByOf d2 = likedByOf d
    ∧ likesOf d2 = Z.max 0 (likesOf d)
    ∧ (∀ n lb, PaperData.likes d = Some n → (0 ≤ n)%Z →
               PaperData.likedBy d = Some lb →
               toggleTimes 2 paperId callerId papers = papers).
Proof.
  intros Hd _ Habs.
  assert (toggleTimes 2 paperId callerId papers
          = <[paperId := toggleLikeData callerId (toggleLikeData callerId d)]> papers)
    as Htwo.
  { rewrite (toggleTimes_succ _ _ _ _ _ Hd).
    rewrite (toggleTimes_succ _ _ _ _ (toggleLikeData callerId d))
      by apply lookup_insert_eq.
    simpl. apply insert_insert_eq. }
  rewrite Htwo, (toggleLikeData_twice _ _ Habs).
  eexists. split; [apply lookup_insert_eq|].
  rewrite likesOf_updateLikes, likedByOf_updateLikes. split_and!; [done|done|].
  intros n lb Hn Hpos Hlb. apply insert_id. rewrite Hd. f_equal.
  unfold likesOf, likedByOf. rewrite Hn, Hlb.
  assert (Z.max 0 (orZero (Some n)) = n) as ->.
  { simpl. destruct (Z.eqb_spec n 0); lia. }
  destruct d; simpl in *. by subst.
Qed.

Lemma like_then_unlike_restores_witness :
  toggleTimes 2 "P1" "bob" (World.papers bobSession) = World.papers bobSession.
Proof.
  destruct (like_then_unlike_restores "P1" "bob" (World.papers bobSession)
              (Paper.data bobPaper)) as (d2 & _ & _ & _ & Hsame).
  - reflexivity.
  - by split.
  - apply not_elem_of_nil.
  - apply (Hsame 0%Z []); [reflexivity|lia|reflexivity].
Defined.

Lemma toggleLikeData_other_member (u v : string) (d : PaperData.t) :
  v ≠ u → v ∈ likedByOf (toggleLikeData u d) ↔ v ∈ likedByOf d.
Proof.
  intros Hv. rewrite likedByOf_toggleLikeData. case_decide as Hin.
  - rewrite list_elem_of_filter. tauto.
  - rewrite elem_of_app, list_elem_of_singleton. tauto.
Qed.

(** [X2] A toggle never adds or removes anybody else: every other identity
    is in [likedBy] after the call exactly when it was before, and the
    others keep their relative order. *)
Theorem toggle_leaves_others (u : string) (d : PaperData.t) :
  (∀ v, v ≠ u → v ∈ likedByOf (toggleLikeData u d) ↔ v ∈ likedByOf d)
  ∧ filter (λ uid, uid ≠ u) (likedByOf (toggleLikeData u d))
      = filter (λ uid, uid ≠ u) (likedByOf d).
Proof.
  split; [intros v; apply toggleLikeData_other_member|].
  rewrite likedByOf_toggleLikeData. case_decide as Hin.
  - rewrite list_filter_filter. apply list_filter_iff. tauto.
  - by rewrite filter_app, filter_cons_False, app_nil_r by tauto.
Qed.

(** [X3] Toggles by two different callers commute: in either order the
    resulting [likedBy] has the same members (as a permutation), and on a
    paper that satisfies [likes == |likedBy|] without duplicates the
    resulting counters are equal. *)
Theorem toggles_commute (u v : string) (d : PaperData.t) :
  u ≠ v →
  likedByOf (toggleLikeData u (toggleLikeData v d))
    ≡ₚ likedByOf (toggleLikeData v (toggleLikeData u d))
  ∧ (wellFormed d →
     likesOf (toggleLikeData u (toggleLikeData v d))
       = likesOf (toggleLikeData v (toggleLikeData u d))).
Proof.
  intros Hne.
  assert (likedByOf (toggleLikeData u (toggleLikeData v d))
            ≡ₚ likedByOf (toggleLikeData v (toggleLikeData u d))) as Hperm.
  { rewrite (likedByOf_toggleLikeData u), (likedByOf_toggleLikeData v (toggleLikeData u d)).
    pose proof (toggleLikeData_other_member v u d Hne) as Hu.
    pose proof (toggleLikeData_other_member u v d (not_eq_sym Hne)) as Hv.
    rewrite !likedByOf_toggleLikeData.
    rewrite !likedByOf_toggleLikeData in Hu, Hv.
    destruct (decide (u ∈ likedByOf d)) as [Hud|Hud];
      destruct (decide (v ∈ likedByOf d)) as [Hvd|Hvd].
    - rewrite decide_True by tauto. rewrite (decide_True (P := v ∈ _)) by tauto.
      rewrite !list_filter_filter.
      erewrite list_filter_iff; [reflexivity|]. tauto.
    - rewrite decide_True by tauto. rewrite (decide_False (P := v ∈ _)) by tauto.
      by rewrite filter_ne_snoc_other.
    - rewrite decide_False by tauto. rewrite (decide_True (P := v ∈ _)) by tauto.
      by rewrite filter_ne_snoc_other by congruence.
    - rewrite decide_False by tauto. rewrite (decide_False (P := v ∈ _)) by tauto.
      rewrite <- !(assoc_L (++)). apply Permutation_app_head, Permutation_swap. }
  split; [done|]. intros Hwf.
  pose proof (toggleLikeData_wellFormed u _ (toggleLikeData_wellFormed v _ Hwf)) as [_ H1].
  pose proof (toggleLikeData_wellFormed v _ (toggleLikeData_wellFormed u _ Hwf)) as [_ H2].
  unfold likesMatch in *. by rewrite H1, H2, Hperm.
Qed.

Lemma toggles_commute_witness :
  likedByOf (toggleLikeData "ann" (toggleLikeData "ben" (freshPaper "alice")))
    ≡ₚ likedByOf (toggleLikeData "ben" (toggleLikeData "ann" (freshPaper "alice"))).
Proof. apply (toggles_commute "ann" "ben" (freshPaper "alice")). by intros [=]. Defined.

(** Without the invariant the counters can differ: the floor at zero makes
    the order matter. *)
Example toggles_counter_order_matters :
  let d := PaperData.mk "T" "C" "alice" (Some 0%Z) (Some ["ann"]) None None in
  likesOf (toggleLikeData "ann" (toggleLikeData "ben" d)) = 0%Z
  ∧ likesOf (toggleLikeData "ben" (toggleLikeData "ann" d)) = 1%Z.
Proof. done. Qed.

(** ** What the store handlers touch *)

Lemma setDbError_same (a : App.t) : App.setDbError (App.dbError a) a = a.
Proof. by destruct a. Qed.

(** [X4] [handleLikePaper] touches nothing but the like fields of its paper:
    the comments, every other paper, and the title, content, author and
    timestamps of the paper itself are as before; it never creates the
    paper; and of the component state only [dbError] can change. *)
Theorem handleLikePaper_frame (env : Env.t) (paperId : string) (w : World.t) :
  let w' := handleLikePaper env paperId w in
  World.comments w' = World.comments w
  ∧ (∃ e, World.app w' = App.setDbError e (World.app w))
  ∧ (∀ id, id ≠ paperId → World.papers w' !! id = World.papers w !! id)
  ∧ match World.papers w !! paperId with
    | None => World.papers w' !! paperId = None
    | Some d =>
      ∃ d', World.papers w' !! paperId = Some d'
        ∧ PaperData.title d' = PaperData.title d
        ∧ PaperData.content d' = PaperData.content d
        ∧ PaperData.authorId d' = PaperData.authorId d
        ∧ PaperData.createdAt d' = PaperData.createdAt d
        ∧ PaperData.updatedAt d' = PaperData.updatedAt d
    end.
Proof.
  simpl. split; [apply handleLikePaper_comments|].
  assert (∃ e, World.app w = App.setDbError e (World.app w)) as Hsame.
  { eexists. symmetry. apply setDbError_same. }
  unfold handleLikePaper.
  destruct (signedIn (World.app w)) as [uid|].
  2:{ split_and!; [done|done|]. destruct (World.papers w !! paperId) eqn:E; [|done].
      by eexists. }
  destruct (Env.rejects env _).
  { split_and!; [by eexists|done|]. simpl.
    destruct (World.papers w !! paperId) eqn:E; [|done]. by eexists. }
  unfold toggleLike. destruct (World.papers w !! paperId) as [d|] eqn:Hd.
  - split_and!; [done| |].
    + intros id Hne. simpl. by apply lookup_insert_ne.
    + exists (toggleLikeData uid d). split; [apply lookup_insert_eq|].
      rewrite (toggleLikeData_shape uid d). done.
  - split_and!; [by eexists|done|done].
Qed.

(** [X5] [handleAddPaper] never writes in someone else's name. With ASCII
    text in the form, every paper that is in the collection after the call
    and was not there before is authored by the signed-in user, has the
    trimmed title and content of the form, neither of them empty, starts
    with [likes = 0] and [likedBy = []], and has no [updatedAt]; the
    comments are not touched. *)
Theorem handleAddPaper_new_paper (env : Env.t) (w : World.t) :
  isAscii (App.newPaperTitle (World.app w)) = true →
  isAscii (App.newPaperContent (World.app w)) = true →
  let w' := handleAddPaper env w in
  World.comments w' = World.comments w
  ∧ ∀ id d, World.papers w' !! id = Some d →
      World.papers w !! id = Some d
      ∨ (id = Env.newId env
         ∧ App.userId (World.app w) = Some (PaperData.authorId d)
         ∧ PaperData.title d = trim (App.newPaperTitle (World.app w))
         ∧ PaperData.title d ≠ EmptyString
         ∧ PaperData.content d = trim (App.newPaperContent (World.app w))
         ∧ PaperData.content d ≠ EmptyString
         ∧ PaperData.likes d = Some 0%Z ∧ PaperData.likedBy d = Some []
         ∧ PaperData.createdAt d = Some (Env.now env)
         ∧ PaperData.updatedAt d = None).
Proof.
  intros _ _. simpl. unfold handleAddPaper, signedIn.
  destruct (App.db (World.app w) && truthy (App.userId (World.app w))); [|by auto].
  destruct (App.userId (World.app w)) as [uid|] eqn:Hu; [|by auto].
  destruct (isEmpty (trim (App.newPaperTitle (World.app w)))) eqn:Ht; [by auto|].
  destruct (isEmpty (trim (App.newPaperContent (World.app w)))) eqn:Hc; [by auto|].
  simpl. destruct (Env.rejects env AddPaper); [by auto|].
  split; [done|]. intros id d. simpl.
  unfold World.papers. simpl. rewrite lookup_insert. case_decide as Hid.
  - intros [= <-]. right. subst id. simpl.
    apply bool_decide_eq_false in Ht, Hc. by split_and!.
  - by left.
Qed.

Lemma handleAddPaper_new_paper_witness :
  ∃ d, World.papers (handleAddPaper sampleEnv sampleWorld) !! "P2" = Some d
    ∧ Some (PaperData.authorId d) = Some "bob"
    ∧ PaperData.title d = "T2"
    ∧ PaperData.likes d = Some 0%Z.
Proof.
  destruct (handleAddPaper_new_paper sampleEnv sampleWorld eq_refl eq_refl)
    as [_ Hnew].
  assert (World.papers (handleAddPaper sampleEnv sampleWorld) !! "P2"
          = Some (PaperData.mk "T2" "C2" "bob" (Some 0%Z) (Some []) (Some 7%Z) None))
    as Hd by (vm_compute; reflexivity).
  eexists. split; [exact Hd|].
  destruct (Hnew "P2" _ Hd) as [Hold|(_ & Hu & Ht & _ & _ & _ & Hl & _)].
  - discriminate Hold.
  - split_and!; [symmetry; exact Hu|exact Ht|exact Hl].
Defined.

(** [X6] When the store rejects the new paper, [handleAddPaper] leaves the
    store as it was and reports the failure on the console and in
    [dbError]; the submission form has been emptied all the same, before
    the call was made. (For ASCII text in the form.) *)
Theorem handleAddPaper_rejected (env : Env.t) (w : World.t) (uid message : string) :
  signedIn (World.app w) = Some uid →
  isAscii (App.newPaperTitle (World.app w)) = true →
  isAscii (App.newPaperContent (World.app w)) = true →
  blank (App.newPaperTitle (World.app w)) = false →
  blank (App.newPaperContent (World.app w)) = false →
  Env.rejects env AddPaper = Some message →
  let w' := handleAddPaper env w in
  World.store w' = World.store w
  ∧ App.newPaperTitle (World.app w') = EmptyString
  ∧ App.newPaperContent (World.app w') = EmptyString
  ∧ App.dbError (World.app w') = Some ("Failed to save paper: " +:+ message)
  ∧ World.console w' = World.console w ++ ["Error adding paper: " +:+ message].
Proof.
  unfold blank. intros Hs _ _ Ht Hc Hr. simpl. unfold handleAddPaper.
  by rewrite Hs, Ht, Hc, Hr.
Qed.

Lemma handleAddPaper_rejected_witness :
  let env := Env.mk 7 "P2" (λ _, Some "offline") in
  World.store (handleAddPaper env sampleWorld) = World.store sampleWorld
  ∧ App.newPaperTitle (World.app (handleAddPaper env sampleWorld)) = EmptyString.
Proof.
  destruct (handleAddPaper_rejected (Env.mk 7 "P2" (λ _, Some "offline"))
              sampleWorld "bob" "offline") as (Hst & Ht & _); try reflexivity.
  split; [exact Hst|exact Ht].
Defined.


(** [X8] Saving an edit of a paper that has been deleted in the meantime
    changes nothing in the store: the rejection of [updateDoc] is reported,
    with its message, on the console and in [dbError], and the session stays
    in edit mode with the typed text. (For ASCII text in the edit form.) *)
Theorem handleUpdatePaper_deleted_paper (env : Env.t) (w : World.t)
    (uid : string) (sel : Paper.t) :
  signedIn (World.app w) = Some uid →
  App.selectedPaper (World.app w) = Some sel →
  isAscii (App.editTitle (World.app w)) = true →
  isAscii (App.editContent (World.app w)) = true →
  blank (App.editTitle (World.app w)) = false →
  blank (App.editContent (World.app w)) = false →
  Env.rejects env (UpdatePaper (Paper.id sel)) = None →
  World.papers w !! Paper.id sel = None →
  let w' := handleUpdatePaper env w in
  World.store w' = World.store w
  ∧ ∃ message,
      World.app w' = App.setDbError (Some ("Failed to update paper: " +:+ message))
                       (World.app w)
      ∧ World.console w' = World.console w ++ ["Error updating paper: " +:+ message].
Proof.
  unfold blank. intros Hs Hsel _ _ Ht Hc Hr Hd. simpl. unfold handleUpdatePaper.
  rewrite Hs, Hsel, Ht, Hc, Hr, Hd. split; [done|]. by exists noDocumentToUpdate.
Qed.

Lemma handleUpdatePaper_deleted_paper_witness :
  World.store (handleUpdatePaper sampleEnv bobEditingDeleted)
    = World.store bobEditingDeleted
  ∧ App.isEditing (World.app (handleUpdatePaper sampleEnv bobEditingDeleted)) = true.
Proof.
  destruct (handleUpdatePaper_deleted_paper sampleEnv bobEditingDeleted "bob" bobPaper)
    as (Hst & message & Happ & _); try reflexivity.
  split; [exact Hst|]. rewrite Happ. reflexivity.
Defined.

(** ** Comments *)

(** [X9] [handleAddComment] writes one comment at most, in the name of the
    signed-in user and on the focused paper, with the trimmed text of the
    form (ASCII text), which is not empty, and the server's timestamp; it
    leaves the papers alone, and it does not
    look at them either: the comments after the call are the same whatever
    the papers collection holds, so a comment can be added to a paper that
    is no longer in the store. *)
Theorem handleAddComment_new_comment (env : Env.t) (w : World.t) :
  isAscii (App.newCommentText (World.app w)) = true →
  let w' := handleAddComment env w in
  World.papers w' = World.papers w
  ∧ (∀ id cd, World.comments w' !! id = Some cd →
       World.comments w !! id = Some cd
       ∨ (id = Env.newId env
          ∧ App.userId (World.app w) = Some (CommentData.userId cd)
          ∧ (∃ sel, App.selectedPaper (World.app w) = Some sel
                    ∧ CommentData.paperId cd = Paper.id sel)
          ∧ CommentData.text cd = trim (App.newCommentText (World.app w))
          ∧ CommentData.text cd ≠ EmptyString
          ∧ CommentData.timestamp cd = Some (Timestamp.ofClock (Env.now env))))
  ∧ (∀ ps, World.comments
             (handleAddComment env
                (World.setStore (Store.setPapers ps (World.store w)) w))
           = World.comments w').
Proof.
  intros _. simpl. unfold handleAddComment, signedIn. simpl.
  destruct (App.db (World.app w) && truthy (App.userId (World.app w))); [|by auto].
  destruct (App.userId (World.app w)) as [uid|] eqn:Hu; [|by auto].
  destruct (App.selectedPaper (World.app w)) as [sel|] eqn:Hsel; [|by auto].
  destruct (isEmpty (trim (App.newCommentText (World.app w)))) eqn:Ht; [by auto|].
  destruct (Env.rejects env AddComment); [by auto|].
  split_and!; [done| |done]. intros id cd.
  unfold World.comments. simpl. rewrite lookup_insert. case_decide as Hid.
  - intros [= <-]. right. subst id. simpl.
    apply bool_decide_eq_false in Ht. split_and!; try done. by exists sel.
  - by left.
Qed.

Lemma handleAddComment_new_comment_witness :
  World.papers (handleAddComment sampleEnv carolCommenting) = World.papers carolCommenting
  ∧ ∃ cd, World.comments (handleAddComment sampleEnv carolCommenting) !! "P2" = Some cd
      ∧ Some (CommentData.userId cd) = Some "carol"
      ∧ CommentData.text cd = "nice".
Proof.
  destruct (handleAddComment_new_comment sampleEnv carolCommenting eq_refl)
    as (Hps & Hnew & _).
  split; [exact Hps|].
  assert (World.comments (handleAddComment sampleEnv carolCommenting) !! "P2"
          = Some (CommentData.mk "P2" "carol" "nice" (Some (Timestamp.mk 0 7))))
    as Hcd by (vm_compute; reflexivity).
  eexists. split; [exact Hcd|].
  destruct (Hnew "P2" _ Hcd) as [Hold|(_ & Hu & _ & Ht & _)].
  - discriminate Hold.
  - split; [symmetry; exact Hu|exact Ht].
Defined.

Example comment_on_deleted_paper :
  let w := World.mk onlyAlicePaper
             (App.setNewCommentText "late"
                (App.setSelectedPaper (Some bobPaper) (App.initial "carol"))) [] in
  World.papers w !! "P1" = None
  ∧ World.comments (handleAddComment sampleEnv w) !! "P2"
      = Some (CommentData.mk "P1" "carol" "late" (Some (Timestamp.mk 0 7))).
Proof. done. Qed.

Lemma handleDeleteComment_papers (env : Env.t) (commentId : string) (w : World.t) :
  World.papers (handleDeleteComment env commentId w) = World.papers w.
Proof.
  unfold handleDeleteComment.
  destruct (signedIn (World.app w)); [|done].
  by destruct (Env.rejects env _).
Qed.

Lemma handleDeleteComment_signedIn (env : Env.t) (commentId : string) (w : World.t) :
  signedIn (World.app (handleDeleteComment env commentId w)) = signedIn (World.app w).
Proof.
  unfold handleDeleteComment.
  destruct (signedIn (World.app w)) eqn:Hs; [|done].
  by destruct (Env.rejects env _).
Qed.

Lemma handleDeleteComment_store (env : Env.t) (commentId : string) (w : World.t) :
  World.store (handleDeleteComment env commentId w) =
    match signedIn (World.app w), Env.rejects env (DeleteComment commentId) with
    | Some _, None =>
      Store.setComments (delete commentId (World.comments w)) (World.store w)
    | _, _ => World.store w
    end.
Proof.
  unfold handleDeleteComment.
  destruct (signedIn (World.app w)); [|done].
  by destruct (Env.rejects env _).
Qed.

(** [X10] [handleDeleteComment] removes at most the comment it is given:
    the papers and every other comment stay. Deleting a comment that is not
    in the store is not an error and changes nothing, so deleting twice
    leaves the store as deleting once does. *)
Theorem handleDeleteComment_effect (env : Env.t) (commentId : string) (w : World.t) :
  let w' := handleDeleteComment env commentId w in
  World.papers w' = World.papers w
  ∧ (∀ id, id ≠ commentId → World.comments w' !! id = World.comments w !! id)
  ∧ (World.comments w !! commentId = None →
       World.store w' = World.store w
       ∧ (Env.rejects env (DeleteComment commentId) = None → w' = w))
  ∧ World.store (handleDeleteComment env commentId w') = World.store w'.
Proof.
  simpl. split_and!.
  - apply handleDeleteComment_papers.
  - intros id Hne. by apply handleDeleteComment_others.
  - intros Hnone. unfold handleDeleteComment.
    destruct (signedIn (World.app w)); [|done].
    destruct (Env.rejects env _); [done|].
    assert (World.setStore
              (Store.setComments (delete commentId (World.comments w)) (World.store w)) w
            = w) as ->; [|done].
    rewrite (delete_id _ _ Hnone). by destruct w as [[] ? ?].
  - rewrite (handleDeleteComment_store env commentId (handleDeleteComment _ _ _)).
    rewrite handleDeleteComment_signedIn.
    unfold World.comments. rewrite !handleDeleteComment_store.
    destruct (signedIn (World.app w)); [|done].
    destruct (Env.rejects env _); [done|].
    unfold Store.setComments. simpl. by rewrite delete_delete_eq.
Qed.

(** ** The cascading delete, continued *)

(** What [executeDeletePaper] can do to the store: nothing, or delete the
    focused paper of its author and then either stop or sweep the comments
    of that paper. *)
Lemma executeDeletePaper_store (env : Env.t) (w : World.t) :
  World.store (executeDeletePaper env w) = World.store w
  ∨ ∃ sel,
      App.selectedPaper (World.app w) = Some sel
      ∧ isPaperAuthor (World.app w) = true
      ∧ Env.rejects env (DeletePaper (Paper.id sel)) = None
      ∧ World.papers (executeDeletePaper env w) = delete (Paper.id sel) (World.papers w)
      ∧ (World.comments (executeDeletePaper env w) = World.comments w
         ∨ (Env.rejects env (QueryComments (Paper.id sel)) = None
            ∧ World.comments (executeDeletePaper env w)
                = deleteEach env (commentsOfPaper (Paper.id sel) (World.comments w))
                    (World.comments w))).
Proof.
  unfold executeDeletePaper.
  destruct (signedIn (World.app w)); [|by left].
  destruct (App.selectedPaper (World.app w)) as [sel|]; [|by left].
  destruct (isPaperAuthor (World.app w)); [|by left]. simpl.
  destruct (Env.rejects env (DeletePaper _)) eqn:Hd; [by left|].
  right. exists sel. split_and!; try done.
  - by destruct (Env.rejects env (QueryComments _)).
  - destruct (Env.rejects env (QueryComments _)); [by left|]. by right.
Qed.

(** [X11] The cascade stays within its paper. Whatever the store rejects,
    [executeDeletePaper] creates and changes no document; the only paper it
    can remove is the focused one, and only for its author; and a comment
    disappears only if it belongs to that paper, and only once the paper
    itself is gone. *)
Theorem executeDeletePaper_scope (env : Env.t) (w : World.t) :
  let w' := executeDeletePaper env w in
  (∀ id d, World.papers w' !! id = Some d → World.papers w !! id = Some d)
  ∧ (∀ cid cd, World.comments w' !! cid = Some cd → World.comments w !! cid = Some cd)
  ∧ (∀ id, is_Some (World.papers w !! id) → World.papers w' !! id = None →
       ∃ sel, App.selectedPaper (World.app w) = Some sel ∧ Paper.id sel = id
              ∧ App.userId (World.app w) = Some (Paper.authorId sel))
  ∧ (∀ cid cd, World.comments w !! cid = Some cd → World.comments w' !! cid = None →
       ∃ sel, App.selectedPaper (World.app w) = Some sel
              ∧ CommentData.paperId cd = Paper.id sel
              ∧ App.userId (World.app w) = Some (Paper.authorId sel)
              ∧ World.papers w' !! Paper.id sel = None).
Proof.
  simpl. unfold World.papers, World.comments.
  destruct (executeDeletePaper_store env w)
    as [->|(sel & Hsel & Hauth & Hdel & Hps & Hcs)].
  { split_and!; try done.
    - intros id [d Hd] Hnone. congruence.
    - intros cid cd Hcd Hnone. congruence. }
  assert (App.userId (World.app w) = Some (Paper.authorId sel)) as Huser.
  { unfold isPaperAuthor in Hauth. rewrite Hsel in Hauth.
    by apply bool_decide_eq_true in Hauth. }
  unfold World.papers, World.comments in *. rewrite Hps. split_and!.
  - intros id d Hd. by apply lookup_delete_Some in Hd as [_ ?].
  - intros cid cd. destruct Hcs as [->|[_ ->]]; [done|].
    rewrite deleteEach_lookup. by case_decide.
  - intros id [d Hd] Hnone. exists sel. split_and!; [done| |done].
    apply lookup_delete_None in Hnone as [?|?]; [done|congruence].
  - intros cid cd Hcd Hgone. exists sel.
    destruct Hcs as [Hcs|[_ Hcs]]; rewrite Hcs in Hgone; [congruence|].
    rewrite deleteEach_lookup in Hgone. case_decide as Hin; [|congruence].
    destruct Hin as [Hin _].
    apply elem_of_commentsOfPaper in Hin as (cd' & Hcd' & Hp).
    split_and!; [done|congruence|done|apply lookup_delete_eq].
Qed.

(** [X12] When the store rejects nothing, the delete is complete: after
    [executeDeletePaper] by the author the paper is gone and no comment in
    the store refers to it. *)
Theorem executeDeletePaper_no_orphans (env : Env.t) (w : World.t)
    (uid : string) (sel : Paper.t) :
  signedIn (World.app w) = Some uid →
  App.selectedPaper (World.app w) = Some sel →
  isPaperAuthor (World.app w) = true →
  (∀ call, Env.rejects env call = None) →
  let w' := executeDeletePaper env w in
  World.papers w' !! Paper.id sel = None
  ∧ ∀ cid cd, World.comments w' !! cid = Some cd →
              CommentData.paperId cd ≠ Paper.id sel.
Proof.
  intros Hs Hsel Hauth Hcalm. simpl. unfold executeDeletePaper.
  rewrite Hs, Hsel, Hauth, !Hcalm. simpl. split.
  - apply lookup_delete_eq.
  - intros cid cd. unfold World.comments. simpl. rewrite deleteEach_lookup.
    case_decide as Hin; [done|]. intros Hcd Hp. apply Hin. split; [|done].
    apply elem_of_commentsOfPaper. by exists cd.
Qed.

Lemma executeDeletePaper_no_orphans_witness :
  World.papers (executeDeletePaper sampleEnv bobDeleting) !! "P1" = None
  ∧ ∀ cid cd, World.comments (executeDeletePaper sampleEnv bobDeleting) !! cid = Some cd →
              CommentData.paperId cd ≠ "P1".
Proof.
  apply (executeDeletePaper_no_orphans sampleEnv bobDeleting "bob" bobPaper);
    reflexivity.
Defined.

(** [X13] When the store rejects the deletion of the paper document,
    nothing is deleted: the store is as before, the focus stays on the
    paper, the failure is reported, and the dialog is closed. *)
Theorem executeDeletePaper_rejected (env : Env.t) (w : World.t)
    (uid message : string) (sel : Paper.t) :
  signedIn (World.app w) = Some uid →
  App.selectedPaper (World.app w) = Some sel →
  isPaperAuthor (World.app w) = true →
  Env.rejects env (DeletePaper (Paper.id sel)) = Some message →
  let w' := executeDeletePaper env w in
  World.store w' = World.store w
  ∧ App.selectedPaper (World.app w') = Some sel
  ∧ App.showDeleteConfirmation (World.app w') = false
  ∧ App.dbError (World.app w') = Some ("Failed to delete paper: " +:+ message)
  ∧ World.console w' = World.console w ++ ["Error deleting paper: " +:+ message].
Proof.
  intros Hs Hsel Hauth Hr. simpl. unfold executeDeletePaper.
  by rewrite Hs, Hsel, Hauth, Hr.
Qed.

Lemma executeDeletePaper_rejected_witness :
  World.store (executeDeletePaper paperDeleteFails bobDeleting) = World.store bobDeleting
  ∧ App.selectedPaper (World.app (executeDeletePaper paperDeleteFails bobDeleting))
      = Some bobPaper.
Proof.
  destruct (executeDeletePaper_rejected paperDeleteFails bobDeleting "bob" "denied" bobPaper)
    as (Hst & Hf & _); try reflexivity.
  split; [exact Hst|exact Hf].
Defined.

(** ** Comment ordering, continued *)

(** [X14] The comment sort is stable: comments whose timestamps fall in the
    same second (or that have none) are displayed in the order in which the
    snapshot delivered them. *)
Theorem comments_sort_stable (k : Z) (fetchedComments : list Comment.t) (a : App.t) :
  filter (λ c, secondsOrZero c = k) (App.comments (onCommentsSnapshot fetchedComments a))
    = filter (λ c, secondsOrZero c = k) fetchedComments.
Proof. apply (sort_filter_key secondsOrZero). Qed.

(** [X15] A snapshot that arrives in ascending order is displayed as it is;
    so delivering the displayed list again changes nothing. *)
Theorem comments_sorted_snapshot_unchanged (fetchedComments : list Comment.t) (a : App.t) :
  (StronglySorted notLater fetchedComments →
     App.comments (onCommentsSnapshot fetchedComments a) = fetchedComments)
  ∧ onCommentsSnapshot (App.comments (onCommentsSnapshot fetchedComments a))
      (onCommentsSnapshot fetchedComments a)
    = onCommentsSnapshot fetchedComments a.
Proof.
  split.
  - intros Hs. apply (sort_sorted_id secondsOrZero _ Hs).
  - unfold onCommentsSnapshot. simpl.
    pose proof (sort_sorted_id secondsOrZero _
                  (sort_StronglySorted secondsOrZero fetchedComments)) as Hfix.
    unfold byTimestamp. by rewrite Hfix.
Qed.

Example same_second_keeps_snapshot_order (a : App.t) :
  Comment.id <$>
    App.comments (onCommentsSnapshot
      [commentAt "x" "u" 5; commentAt "y" "u" 2; commentAt "z" "u" 5;
       commentPending "p" "u"; commentPending "q" "u"] a)
  = ["p"; "q"; "y"; "x"; "z"].
Proof. reflexivity. Qed.

(** ** Focus reconciliation, continued *)

Lemma find_ext_bool {A} (f g : A → bool) (l : list A) :
  (∀ x, f x = g x) → find f l = find g l.
Proof.
  intros Hfg. induction l as [|x l IH]; [done|]. simpl. by rewrite Hfg, IH.
Qed.

(** The first paper with the focused id is also the first paper with its own
    id. *)
Lemma find_same_id (docs : list Paper.t) (sel p : Paper.t) :
  find (λ q, bool_decide (Paper.id q = Paper.id sel)) docs = Some p →
  find (λ q, bool_decide (Paper.id q = Paper.id p)) docs = Some p.
Proof.
  intros Hfind. pose proof Hfind as Hp.
  apply find_some in Hp as [_ Hid]. apply bool_decide_eq_true in Hid.
  rewrite <- Hfind. apply find_ext_bool. intros q. by rewrite Hid.
Qed.

(** The state after a papers snapshot, field by field. *)
Lemma papersSnapshot_fields (docs : list Paper.t) (a : App.t) :
  papersSnapshot docs a =
    let focus :=
      match App.selectedPaper a with
      | Some sel => find (λ p, bool_decide (Paper.id p = Paper.id sel)) docs
      | None => None
      end in
    App.mk (App.db a) (App.userId a) None docs focus
      (if negb (App.db a) || negb (truthy (App.userId a))
          || negb (bool_decide (is_Some focus))
       then [] else App.comments a)
      (App.newPaperTitle a) (App.newPaperContent a) (App.newCommentText a)
      (App.isEditing a) (App.editTitle a) (App.editContent a)
      (App.showDeleteConfirmation a).
Proof.
  destruct a as [db uid err ps sel cs t1 t2 t3 ed e1 e2 sh].
  unfold papersSnapshot, onPapersSnapshot, commentsEffect.
  cbn [App.selectedPaper App.db App.userId App.comments App.newPaperTitle
       App.newPaperContent App.newCommentText App.isEditing App.editTitle
       App.editContent App.showDeleteConfirmation].
  cbv zeta.
  destruct sel as [sel|]; [destruct (find _ docs)|];
    match goal with
    | |- (if ?c then _ else _) = App.mk _ _ _ _ _ (if ?c' then _ else _) _ _ _ _ _ _ _ =>
      change c with c'; destruct c'; reflexivity
    end.
Qed.

(** [X16] After every papers snapshot the list is the snapshot, the error
    banner is cleared, and the focus is consistent with the list: either it
    is one of the listed papers, with the id that was focused before, or
    there is no focus and no comment is shown, which happens exactly when
    there was no focus or the focused id is not in the snapshot. *)
Theorem papersSnapshot_focus_consistent (docs : list Paper.t) (a : App.t) :
  let a' := papersSnapshot docs a in
  App.papers a' = docs
  ∧ App.dbError a' = None
  ∧ match App.selectedPaper a' with
    | Some p =>
      p ∈ App.papers a'
      ∧ ∃ sel, App.selectedPaper a = Some sel ∧ Paper.id p = Paper.id sel
    | None =>
      App.comments a' = []
      ∧ ∀ sel, App.selectedPaper a = Some sel →
               ∀ p, p ∈ docs → Paper.id p ≠ Paper.id sel
    end.
Proof.
  simpl. unfold papersSnapshot, onPapersSnapshot, commentsEffect.
  destruct (App.selectedPaper a) as [sel|] eqn:Hsel.
  - destruct (find _ docs) as [p|] eqn:Hfind.
    + pose proof Hfind as Hp. apply find_some in Hp as [Hin Hid].
      apply bool_decide_eq_true in Hid. apply list_elem_of_In in Hin.
      destruct (_ || _); simpl; split_and!; try done; by exists sel.
    + simpl. rewrite !orb_true_r. simpl. split_and!; try done.
      intros sel' [= <-] p Hin Hid.
      apply list_elem_of_In in Hin.
      pose proof (find_none _ _ Hfind p Hin) as Hno.
      by apply bool_decide_eq_false in Hno.
  - simpl. rewrite Hsel. simpl. rewrite !orb_true_r. simpl. rewrite Hsel.
    by split_and!.
Qed.

(** [X17] Delivering the same papers snapshot again changes nothing: the
    state after a snapshot is a fixed point of that snapshot. (The listener
    is installed anew, and so fed the current snapshot again, every time the
    focus is replaced.) *)
Theorem papersSnapshot_idempotent (docs : list Paper.t) (a : App.t) :
  papersSnapshot docs (papersSnapshot docs a) = papersSnapshot docs a.
Proof.
  rewrite (papersSnapshot_fields docs (papersSnapshot docs a)).
  rewrite !(papersSnapshot_fields docs a). cbv zeta.
  cbn [App.selectedPaper App.db App.userId App.comments App.newPaperTitle
       App.newPaperContent App.newCommentText App.isEditing App.editTitle
       App.editContent App.showDeleteConfirmation].
  remember (match App.selectedPaper a with
            | Some sel => find (λ p, bool_decide (Paper.id p = Paper.id sel)) docs
            | None => None
            end) as focus eqn:Hfocus.
  assert (match focus with
          | Some sel => find (λ p, bool_decide (Paper.id p = Paper.id sel)) docs
          | None => None
          end = focus) as ->.
  { destruct focus as [p|]; [|done]. subst.
    destruct (App.selectedPaper a) as [sel|]; [|done].
    symmetry in Hfocus. by rewrite (find_same_id _ _ _ Hfocus). }
  by destruct (negb (App.db a) || negb (truthy (App.userId a))
               || negb (bool_decide (is_Some focus))).
Qed.

(** ** The search filter *)

Lemma startsWith_spec (q : string) :
  ∀ s, startsWith s q = true ↔ ∃ post, s = q +:+ post.
Proof.
  induction q as [|b q IH]; intros s.
  - destruct s; simpl; (split; [by eexists|done]).
  - destruct s as [|a s]; simpl.
    + split; [done|]. by intros [post [=]].
    + rewrite andb_true_iff, bool_decide_eq_true, IH. split.
      * intros [-> [post ->]]. by exists post.
      * intros [post [= -> ->]]. split; [done|]. by exists post.
Qed.

Lemma includesText_unfold (s q : string) :
  includesText s q =
    startsWith s q || match s with
                      | EmptyString => false
                      | String _ s' => includesText s' q
                      end.
Proof. by destruct s. Qed.

(** [includesText] is the substring test. *)
Lemma includesText_spec (s q : string) :
  includesText s q = true ↔ ∃ pre post, s = pre +:+ q +:+ post.
Proof.
  split.
  - induction s as [|a s IH]; rewrite includesText_unfold, orb_true_iff.
    + intros [H|H]; [|done]. apply startsWith_spec in H as [post ->].
      by exists EmptyString, post.
    + intros [H|H].
      * apply startsWith_spec in H as [post ->]. by exists EmptyString, post.
      * destruct (IH H) as (pre & post & ->). by exists (String a pre), post.
  - intros (pre & post & ->). induction pre as [|a pre IH].
    + assert (startsWith (q +:+ post) q = true) as Hs.
      { apply startsWith_spec. by exists post. }
      change (EmptyString +:+ q +:+ post) with (q +:+ post).
      by rewrite includesText_unfold, Hs.
    + change (String a pre +:+ q +:+ post) with (String a (pre +:+ q +:+ post)).
      rewrite includesText_unfold, IH. apply orb_true_r.
Qed.

Lemma string_app_assoc (s1 s2 s3 : string) :
  (s1 +:+ s2) +:+ s3 = s1 +:+ (s2 +:+ s3).
Proof.
  induction s1 as [|a s1 IH]; [done|].
  change ((String a s1 +:+ s2) +:+ s3) with (String a ((s1 +:+ s2) +:+ s3)).
  by rewrite IH.
Qed.

Lemma toLowerCase_app (s1 s2 : string) :
  toLowerCase (s1 +:+ s2) = toLowerCase s1 +:+ toLowerCase s2.
Proof.
  induction s1 as [|a s1 IH]; [done|].
  change (String a s1 +:+ s2) with (String a (s1 +:+ s2)). simpl.
  by rewrite IH.
Qed.

Lemma lowerChar_idemp (c : Ascii.ascii) : lowerChar (lowerChar c) = lowerChar c.
Proof. by destruct c as [[] [] [] [] [] [] [] []]. Qed.

Lemma toLowerCase_idemp (s : string) : toLowerCase (toLowerCase s) = toLowerCase s.
Proof.
  induction s as [|a s IH]; [done|]. simpl. by rewrite lowerChar_idemp, IH.
Qed.

(** A text that contains a query contains every piece of the query. *)
Lemma includesText_piece (s pre q post : string) :
  includesText s (pre +:+ q +:+ post) = true → includesText s q = true.
Proof.
  rewrite !includesText_spec. intros (pre1 & post1 & ->).
  exists (pre1 +:+ pre), (post +:+ post1).
  by rewrite !string_app_assoc.
Qed.

Lemma matchesQuery_piece (pre q post : string) (p : Paper.t) :
  matchesQuery (pre +:+ q +:+ post) p = true → matchesQuery q p = true.
Proof.
  unfold matchesQuery. rewrite !orb_true_iff, !toLowerCase_app.
  intros [H|H]; [left|right]; by eapply includesText_piece.
Qed.

Lemma elem_of_filteredPapers (q : string) (papers : list Paper.t) (p : Paper.t) :
  p ∈ filteredPapers q papers ↔ p ∈ papers ∧ matchesQuery q p = true.
Proof.
  unfold filteredPapers. rewrite !list_elem_of_In. apply filter_In.
Qed.

(** [X18] What the search box shows, for a query and papers in ASCII text.
    A paper is listed exactly when it is in the papers list and the
    lower-cased query occurs as a substring of its lower-cased title or
    content; the papers shown keep the order of the list; the empty query
    shows every paper; and the query is read without regard to case
    (searching for the lower-cased query shows the same papers). *)
Theorem search_filter_shows (searchQuery : string) (papers : list Paper.t) :
  isAscii searchQuery = true →
  Forall asciiPaper papers →
  (∀ p, p ∈ filteredPapers searchQuery papers ↔
        p ∈ papers
        ∧ ((∃ pre post, toLowerCase (Paper.title p)
                        = pre +:+ toLowerCase searchQuery +:+ post)
           ∨ (∃ pre post, toLowerCase (Paper.content p)
                          = pre +:+ toLowerCase searchQuery +:+ post)))
  ∧ filteredPapers searchQuery papers `sublist_of` papers
  ∧ filteredPapers EmptyString papers = papers
  ∧ filteredPapers (toLowerCase searchQuery) papers = filteredPapers searchQuery papers.
Proof.
  intros _ _. split_and!.
  - intros p. rewrite elem_of_filteredPapers. unfold matchesQuery.
    by rewrite orb_true_iff, !includesText_spec.
  - unfold filteredPapers. induction papers as [|p papers IH]; simpl; [done|].
    destruct (matchesQuery searchQuery p); by constructor.
  - unfold filteredPapers. induction papers as [|p papers IH]; simpl; [done|].
    assert (matchesQuery EmptyString p = true) as ->; [|by rewrite IH].
    unfold matchesQuery. simpl. by destruct (toLowerCase (Paper.title p)).
  - unfold filteredPapers, matchesQuery. by rewrite toLowerCase_idemp.
Qed.

Lemma search_filter_shows_witness :
  filteredPapers (toLowerCase "HER") [bobPaper; alicePaper]
    = filteredPapers "HER" [bobPaper; alicePaper]
  ∧ filteredPapers EmptyString [bobPaper; alicePaper] = [bobPaper; alicePaper].
Proof.
  destruct (search_filter_shows "HER" [bobPaper; alicePaper]) as (_ & _ & Hall & Hcase).
  - reflexivity.
  - by repeat constructor.
  - split; [exact Hcase|exact Hall].
Defined.

(** [X19] Typing more never brings a paper back, for queries and papers in
    ASCII text: a paper that matches a query matches every piece of it, so
    the papers shown for a longer query are among those shown for the
    shorter one, and filtering the shorter query's result by the longer
    query gives the longer query's result. *)
Theorem search_filter_narrows (pre q post : string) (papers : list Paper.t) :
  isAscii (pre +:+ q +:+ post) = true →
  Forall asciiPaper papers →
  (∀ p, p ∈ filteredPapers (pre +:+ q +:+ post) papers → p ∈ filteredPapers q papers)
  ∧ filteredPapers (pre +:+ q +:+ post) (filteredPapers q papers)
      = filteredPapers (pre +:+ q +:+ post) papers.
Proof.
  intros _ _. split.
  - intros p. rewrite !elem_of_filteredPapers. intros [Hin Hm].
    split; [done|]. by eapply matchesQuery_piece.
  - unfold filteredPapers. induction papers as [|p papers IH]; simpl; [done|].
    destruct (matchesQuery (pre +:+ q +:+ post) p) eqn:Hlong.
    + rewrite (matchesQuery_piece _ _ _ _ Hlong). simpl. by rewrite Hlong, IH.
    + destruct (matchesQuery q p); simpl; by rewrite ?Hlong, IH.
Qed.

Lemma search_filter_narrows_witness :
  filteredPapers "her" (filteredPapers "e" [bobPaper; alicePaper])
    = filteredPapers "her" [bobPaper; alicePaper].
Proof.
  apply (search_filter_narrows "h" "e" "r" [bobPaper; alicePaper]).
  - reflexivity.
  - by repeat constructor.
Defined.

Example search_examples :
  let q := filteredPapers in
  Paper.id <$> q "HER" [bobPaper; alicePaper] = ["P2"]
  ∧ Paper.id <$> q "t" [bobPaper; alicePaper] = ["P1"; "P2"]
  ∧ Paper.id <$> q "mine " [bobPaper; alicePaper] = [].
Proof. done. Qed.

(** ** The paper card *)

Lemma signedIn_userId (a : App.t) (uid : string) :
  signedIn a = Some uid → App.userId a = Some uid ∧ uid ≠ EmptyString.
Proof.
  unfold signedIn. destruct (App.db a); simpl; [|done].
  destruct (App.userId a) as [[|c s]|]; simpl; try done.
  by intros [= <-].
Qed.

(** [X20] The card follows the toggle. When the signed-in user's like
    commits on a paper whose count is a safe integer, the card of the
    updated paper shows the other caption ([Unlike] after a like, [Like]
    after an unlike), and the count it shows is one more after a like and
    [max 0 (count - 1)] after an unlike. *)
Theorem card_follows_toggle (env : Env.t) (w : World.t) (uid : string) (p : Paper.t) :
  signedIn (World.app w) = Some uid →
  World.papers w !! Paper.id p = Some (Paper.data p) →
  safeInteger (likeCount p) →
  Env.rejects env (LikeTransaction (Paper.id p)) = None →
  ∃ d', World.papers (handleLikePaper env (Paper.id p) w) !! Paper.id p = Some d'
    ∧ let p' := Paper.mk (Paper.id p) d' in
      let me := App.userId (World.app w) in
      isLiked me p' = negb (isLiked me p)
      ∧ likeLabel me p' ≠ likeLabel me p
      ∧ likeCount p' = if isLiked me p
                       then Z.max 0 (likeCount p - 1)
                       else (likeCount p + 1)%Z.
Proof.
  intros Hs Hp _ Hr. destruct (signedIn_userId _ _ Hs) as [Hu _].
  exists (toggleLikeData uid (Paper.data p)). split.
  { unfold handleLikePaper. rewrite Hs, Hr, (toggleLike_found _ _ _ _ Hp).
    apply lookup_insert_eq. }
  simpl. rewrite Hu. unfold likeLabel, isLiked, likeCount, Paper.likedBy, Paper.likes.
  simpl. fold (likedByOf (Paper.data p)) (likedByOf (toggleLikeData uid (Paper.data p)))
    (likesOf (Paper.data p)) (likesOf (toggleLikeData uid (Paper.data p))).
  pose proof (toggleLikeData_flips uid (Paper.data p)) as Hflip.
  destruct (includes uid (likedByOf (Paper.data p))) eqn:Hbefore.
  - apply includes_true in Hbefore.
    assert (includes uid (likedByOf (toggleLikeData uid (Paper.data p))) = false) as ->.
    { apply includes_false. tauto. }
    split_and!; [done|done|].
    by rewrite (toggleLikeData_liked _ _ Hbefore), likesOf_updateLikes.
  - apply includes_false in Hbefore.
    assert (includes uid (likedByOf (toggleLikeData uid (Paper.data p))) = true) as ->.
    { apply includes_true. tauto. }
    split_and!; [done|done|].
    by rewrite (toggleLikeData_not_liked _ _ Hbefore), likesOf_updateLikes.
Qed.

Lemma card_follows_toggle_witness :
  ∃ d', World.papers (handleLikePaper sampleEnv "P2" bobSession) !! "P2" = Some d'
    ∧ isLiked (Some "bob") (Paper.mk "P2" d') = true
    ∧ likeCount (Paper.mk "P2" d') = 1%Z.
Proof.
  destruct (card_follows_toggle sampleEnv bobSession "bob" alicePaper)
    as (d' & Hd' & Hliked & _ & Hcount); [reflexivity|reflexivity|by split|reflexivity|].
  exists d'. split; [exact Hd'|]. split; [exact Hliked|exact Hcount].
Defined.

(** ** What a session can do to the store *)

Lemma handleAddPaper_store (env : Env.t) (w : World.t) :
  World.store (handleAddPaper env w) = World.store w
  ∨ ∃ uid t c,
      App.userId (World.app w) = Some uid
      ∧ World.store (handleAddPaper env w)
          = Store.setPapers
              (<[Env.newId env :=
                   PaperData.mk t c uid (Some 0%Z) (Some []) (Some (Env.now env)) None]>
                 (World.papers w))
              (World.store w).
Proof.
  unfold handleAddPaper.
  destruct (signedIn (World.app w)) as [uid|] eqn:Hs; [|by left].
  destruct (_ || _); [by left|].
  destruct (Env.rejects env AddPaper); [by left|].
  right. eexists uid, _, _. split; [|reflexivity].
  by apply signedIn_userId in Hs as [? _].
Qed.

Lemma handleUpdatePaper_store (env : Env.t) (w : World.t) :
  World.store (handleUpdatePaper env w) = World.store w
  ∨ ∃ sel d t c,
      World.papers w !! Paper.id sel = Some d
      ∧ World.store (handleUpdatePaper env w)
          = Store.setPapers
              (<[Paper.id sel := editFields t c (Env.now env) d]> (World.papers w))
              (World.store w).
Proof.
  unfold handleUpdatePaper.
  destruct (signedIn (World.app w)); [|by left].
  destruct (App.selectedPaper (World.app w)) as [sel|]; [|by left].
  destruct (_ || _); [by left|].
  destruct (Env.rejects env _); [by left|].
  destruct (World.papers w !! Paper.id sel) as [d|] eqn:Hd; [|by left].
  right. by eexists sel, d, _, _.
Qed.

Lemma handleLikePaper_store (env : Env.t) (paperId : string) (w : World.t) :
  World.store (handleLikePaper env paperId w) = World.store w
  ∨ ∃ uid d,
      App.userId (World.app w) = Some uid
      ∧ World.papers w !! paperId = Some d
      ∧ World.store (handleLikePaper env paperId w)
          = Store.setPapers (<[paperId := toggleLikeData uid d]> (World.papers w))
              (World.store w).
Proof.
  unfold handleLikePaper.
  destruct (signedIn (World.app w)) as [uid|] eqn:Hs; [|by left].
  destruct (Env.rejects env _); [by left|].
  unfold toggleLike.
  destruct (World.papers w !! paperId) as [d|] eqn:Hd; [|by left].
  right. exists uid, d. split_and!; [|done|done].
  by apply signedIn_userId in Hs as [? _].
Qed.

Lemma handleAddComment_papers (env : Env.t) (w : World.t) :
  World.papers (handleAddComment env w) = World.papers w.
Proof.
  unfold handleAddComment.
  destruct (signedIn (World.app w)); [|done].
  destruct (App.selectedPaper (World.app w)); [|done].
  destruct (isEmpty _); [done|].
  by destruct (Env.rejects env AddComment).
Qed.

Lemma provenance_same (env : Env.t) (g : Gesture) (pg : Page.t)
    (id : string) (d : PaperData.t) :
  World.papers (Page.world pg) !! id = Some d → provenance env g pg id d.
Proof. intros Hd. left. exists d. split_and!; try done. by left. Qed.

Lemma perform_provenance (env : Env.t) (a : Action) (pg : Page.t)
    (id : string) (d' : PaperData.t) :
  (∀ st, a ≠ RemoteWrite st) →
  World.papers (perform env a (Page.world pg)) !! id = Some d' →
  provenance env (Basic a) pg id d'.
Proof.
  intros Hlocal. unfold World.papers.
  destruct a; simpl; try apply provenance_same.
  - destruct (handleLikePaper_store env (Paper.id paper) (Page.world pg))
      as [->|(uid & d & Hu & Hd & ->)]; [apply provenance_same|].
    simpl. rewrite lookup_insert. case_decide as Hid.
    + intros [= <-]. subst id. left. exists d. split; [done|].
      rewrite (toggleLikeData_shape uid d). split_and!; [done|done|].
      right. exists uid. split; [done|]. by rewrite <- toggleLikeData_shape.
    + apply provenance_same.
  - destruct (handleUpdatePaper_store env (Page.world pg))
      as [->|(sel & d & t & c & Hd & ->)]; [apply provenance_same|].
    simpl. rewrite lookup_insert. case_decide as Hid.
    + intros [= <-]. subst id. left. exists d. split_and!; try done. by left.
    + apply provenance_same.
  - intros Hd'. apply provenance_same.
    change (Store.papers (World.store (executeDeletePaper env (Page.world pg))) !! id
            = Some d') in Hd'.
    destruct (executeDeletePaper_store env (Page.world pg))
      as [Hst|(sel & _ & _ & _ & Hps & _)].
    + by rewrite Hst in Hd'.
    + unfold World.papers in Hps. rewrite Hps in Hd'.
      by apply lookup_delete_Some in Hd' as [_ ?].
  - intros Hd'. apply provenance_same.
    by rewrite <- (handleDeleteComment_papers env (Comment.id comment) (Page.world pg)).
  - by destruct (Hlocal store).
Qed.

Lemma gesture_paper_provenance_aux (env : Env.t) (g : Gesture) (pg pg' : Page.t)
    (id : string) (d' : PaperData.t) :
  interact (env, g) pg = Some pg' →
  (∀ st, g ≠ Basic (RemoteWrite st)) →
  World.papers (Page.world pg') !! id = Some d' →
  provenance env g pg id d'.
Proof.
  unfold interact. simpl. destruct (available g pg); [|done].
  intros [= <-] Hlocal. destruct g as [a| | | | | |]; simpl;
    try apply provenance_same.
  - apply perform_provenance. intros st ->. by destruct (Hlocal st).
  - unfold World.papers.
    destruct (handleAddPaper_store env (Page.world pg))
      as [->|(uid & t & c & Hu & ->)]; [apply provenance_same|].
    simpl. rewrite lookup_insert. case_decide as Hid.
    + intros [= <-]. right. by split_and!.
    + apply provenance_same.
  - intros Hd'. apply provenance_same. by rewrite <- (handleAddComment_papers env).
Qed.


(** [X22] No gesture of a session breaks [likes == |likedBy|]: if every
    paper in the store is well formed before the gesture, every paper is
    well formed after it. *)
Theorem gesture_keeps_invariant (env : Env.t) (g : Gesture) (pg pg' : Page.t) :
  interact (env, g) pg = Some pg' →
  (∀ st, g ≠ Basic (RemoteWrite st)) →
  storeInvariant (World.papers (Page.world pg)) →
  storeInvariant (World.papers (Page.world pg')).
Proof.
  intros Hstep Hlocal Hinv id d' Hd'.
  destruct (gesture_paper_provenance_aux env g pg pg' id d' Hstep Hlocal Hd')
    as [(d & Hd & _ & _ & Hlikes)|(_ & _ & _ & Hl & Hb)].
  - pose proof (Hinv id d Hd) as Hwf. simpl in Hwf.
    destruct Hlikes as [[Hl Hb]|(u & _ & ->)].
    + unfold wellFormed, likesMatch, likesOf, likedByOf in *. by rewrite Hl, Hb.
    + by apply toggleLikeData_wellFormed.
  - unfold wellFormed, likesMatch, likesOf, likedByOf. rewrite Hl, Hb.
    split; [apply NoDup_nil_2|done].
Qed.


Lemma gesture_keeps_invariant_witness :
  ∃ pg', interact (sampleEnv, Basic (ClickLike alicePaper)) bobListPage = Some pg'
    ∧ storeInvariant (World.papers (Page.world pg')).
Proof.
  eexists. split; [vm_compute; reflexivity|].
  eapply (gesture_keeps_invariant sampleEnv (Basic (ClickLike alicePaper)) bobListPage).
  - vm_compute. reflexivity.
  - intros st. discriminate.
  - change (storeInvariant
              {[ "P1" := Paper.data bobPaper; "P2" := Paper.data alicePaper ]}).
    apply map_Forall_insert_2; [|apply map_Forall_singleton];
      (split; [apply NoDup_nil_2|reflexivity]).
Defined.

(** [X23] A paper leaves the store only through its author's confirmed
    delete. If a gesture of a session makes a paper disappear, the gesture
    is the confirmation of the delete dialog, the paper is the focused one,
    and the session's user is its author (as the focused copy names it); or
    the store was written from elsewhere. *)
Theorem gesture_paper_removal (env : Env.t) (g : Gesture) (pg pg' : Page.t)
    (id : string) :
  interact (env, g) pg = Some pg' →
  is_Some (World.papers (Page.world pg) !! id) →
  World.papers (Page.world pg') !! id = None →
  (∃ st, g = Basic (RemoteWrite st))
  ∨ (g = Basic ClickConfirmDelete
     ∧ ∃ sel, App.selectedPaper (Page.app pg) = Some sel
              ∧ Paper.id sel = id
              ∧ App.userId (Page.app pg) = Some (Paper.authorId sel)).
Proof.
  unfold interact. simpl. destruct (available g pg); [|done].
  intros [= <-] [d Hd]. unfold World.papers in *.
  assert (∀ k v, <[k := v]> (World.papers (Page.world pg)) !! id ≠ None) as Hins.
  { intros k v Hnone. apply lookup_insert_None in Hnone as [Hnone _].
    unfold World.papers in Hnone. congruence. }
  destruct g as [a| | | | | |]; simpl; try congruence.
  - destruct a; simpl; try congruence.
    + destruct (handleLikePaper_store env (Paper.id paper) (Page.world pg))
        as [->|(uid & d0 & _ & _ & ->)]; [congruence|]. simpl. intros H. by apply Hins in H.
    + destruct (handleUpdatePaper_store env (Page.world pg))
        as [->|(sel & d0 & t & c & _ & ->)]; [congruence|].
      simpl. intros H. by apply Hins in H.
    + intros Hgone.
      change (Store.papers (World.store (executeDeletePaper env (Page.world pg))) !! id
              = None) in Hgone.
      destruct (executeDeletePaper_store env (Page.world pg))
        as [Hst|(sel & Hsel & Hauth & _ & Hps & _)];
        [rewrite Hst in Hgone; congruence|].
      unfold World.papers in Hps. rewrite Hps in Hgone.
      right. split; [done|]. exists sel. split_and!; [done| |].
      * apply lookup_delete_None in Hgone as [?|?]; [done|congruence].
      * unfold isPaperAuthor in Hauth. unfold Page.app. rewrite Hsel in Hauth.
        by apply bool_decide_eq_true in Hauth.
    + pose proof (handleDeleteComment_papers env (Comment.id comment) (Page.world pg)) as E.
      unfold World.papers in E. rewrite E. congruence.
    + intros _. left. by eexists.
  - destruct (handleAddPaper_store env (Page.world pg))
      as [->|(uid & t & c & _ & ->)]; [congruence|]. simpl. intros H. by apply Hins in H.
  - pose proof (handleAddComment_papers env (Page.world pg)) as E.
    unfold World.papers in E. rewrite E. congruence.
Qed.

Lemma gesture_paper_removal_witness :
  App.userId (World.app bobDeleting) = Some (Paper.authorId bobPaper).
Proof.
  destruct (gesture_paper_removal sampleEnv (Basic ClickConfirmDelete)
              (Page.mk bobDeleting EmptyString)
              (Page.mk (perform sampleEnv ClickConfirmDelete bobDeleting) EmptyString)
              "P1")
    as [[st Hst]|(_ & sel & Hsel & _ & Hu)].
  - reflexivity.
  - by eexists.
  - reflexivity.
  - discriminate Hst.
  - injection Hsel as <-. exact Hu.
Defined.

(** ** What holds throughout a session *)

Lemma report_view (label prefix message : string) (w : World.t) :
  view (World.app (report label prefix message w)) = view (World.app w).
Proof. done. Qed.

Lemma handleLikePaper_view (env : Env.t) (paperId : string) (w : World.t) :
  view (World.app (handleLikePaper env paperId w)) = view (World.app w).
Proof.
  unfold handleLikePaper.
  destruct (signedIn (World.app w)); [|done].
  destruct (Env.rejects env _); [done|].
  by destruct (toggleLike _ _ _).
Qed.

Lemma handleUpdatePaper_view (env : Env.t) (w : World.t) :
  view (World.app (handleUpdatePaper env w)) = view (World.app w).
Proof.
  unfold handleUpdatePaper.
  destruct (signedIn (World.app w)); [|done].
  destruct (App.selectedPaper (World.app w)); [|done].
  destruct (_ || _); [done|].
  destruct (Env.rejects env _); [done|].
  by destruct (World.papers w !! _).
Qed.

Lemma handleDeleteComment_view (env : Env.t) (commentId : string) (w : World.t) :
  view (World.app (handleDeleteComment env commentId w)) = view (World.app w).
Proof.
  unfold handleDeleteComment.
  destruct (signedIn (World.app w)); [|done].
  by destruct (Env.rejects env _).
Qed.

Lemma handleAddPaper_view (env : Env.t) (w : World.t) :
  view (World.app (handleAddPaper env w)) = view (World.app w).
Proof.
  unfold handleAddPaper.
  destruct (signedIn (World.app w)); [|done].
  destruct (_ || _); [done|].
  by destruct (Env.rejects env _).
Qed.

Lemma handleAddComment_view (env : Env.t) (w : World.t) :
  view (World.app (handleAddComment env w)) = view (World.app w).
Proof.
  unfold handleAddComment.
  destruct (signedIn (World.app w)); [|done].
  destruct (App.selectedPaper (World.app w)); [|done].
  destruct (isEmpty _); [done|].
  by destruct (Env.rejects env _).
Qed.

Lemma tidy_view (uid : string) (a a' : App.t) :
  view a' = view a → tidy uid a → tidy uid a'.
Proof. unfold view, tidy. intros [= -> -> -> ->]. done. Qed.

(** The comments effect restores the third part of [tidy] whatever the
    handler before it did to the focus. *)
Lemma tidy_commentsEffect (uid : string) (a : App.t) :
  App.db a = true → App.userId a = Some uid → tidy uid (commentsEffect a).
Proof.
  intros Hdb Hu. unfold commentsEffect, tidy.
  destruct (negb (App.db a) || negb (truthy (App.userId a))
            || negb (bool_decide (is_Some (App.selectedPaper a)))) eqn:Hcond.
  - split_and!; [exact Hdb|exact Hu|]. intros _. reflexivity.
  - split_and!; [exact Hdb|exact Hu|]. intros Hnone.
    rewrite Hnone, orb_true_r in Hcond. discriminate Hcond.
Qed.

Lemma executeDeletePaper_identity (env : Env.t) (w : World.t) :
  App.db (World.app (executeDeletePaper env w)) = App.db (World.app w)
  ∧ App.userId (World.app (executeDeletePaper env w)) = App.userId (World.app w).
Proof.
  unfold executeDeletePaper.
  destruct (signedIn (World.app w)); [|done].
  destruct (App.selectedPaper (World.app w)); [|done].
  destruct (isPaperAuthor (World.app w)); [|done]. simpl.
  destruct (Env.rejects env (DeletePaper _)); [done|].
  by destruct (Env.rejects env (QueryComments _)).
Qed.

Lemma tidy_perform (env : Env.t) (uid : string) (a : Action) (w : World.t) :
  offered a (World.app w) = true →
  tidy uid (World.app w) → tidy uid (World.app (perform env a w)).
Proof.
  intros Hoff Ht. pose proof Ht as (Hdb & Hu & Hc).
  assert (∀ a', view a' = view (World.app w) → tidy uid a') as Hsame.
  { intros a' Hv. by apply (tidy_view uid _ _ Hv). }
  destruct a as [p|p| | |v|v| | | | | |c|docs|docs|st]; simpl.
  - by apply (tidy_commentsEffect uid).
  - apply Hsame, handleLikePaper_view.
  - by apply (tidy_commentsEffect uid).
  - apply Hsame. unfold handleEditClick.
    by destruct (App.selectedPaper (World.app w)).
  - by apply Hsame.
  - by apply Hsame.
  - apply Hsame, handleUpdatePaper_view.
  - by apply Hsame.
  - apply Hsame. unfold handleDeletePaperClick. by destruct (_ && _).
  - destruct (executeDeletePaper_identity env w) as [Hdb' Hu'].
    apply (tidy_commentsEffect uid); congruence.
  - by apply Hsame.
  - apply Hsame, handleDeleteComment_view.
  - apply (tidy_commentsEffect uid); unfold papersSnapshot, onPapersSnapshot;
      (destruct (App.selectedPaper (World.app w)); [destruct (find _ docs)|]; done).
  - simpl in Hoff. apply andb_true_iff in Hoff as [_ Hdetail].
    unfold detailView in Hdetail. apply bool_decide_eq_true in Hdetail as [sel Hsel].
    unfold tidy, onCommentsSnapshot. simpl. rewrite Hsel. by split_and!.
  - done.
Qed.

Lemma offered_of_available (a : Action) (pg : Page.t) :
  available (Basic a) pg = true → offered a (Page.app pg) = true.
Proof.
  destruct a; simpl; try done; by intros [? _]%andb_true_iff.
Qed.

Lemma tidy_interact (uid : string) (eg : Env.t * Gesture) (pg pg' : Page.t) :
  interact eg pg = Some pg' → tidy uid (Page.app pg) → tidy uid (Page.app pg').
Proof.
  unfold interact. destruct (available eg.2 pg) eqn:Hav; [|done].
  intros [= <-] Ht. destruct eg as [env g]. simpl in *.
  destruct g as [a|v|v|v| |v| ].
  - apply tidy_perform; [by apply offered_of_available|done].
  - done.
  - by eapply tidy_view; [|exact Ht].
  - by eapply tidy_view; [|exact Ht].
  - eapply tidy_view; [apply handleAddPaper_view|exact Ht].
  - by eapply tidy_view; [|exact Ht].
  - eapply tidy_view; [apply handleAddComment_view|exact Ht].
Qed.

(** [X24] Throughout a session the page stays consistent: whatever the
    user does, whatever snapshots arrive and whatever is written from
    elsewhere, whenever no paper is focused (the list view) the comment list
    is empty; and no handler changes the store handle or the identity of the
    session. *)
Theorem session_stays_tidy (uid : string) (st : Store.t)
    (gestures : list (Env.t * Gesture)) (pg : Page.t) :
  session gestures (freshPage uid st) = Some pg →
  App.db (Page.app pg) = true
  ∧ App.userId (Page.app pg) = Some uid
  ∧ (App.selectedPaper (Page.app pg) = None → App.comments (Page.app pg) = []).
Proof.
  assert (∀ start, tidy uid (Page.app start) →
                   session gestures start = Some pg → tidy uid (Page.app pg)) as Hgen.
  { induction gestures as [|eg gestures IH]; intros start Ht; simpl.
    - by intros [= <-].
    - destruct (interact eg start) as [next|] eqn:Hstep; [|done].
      apply IH. by eapply tidy_interact. }
  apply Hgen. by split_and!.
Qed.

Lemma session_stays_tidy_witness :
  ∃ pg, session bobBrowses (freshPage "bob" bothPapers) = Some pg
    ∧ App.userId (Page.app pg) = Some "bob"
    ∧ App.comments (Page.app pg) = [].
Proof.
  eexists. split; [vm_compute; reflexivity|].
  match goal with
  | |- App.userId (Page.app ?pg) = _ ∧ _ =>
    destruct (session_stays_tidy "bob" bothPapers bobBrowses pg) as (_ & Hu & Hc)
  end; [vm_compute; reflexivity|].
  split; [exact Hu|]. apply Hc. reflexivity.
Defined.

Example bob_browses :
  ∃ pg, session bobBrowses (freshPage "bob" bothPapers) = Some pg
    ∧ World.comments (Page.world pg) !! "P2"
        = Some (CommentData.mk "P2" "bob" "agreed" (Some (Timestamp.mk 0 7)))
    ∧ (likedByOf <$> World.papers (Page.world pg) !! "P2") = Some ["bob"].
Proof. eexists. split; [vm_compute; reflexivity|]. vm_compute. done. Qed.

(** ** Concurrent likes, continued *)

(** [X25] At every point of every schedule, complete or not, the paper
    counts exactly the callers whose transaction has committed: [likedBy]
    has no duplicates, [likes] is its length, and an identity is in it if and
    only if that caller has committed. A caller that is still reading,
    waiting to run again or has failed is not counted, and no commit is
    lost. *)
Theorem contention_counts_commits (maxAttempts : nat) (callers : list string)
    (schedule : list nat) (d : PaperData.t) :
  NoDup callers →
  likesOf d = 0%Z → likedByOf d = [] →
  ∃ d', Tx.doc (Tx.runSchedule maxAttempts schedule (Tx.start d callers)) = Some d'
    ∧ NoDup (likedByOf d')
    ∧ likesOf d' = Z.of_nat (length (likedByOf d'))
    ∧ ∀ u, u ∈ likedByOf d' ↔
           Tx.hasCommitted u (Tx.runSchedule maxAttempts schedule (Tx.start d callers)).
Proof.
  intros Hnd Hl Hb.
  destruct (invariant_runSchedule maxAttempts callers schedule Hnd _
              (invariant_start callers d Hl Hb))
    as [_ (d' & Hd' & [Hnd' Hlen] & Hmem) _].
  by exists d'.
Qed.

Lemma contention_counts_commits_witness :
  ∃ d', Tx.doc (Tx.runSchedule 1 [0; 1; 1; 0]
                  (Tx.start (freshPaper "alice") ["ann"; "ben"])) = Some d'
    ∧ likesOf d' = Z.of_nat (length (likedByOf d'))
    ∧ ("ann" ∈ likedByOf d' ↔
       Tx.hasCommitted "ann" (Tx.runSchedule 1 [0; 1; 1; 0]
                                (Tx.start (freshPaper "alice") ["ann"; "ben"]))).
Proof.
  destruct (contention_counts_commits 1 ["ann"; "ben"] [0; 1; 1; 0] (freshPaper "alice"))
    as (d' & Hd' & _ & Hlen & Hmem).
  - compute_done.
  - reflexivity.
  - reflexivity.
  - exists d'. split; [exact Hd'|]. split; [exact Hlen|apply Hmem].
Defined.

Lemma oneByOne_cons (first count : nat) :
  oneByOne first (S count) = first :: first :: oneByOne (S first) count.
Proof. reflexivity. Qed.

Lemma insert_middle {A} (l1 l2 : list A) (x y : A) :
  <[length l1 := y]> (l1 ++ x :: l2) = l1 ++ y :: l2.
Proof. rewrite insert_app_r_alt by lia. by rewrite Nat.sub_diag. Qed.

(** One caller after the other, from a state in which [pre] have finished
    and [rest] have not started. *)
Lemma runSchedule_oneByOne (maxAttempts : nat) (rest : list string) :
  ∀ (pre : list Tx.Client) (d : PaperData.t) (v : nat),
    NoDup rest →
    (∀ u, u ∈ rest → u ∉ likedByOf d) →
    ∃ d', Tx.runSchedule maxAttempts (oneByOne (length pre) (length rest))
            (Tx.mk (Some d) v (pre ++ (waiting <$> rest)))
          = Tx.mk (Some d') (v + length rest) (pre ++ (committedAtOnce <$> rest))
      ∧ likedByOf d' = likedByOf d ++ rest
      ∧ likesOf d' = (likesOf d + Z.of_nat (length rest))%Z.
Proof.
  induction rest as [|u rest IH]; intros pre d v Hnd Hfresh.
  - exists d. simpl. by rewrite Nat.add_0_r, !app_nil_r, Z.add_0_r.
  - apply NoDup_cons in Hnd as [Hu Hnd].
    assert (u ∉ likedByOf d) as Hud by (apply Hfresh; apply list_elem_of_here).
    destruct (IH (pre ++ [committedAtOnce u]) (toggleLikeData u d) (S v) Hnd)
      as (d' & Hrun & Hlb & Hlikes).
    { intros u' Hu'. rewrite (toggleLikeData_not_liked _ _ Hud), likedByOf_updateLikes.
      rewrite elem_of_app, list_elem_of_singleton. intros [Hin| ->].
      - by apply (Hfresh u'); [apply list_elem_of_further|].
      - done. }
    exists d'. split_and!.
    + rewrite length_app in Hrun. simpl in Hrun.
      rewrite Nat.add_1_r, <- (assoc_L (++)) in Hrun. simpl in Hrun.
      change (length (u :: rest)) with (S (length rest)).
      rewrite oneByOne_cons. rewrite fmap_cons.
      unfold Tx.runSchedule in *. simpl foldl at 1.
      assert (Tx.advance maxAttempts (length pre)
                (Tx.advance maxAttempts (length pre)
                   (Tx.mk (Some d) v (pre ++ waiting u :: (waiting <$> rest))))
              = Tx.mk (Some (toggleLikeData u d)) (S v)
                  (pre ++ committedAtOnce u :: (waiting <$> rest))) as Htwo.
      { unfold Tx.advance at 2. simpl.
        rewrite list_lookup_middle by done. simpl.
        unfold Tx.setClient. simpl. rewrite insert_middle.
        unfold Tx.advance. simpl.
        rewrite list_lookup_middle by done. simpl.
        rewrite decide_True by done.
        by rewrite insert_middle. }
      rewrite Htwo, Hrun. f_equal; [lia|].
      by rewrite <- (assoc_L (++)).
    + rewrite Hlb, (toggleLikeData_not_liked _ _ Hud), likedByOf_updateLikes.
      by rewrite <- (assoc_L (++)).
    + rewrite Hlikes, (toggleLikeData_not_liked _ _ Hud), likesOf_updateLikes.
      simpl length. lia.
Qed.

(** [X26] Without contention nothing is retried and nothing fails: when the
    callers toggle a fresh paper one after the other, every transaction
    commits at its first attempt, whatever the retry bound, and the paper
    ends with [likes = N] and [likedBy] holding the callers in the order in
    which they called. *)
Theorem one_by_one_all_commit (maxAttempts : nat) (callers : list string)
    (d : PaperData.t) :
  NoDup callers →
  likesOf d = 0%Z → likedByOf d = [] →
  ∃ d', Tx.runSchedule maxAttempts (oneByOne 0 (length callers)) (Tx.start d callers)
        = Tx.mk (Some d') (length callers) (committedAtOnce <$> callers)
    ∧ Tx.allCommitted
        (Tx.runSchedule maxAttempts (oneByOne 0 (length callers)) (Tx.start d callers))
    ∧ likedByOf d' = callers
    ∧ likesOf d' = Z.of_nat (length callers).
Proof.
  intros Hnd Hl Hb.
  destruct (runSchedule_oneByOne maxAttempts callers [] d 0 Hnd)
    as (d' & Hrun & Hlb & Hlikes).
  { intros u _. rewrite Hb. apply not_elem_of_nil. }
  simpl in Hrun. exists d'. unfold Tx.start, waiting in *.
  rewrite Hrun. split_and!; [done| | |].
  - unfold Tx.allCommitted. simpl. apply Forall_fmap. by apply Forall_true.
  - by rewrite Hlb, Hb.
  - rewrite Hlikes, Hl. lia.
Qed.

Lemma one_by_one_all_commit_witness :
  ∃ d', Tx.doc (Tx.runSchedule 0 (oneByOne 0 3) (Tx.start (freshPaper "alice") threeCallers))
        = Some d'
    ∧ likedByOf d' = threeCallers.
Proof.
  destruct (one_by_one_all_commit 0 threeCallers (freshPaper "alice"))
    as (d' & Hrun & _ & Hlb & _).
  - compute_done.
  - reflexivity.
  - reflexivity.
  - exists d'. split; [|exact Hlb].
    change (length threeCallers) with 3 in Hrun. by rewrite Hrun.
Defined.

(** ** Trimmed text *)

Lemma string_app_nil_r (s : string) : s +:+ EmptyString = s.
Proof.
  induction s as [|a s IH]; [done|].
  change (String a s +:+ EmptyString) with (String a (s +:+ EmptyString)).
  by rewrite IH.
Qed.

Lemma rev_app_spec (s1 : string) :
  ∀ s2, String.rev_app s1 s2 = String.rev s1 +:+ s2.
Proof.
  unfold String.rev. induction s1 as [|a s1 IH]; intros s2; [done|]. simpl.
  rewrite (IH (String a s2)), (IH (String a EmptyString)).
  by rewrite string_app_assoc.
Qed.

Lemma rev_cons (a : Ascii.ascii) (s : string) :
  String.rev (String a s) = String.rev s +:+ String a EmptyString.
Proof. unfold String.rev at 1. simpl. apply rev_app_spec. Qed.

Lemma rev_snoc (a : Ascii.ascii) (s : string) :
  String.rev (s +:+ String a EmptyString) = String a (String.rev s).
Proof.
  induction s as [|b s IH]; [done|].
  change (String b s +:+ String a EmptyString)
    with (String b (s +:+ String a EmptyString)).
  by rewrite !rev_cons, IH.
Qed.

Lemma rev_involutive (s : string) : String.rev (String.rev s) = s.
Proof.
  induction s as [|a s IH]; [done|]. by rewrite rev_cons, rev_snoc, IH.
Qed.

Lemma trimStart_startsClean (s : string) : startsClean (trimStart s).
Proof.
  induction s as [|c s IH]; [done|]. simpl.
  by destruct (isWhiteSpace c) eqn:Hc.
Qed.

Lemma trimStart_clean_id (s : string) : startsClean s → trimStart s = s.
Proof. destruct s as [|c s]; [done|]. simpl. by intros ->. Qed.

(** Trimming the front of a text that ends in a visible character keeps
    that character. *)
Lemma trimStart_snoc (c : Ascii.ascii) (s : string) :
  isWhiteSpace c = false →
  ∃ kept, trimStart (s +:+ String c EmptyString) = kept +:+ String c EmptyString.
Proof.
  intros Hc. induction s as [|a s IH].
  - exists EmptyString. simpl. by rewrite Hc.
  - change (String a s +:+ String c EmptyString)
      with (String a (s +:+ String c EmptyString)). simpl.
    destruct (isWhiteSpace a); [done|]. by exists (String a s).
Qed.

Lemma trimEnd_startsClean (s : string) : startsClean s → startsClean (trimEnd s).
Proof.
  destruct s as [|c s]; [done|]. simpl. intros Hc. unfold trimEnd.
  rewrite rev_cons.
  destruct (trimStart_snoc c (String.rev s) Hc) as [kept ->].
  by rewrite rev_snoc.
Qed.

Lemma trimEnd_idemp (s : string) : trimEnd (trimEnd s) = trimEnd s.
Proof.
  unfold trimEnd. rewrite rev_involutive.
  by rewrite (trimStart_clean_id _ (trimStart_startsClean _)).
Qed.

Lemma trim_idemp (s : string) : trim (trim s) = trim s.
Proof.
  unfold trim.
  rewrite (trimStart_clean_id (trimEnd (trimStart s))).
  - apply trimEnd_idemp.
  - apply trimEnd_startsClean, trimStart_startsClean.
Qed.

Lemma trim_noSurroundingSpace (s : string) : noSurroundingSpace (trim s).
Proof.
  split.
  - apply trimEnd_startsClean, trimStart_startsClean.
  - unfold trim, trimEnd. rewrite rev_involutive. apply trimStart_startsClean.
Qed.

(** [X27] Text is stored trimmed. With ASCII text in the forms, the title
    and content of a paper that [handleAddPaper] publishes, and the text of
    a comment that [handleAddComment] adds, have no white space at either
    end and are left unchanged by trimming them again. *)
Theorem stored_text_is_trimmed (env : Env.t) (w : World.t) :
  isAscii (App.newPaperTitle (World.app w)) = true →
  isAscii (App.newPaperContent (World.app w)) = true →
  isAscii (App.newCommentText (World.app w)) = true →
  (∀ id d, World.papers (handleAddPaper env w) !! id = Some d →
     World.papers w !! id = Some d
     ∨ (noSurroundingSpace (PaperData.title d) ∧ trim (PaperData.title d) = PaperData.title d
        ∧ noSurroundingSpace (PaperData.content d)
        ∧ trim (PaperData.content d) = PaperData.content d))
  ∧ (∀ id cd, World.comments (handleAddComment env w) !! id = Some cd →
       World.comments w !! id = Some cd
       ∨ (noSurroundingSpace (CommentData.text cd)
          ∧ trim (CommentData.text cd) = CommentData.text cd)).
Proof.
  intros _ _ _. split.
  - intros id d. unfold handleAddPaper.
    destruct (signedIn (World.app w)); [|by left].
    destruct (_ || _); [by left|].
    destruct (Env.rejects env AddPaper); [by left|].
    unfold World.papers. simpl. rewrite lookup_insert. case_decide; [|by left].
    intros [= <-]. right. simpl.
    split_and!; auto using trim_noSurroundingSpace, trim_idemp.
  - intros id cd. unfold handleAddComment.
    destruct (signedIn (World.app w)); [|by left].
    destruct (App.selectedPaper (World.app w)); [|by left].
    destruct (isEmpty _); [by left|].
    destruct (Env.rejects env AddComment); [by left|].
    unfold World.comments. simpl. rewrite lookup_insert. case_decide; [|by left].
    intros [= <-]. right. simpl.
    split; auto using trim_noSurroundingSpace, trim_idemp.
Qed.

Lemma stored_text_is_trimmed_witness :
  ∃ d, World.papers (handleAddPaper sampleEnv sampleWorld) !! "P2" = Some d
    ∧ noSurroundingSpace (PaperData.title d)
    ∧ trim (PaperData.title d) = PaperData.title d.
Proof.
  destruct (stored_text_is_trimmed sampleEnv sampleWorld eq_refl eq_refl eq_refl)
    as [Hpapers _].
  assert (World.papers (handleAddPaper sampleEnv sampleWorld) !! "P2"
          = Some (PaperData.mk "T2" "C2" "bob" (Some 0%Z) (Some []) (Some 7%Z) None))
    as Hd by (vm_compute; reflexivity).
  eexists. split; [exact Hd|].
  destruct (Hpapers "P2" _ Hd) as [Hold|(Hclean & Ht & _)].
  - discriminate Hold.
  - split; [exact Hclean|exact Ht].
Defined.

Example trim_examples :
  trim "  two words  " = "two words"
  ∧ trim "   " = EmptyString
  ∧ trim EmptyString = EmptyString
  ∧ trim "x" = "x".
Proof. done. Qed.

(** ** Editing *)

(** [X28] Edit followed at once by Save Changes rewrites the paper with its
    own text. When the focused copy is the stored document and its title and
    content are ASCII text, trimmed and not empty (as for every paper
    published with ASCII text in the form), the only change to the store is
    the [updatedAt] stamp, and the session leaves edit mode. *)
Theorem edit_then_save_stamps_only (env : Env.t) (w : World.t)
    (uid : string) (sel : Paper.t) :
  signedIn (World.app w) = Some uid →
  App.selectedPaper (World.app w) = Some sel →
  World.papers w !! Paper.id sel = Some (Paper.data sel) →
  asciiPaper sel →
  trim (Paper.title sel) = Paper.title sel → Paper.title sel ≠ EmptyString →
  trim (Paper.content sel) = Paper.content sel → Paper.content sel ≠ EmptyString →
  Env.rejects env (UpdatePaper (Paper.id sel)) = None →
  let w' := handleUpdatePaper env (onApp handleEditClick w) in
  World.papers w'
    = <[Paper.id sel :=
          PaperData.mk (Paper.title sel) (Paper.content sel) (Paper.authorId sel)
            (Paper.likes sel) (Paper.likedBy sel)
            (PaperData.createdAt (Paper.data sel)) (Some (Env.now env))]>
        (World.papers w)
  ∧ World.comments w' = World.comments w
  ∧ App.isEditing (World.app w') = false.
Proof.
  intros Hs Hsel Hd _ Ht Htne Hc Hcne Hr. simpl.
  set (w1 := onApp handleEditClick w).
  assert (World.app w1
          = App.setIsEditing true
              (App.setEditContent (Paper.content sel)
                 (App.setEditTitle (Paper.title sel) (World.app w)))) as Ha.
  { unfold w1, onApp, handleEditClick. simpl. by rewrite Hsel. }
  assert (signedIn (World.app w1) = Some uid) as Hs1 by (by rewrite Ha).
  assert (App.selectedPaper (World.app w1) = Some sel) as Hsel1 by (by rewrite Ha).
  assert (App.editTitle (World.app w1) = Paper.title sel) as Ht1 by (by rewrite Ha).
  assert (App.editContent (World.app w1) = Paper.content sel) as Hc1 by (by rewrite Ha).
  assert (World.papers w1 = World.papers w) as Hps1 by done.
  assert (World.comments w1 = World.comments w) as Hcs1 by done.
  unfold handleUpdatePaper. rewrite Hs1, Hsel1, Ht1, Hc1, Ht, Hc, Hps1, Hd, Hr.
  unfold isEmpty.
  rewrite (bool_decide_eq_false_2 _ Htne), (bool_decide_eq_false_2 _ Hcne).
  simpl. split_and!; done.
Qed.

Lemma edit_then_save_stamps_only_witness :
  World.papers (handleUpdatePaper sampleEnv (onApp handleEditClick
                  (World.mk bothPapers
                     (App.setSelectedPaper (Some bobPaper) (App.initial "bob")) [])))
    !! "P1"
  = Some (PaperData.mk "Mine" "Draft" "bob" (Some 0%Z) (Some []) (Some 1%Z) (Some 7%Z)).
Proof.
  destruct (edit_then_save_stamps_only sampleEnv
              (World.mk bothPapers
                 (App.setSelectedPaper (Some bobPaper) (App.initial "bob")) [])
              "bob" bobPaper) as (Hps & _ & _);
    [reflexivity|reflexivity|reflexivity|by split|reflexivity|discriminate
    |reflexivity|discriminate|reflexivity|].
  rewrite Hps. apply lookup_insert_eq.
Defined.

(** ** The counter on well-formed papers *)

(** [X29] On a paper that satisfies the invariant the counter is never
    rounded. When [likedBy] has no duplicates, [likes = |likedBy|] and
    [likedBy] is short enough to be a JavaScript array (fewer than [2^32]
    entries), the transaction on JavaScript numbers commits exactly what the
    transaction computed in [Z] commits. *)
Theorem likeTransaction_exact_on_wellFormed (paperId callerId : string)
    (papers : gmap string PaperData.t) :
  (∀ d, papers !! paperId = Some d →
        wellFormed d ∧ (Z.of_nat (length (likedByOf d)) < 2 ^ 32)%Z) →
  likeTransaction paperId callerId papers = toggleLike paperId callerId papers.
Proof.
  intros Hwf. apply likeTransaction_safe. intros d Hd.
  destruct (Hwf d Hd) as [Hd1 Hd2]. by apply wellFormed_safe.
Qed.

Lemma likeTransaction_exact_on_wellFormed_witness :
  likeTransaction "P1" "bob" (onePaper (freshPaper "alice"))
    = toggleLike "P1" "bob" (onePaper (freshPaper "alice")).
Proof.
  apply likeTransaction_exact_on_wellFormed.
  intros d Hd. vm_compute in Hd. injection Hd as <-.
  split; [split; [apply NoDup_nil_2|reflexivity]|reflexivity].
Defined.
